(** * PC1550: a keypad emulator for the DSC PC1550 alarm panel

    A shallow embedding of [PC1550.cpp] / [PC1550.h] and the properties of
    its protocol engine.

    Target: the AVR boards the library was written for (Arduino 0022 / 1.0,
    ATmega).  There [int] is 16 bits wide, so a [uint16_t] is not promoted
    to a wider type before it is shifted, [unsigned long] is 32 bits and
    [uint8_t] arithmetic wraps at 256.  Every store into a fixed-width
    member is written with its wrap-around; the signed counter
    [iConsecutiveBeeps] wraps in two's complement, as the AVR addition
    does.  A shift whose count is negative or not below the width of the
    promoted operand has no meaning in C++: the model gives such a call the
    result [Undefined] instead of inventing one. *)

From Stdlib Require Import ZArith Bool List Ascii String Lia.
Import ListNotations.

Local Open Scope Z_scope.

(** * The model *)

(** ** Fixed-width integers *)

Definition uint8 (x : Z) : Z := x mod 256.
Definition uint16 (x : Z) : Z := x mod 65536.
Definition uint32 (x : Z) : Z := x mod 4294967296.
Definition int16 (x : Z) : Z := (x + 32768) mod 65536 - 32768.

(** ** Results of code that may shift by an invalid count *)

Inductive outcome (A : Type) : Type :=
| Done (a : A)
| Undefined.

Arguments Done {A} a.
Arguments Undefined {A}.

Definition bind {A B : Type} (c : outcome A) (k : A -> outcome B) : outcome B :=
  match c with
  | Done a => k a
  | Undefined => Undefined
  end.

Notation "x <- c ;; k" := (bind c (fun x => k))
  (at level 61, c at next level, right associativity).

(** [v << n] and [v >> n] where the promoted left operand is 16 bits wide
    ([int] or [unsigned int] on the AVR). *)
Definition valid_count (n : Z) : bool := (0 <=? n) && (n <? 16).

Definition shl (v n : Z) : outcome Z :=
  if valid_count n then Done (Z.shiftl v n) else Undefined.

Definition shr (v n : Z) : outcome Z :=
  if valid_count n then Done (Z.shiftr v n) else Undefined.

(** ** The key code table *)

Module KeyTable.

Local Open Scope char_scope.

(** [char PC1550::getKeyChar(byte value)] *)
Definition getKeyChar (value : Z) : ascii :=
  match value with
  | 0x41%Z => "1"   (* 0b01000001 *)
  | 0x21%Z => "2"   (* 0b00100001 *)
  | 0x11%Z => "3"   (* 0b00010001 *)
  | 0x42%Z => "4"   (* 0b01000010 *)
  | 0x22%Z => "5"   (* 0b00100010 *)
  | 0x12%Z => "6"   (* 0b00010010 *)
  | 0x44%Z => "7"   (* 0b01000100 *)
  | 0x24%Z => "8"   (* 0b00100100 *)
  | 0x14%Z => "9"   (* 0b00010100 *)
  | 0x48%Z => "*"   (* 0b01001000 *)
  | 0x28%Z => "0"   (* 0b00101000 *)
  | 0x18%Z => "#"   (* 0b00011000 *)
  | 0x40%Z => "F"   (* 0b01000000 *)
  | 0x20%Z => "A"   (* 0b00100000 *)
  | 0x10%Z => "P"   (* 0b00010000 *)
  | _ => Ascii.zero
  end.

(** [uint8_t PC1550::getKeyValue(char key)] *)
Definition getKeyValue (key : ascii) : Z :=
  match key with
  | "1" => 0x41
  | "2" => 0x21
  | "3" => 0x11
  | "4" => 0x42
  | "5" => 0x22
  | "6" => 0x12
  | "7" => 0x44
  | "8" => 0x24
  | "9" => 0x14
  | "*" => 0x48
  | "0" => 0x28
  | "#" => 0x18
  | "F" => 0x40
  | "A" => 0x20
  | "P" => 0x10
  | _ => 0
  end%Z.

(** The fifteen symbols of the keypad and their physical codes, in the
    order of the two [switch] statements. *)
Definition key_symbols : list ascii :=
  ["1"; "2"; "3"; "4"; "5"; "6"; "7"; "8"; "9"; "*"; "0"; "#"; "F"; "A"; "P"].

Definition key_codes : list Z :=
  [0x41; 0x21; 0x11; 0x42; 0x22; 0x12; 0x44; 0x24; 0x14;
   0x48; 0x28; 0x18; 0x40; 0x20; 0x10]%Z.

End KeyTable.

Export KeyTable.

(** ** The engine object *)

(** Direction of an I/O pin ([pinMode]).  The constructor writes [LOW] to
    the output latch of the data pin, so [OUTPUT] drives the line low and
    [INPUT] lets it float. *)
Inductive pin_mode : Type := INPUT | OUTPUT.

(** The members of [class PC1550] ([bKeyReleased] is declared but never
    initialised, read or written, and is left out), followed by the one
    piece of hardware state the class owns: the direction of its data
    pin. *)
Record PC1550 : Type := mkPC1550 {
  datapin : Z;
  clockpin : Z;
  pgmpin : Z;
  synchronized : bool;
  controller_bits_read : Z;
  controller_data : Z;
  available_controller_data : Z;
  bStateChanged : bool;
  keypad_bits_read : Z;
  keypad_data : Z;
  available_keypad_data : Z;
  pc16out_data : Z;
  available_pc16out_data : Z;
  key_released_data : Z;
  bKeyPressed : bool;
  iConsecutiveKeyPressCycles : Z;
  last_read : Z;
  last_clock : bool;
  cyclesWithoutKey : Z;
  transmitting : bool;
  keyHoldCycles : Z;
  key_to_send : Z;
  keypad_bits_sent : Z;
  iConsecutiveBeeps : Z;
  bTransmissionEnd : bool;
  datapin_mode : pin_mode
}.

(** Assignments to single members: [s |> set_f v] reads as [s.f = v]. *)
Definition set_synchronized (v : bool) (s : PC1550) : PC1550 :=
  mkPC1550 (datapin s) (clockpin s) (pgmpin s) v (controller_bits_read s)
    (controller_data s) (available_controller_data s) (bStateChanged s)
    (keypad_bits_read s) (keypad_data s) (available_keypad_data s)
    (pc16out_data s) (available_pc16out_data s) (key_released_data s)
    (bKeyPressed s) (iConsecutiveKeyPressCycles s) (last_read s)
    (last_clock s) (cyclesWithoutKey s) (transmitting s) (keyHoldCycles s)
    (key_to_send s) (keypad_bits_sent s) (iConsecutiveBeeps s)
    (bTransmissionEnd s) (datapin_mode s).

Definition set_controller_bits_read (v : Z) (s : PC1550) : PC1550 :=
  mkPC1550 (datapin s) (clockpin s) (pgmpin s) (synchronized s) v
    (controller_data s) (available_controller_data s) (bStateChanged s)
    (keypad_bits_read s) (keypad_data s) (available_keypad_data s)
    (pc16out_data s) (available_pc16out_data s) (key_released_data s)
    (bKeyPressed s) (iConsecutiveKeyPressCycles s) (last_read s)
    (last_clock s) (cyclesWithoutKey s) (transmitting s) (keyHoldCycles s)
    (key_to_send s) (keypad_bits_sent s) (iConsecutiveBeeps s)
    (bTransmissionEnd s) (datapin_mode s).

Definition set_controller_data (v : Z) (s : PC1550) : PC1550 :=
  mkPC1550 (datapin s) (clockpin s) (pgmpin s) (synchronized s)
    (controller_bits_read s) v (available_controller_data s)
    (bStateChanged s) (keypad_bits_read s) (keypad_data s)
    (available_keypad_data s) (pc16out_data s) (available_pc16out_data s)
    (key_released_data s) (bKeyPressed s) (iConsecutiveKeyPressCycles s)
    (last_read s) (last_clock s) (cyclesWithoutKey s) (transmitting s)
    (keyHoldCycles s) (key_to_send s) (keypad_bits_sent s)
    (iConsecutiveBeeps s) (bTransmissionEnd s) (datapin_mode s).

Definition set_available_controller_data (v : Z) (s : PC1550) : PC1550 :=
  mkPC1550 (datapin s) (clockpin s) (pgmpin s) (synchronized s)
    (controller_bits_read s) (controller_data s) v (bStateChanged s)
    (keypad_bits_read s) (keypad_data s) (available_keypad_data s)
    (pc16out_data s) (available_pc16out_data s) (key_released_data s)
    (bKeyPressed s) (iConsecutiveKeyPressCycles s) (last_read s)
    (last_clock s) (cyclesWithoutKey s) (transmitting s) (keyHoldCycles s)
    (key_to_send s) (keypad_bits_sent s) (iConsecutiveBeeps s)
    (bTransmissionEnd s) (datapin_mode s).

Definition set_bStateChanged (v : bool) (s : PC1550) : PC1550 :=
  mkPC1550 (datapin s) (clockpin s) (pgmpin s) (synchronized s)
    (controller_bits_read s) (controller_data s)
    (available_controller_data s) v (keypad_bits_read s) (keypad_data s)
    (available_keypad_data s) (pc16out_data s) (available_pc16out_data s)
    (key_released_data s) (bKeyPressed s) (iConsecutiveKeyPressCycles s)
    (last_read s) (last_clock s) (cyclesWithoutKey s) (transmitting s)
    (keyHoldCycles s) (key_to_send s) (keypad_bits_sent s)
    (iConsecutiveBeeps s) (bTransmissionEnd s) (datapin_mode s).

Definition set_keypad_bits_read (v : Z) (s : PC1550) : PC1550 :=
  mkPC1550 (datapin s) (clockpin s) (pgmpin s) (synchronized s)
    (controller_bits_read s) (controller_data s)
    (available_controller_data s) (bStateChanged s) v (keypad_data s)
    (available_keypad_data s) (pc16out_data s) (available_pc16out_data s)
    (key_released_data s) (bKeyPressed s) (iConsecutiveKeyPressCycles s)
    (last_read s) (last_clock s) (cyclesWithoutKey s) (transmitting s)
    (keyHoldCycles s) (key_to_send s) (keypad_bits_sent s)
    (iConsecutiveBeeps s) (bTransmissionEnd s) (datapin_mode s).

Definition set_keypad_data (v : Z) (s : PC1550) : PC1550 :=
  mkPC1550 (datapin s) (clockpin s) (pgmpin s) (synchronized s)
    (controller_bits_read s) (controller_data s)
    (available_controller_data s) (bStateChanged s) (keypad_bits_read s) v
    (available_keypad_data s) (pc16out_data s) (available_pc16out_data s)
    (key_released_data s) (bKeyPressed s) (iConsecutiveKeyPressCycles s)
    (last_read s) (last_clock s) (cyclesWithoutKey s) (transmitting s)
    (keyHoldCycles s) (key_to_send s) (keypad_bits_sent s)
    (iConsecutiveBeeps s) (bTransmissionEnd s) (datapin_mode s).

Definition set_available_keypad_data (v : Z) (s : PC1550) : PC1550 :=
  mkPC1550 (datapin s) (clockpin s) (pgmpin s) (synchronized s)
    (controller_bits_read s) (controller_data s)
    (available_controller_data s) (bStateChanged s) (keypad_bits_read s)
    (keypad_data s) v (pc16out_data s) (available_pc16out_data s)
    (key_released_data s) (bKeyPressed s) (iConsecutiveKeyPressCycles s)
    (last_read s) (last_clock s) (cyclesWithoutKey s) (transmitting s)
    (keyHoldCycles s) (key_to_send s) (keypad_bits_sent s)
    (iConsecutiveBeeps s) (bTransmissionEnd s) (datapin_mode s).

Definition set_pc16out_data (v : Z) (s : PC1550) : PC1550 :=
  mkPC1550 (datapin s) (clockpin s) (pgmpin s) (synchronized s)
    (controller_bits_read s) (controller_data s)
    (available_controller_data s) (bStateChanged s) (keypad_bits_read s)
    (keypad_data s) (available_keypad_data s) v (available_pc16out_data s)
    (key_released_data s) (bKeyPressed s) (iConsecutiveKeyPressCycles s)
    (last_read s) (last_clock s) (cyclesWithoutKey s) (transmitting s)
    (keyHoldCycles s) (key_to_send s) (keypad_bits_sent s)
    (iConsecutiveBeeps s) (bTransmissionEnd s) (datapin_mode s).

Definition set_available_pc16out_data (v : Z) (s : PC1550) : PC1550 :=
  mkPC1550 (datapin s) (clockpin s) (pgmpin s) (synchronized s)
    (controller_bits_read s) (controller_data s)
    (available_controller_data s) (bStateChanged s) (keypad_bits_read s)
    (keypad_data s) (available_keypad_data s) (pc16out_data s) v
    (key_released_data s) (bKeyPressed s) (iConsecutiveKeyPressCycles s)
    (last_read s) (last_clock s) (cyclesWithoutKey s) (transmitting s)
    (keyHoldCycles s) (key_to_send s) (keypad_bits_sent s)
    (iConsecutiveBeeps s) (bTransmissionEnd s) (datapin_mode s).

Definition set_key_released_data (v : Z) (s : PC1550) : PC1550 :=
  mkPC1550 (datapin s) (clockpin s) (pgmpin s) (synchronized s)
    (controller_bits_read s) (controller_data s)
    (available_controller_data s) (bStateChanged s) (keypad_bits_read s)
    (keypad_data s) (available_keypad_data s) (pc16out_data s)
    (available_pc16out_data s) v (bKeyPressed s)
    (iConsecutiveKeyPressCycles s) (last_read s) (last_clock s)
    (cyclesWithoutKey s) (transmitting s) (keyHoldCycles s) (key_to_send s)
    (keypad_bits_sent s) (iConsecutiveBeeps s) (bTransmissionEnd s)
    (datapin_mode s).

Definition set_bKeyPressed (v : bool) (s : PC1550) : PC1550 :=
  mkPC1550 (datapin s) (clockpin s) (pgmpin s) (synchronized s)
    (controller_bits_read s) (controller_data s)
    (available_controller_data s) (bStateChanged s) (keypad_bits_read s)
    (keypad_data s) (available_keypad_data s) (pc16out_data s)
    (available_pc16out_data s) (key_released_data s) v
    (iConsecutiveKeyPressCycles s) (last_read s) (last_clock s)
    (cyclesWithoutKey s) (transmitting s) (keyHoldCycles s) (key_to_send s)
    (keypad_bits_sent s) (iConsecutiveBeeps s) (bTransmissionEnd s)
    (datapin_mode s).

Definition set_iConsecutiveKeyPressCycles (v : Z) (s : PC1550) : PC1550 :=
  mkPC1550 (datapin s) (clockpin s) (pgmpin s) (synchronized s)
    (controller_bits_read s) (controller_data s)
    (available_controller_data s) (bStateChanged s) (keypad_bits_read s)
    (keypad_data s) (available_keypad_data s) (pc16out_data s)
    (available_pc16out_data s) (key_released_data s) (bKeyPressed s) v
    (last_read s) (last_clock s) (cyclesWithoutKey s) (transmitting s)
    (keyHoldCycles s) (key_to_send s) (keypad_bits_sent s)
    (iConsecutiveBeeps s) (bTransmissionEnd s) (datapin_mode s).

Definition set_last_read (v : Z) (s : PC1550) : PC1550 :=
  mkPC1550 (datapin s) (clockpin s) (pgmpin s) (synchronized s)
    (controller_bits_read s) (controller_data s)
    (available_controller_data s) (bStateChanged s) (keypad_bits_read s)
    (keypad_data s) (available_keypad_data s) (pc16out_data s)
    (available_pc16out_data s) (key_released_data s) (bKeyPressed s)
    (iConsecutiveKeyPressCycles s) v (last_clock s) (cyclesWithoutKey s)
    (transmitting s) (keyHoldCycles s) (key_to_send s) (keypad_bits_sent s)
    (iConsecutiveBeeps s) (bTransmissionEnd s) (datapin_mode s).

Definition set_last_clock (v : bool) (s : PC1550) : PC1550 :=
  mkPC1550 (datapin s) (clockpin s) (pgmpin s) (synchronized s)
    (controller_bits_read s) (controller_data s)
    (available_controller_data s) (bStateChanged s) (keypad_bits_read s)
    (keypad_data s) (available_keypad_data s) (pc16out_data s)
    (available_pc16out_data s) (key_released_data s) (bKeyPressed s)
    (iConsecutiveKeyPressCycles s) (last_read s) v (cyclesWithoutKey s)
    (transmitting s) (keyHoldCycles s) (key_to_send s) (keypad_bits_sent s)
    (iConsecutiveBeeps s) (bTransmissionEnd s) (datapin_mode s).

Definition set_cyclesWithoutKey (v : Z) (s : PC1550) : PC1550 :=
  mkPC1550 (datapin s) (clockpin s) (pgmpin s) (synchronized s)
    (controller_bits_read s) (controller_data s)
    (available_controller_data s) (bStateChanged s) (keypad_bits_read s)
    (keypad_data s) (available_keypad_data s) (pc16out_data s)
    (available_pc16out_data s) (key_released_data s) (bKeyPressed s)
    (iConsecutiveKeyPressCycles s) (last_read s) (last_clock s) v
    (transmitting s) (keyHoldCycles s) (key_to_send s) (keypad_bits_sent s)
    (iConsecutiveBeeps s) (bTransmissionEnd s) (datapin_mode s).

Definition set_transmitting (v : bool) (s : PC1550) : PC1550 :=
  mkPC1550 (datapin s) (clockpin s) (pgmpin s) (synchronized s)
    (controller_bits_read s) (controller_data s)
    (available_controller_data s) (bStateChanged s) (keypad_bits_read s)
    (keypad_data s) (available_keypad_data s) (pc16out_data s)
    (available_pc16out_data s) (key_released_data s) (bKeyPressed s)
    (iConsecutiveKeyPressCycles s) (last_read s) (last_clock s)
    (cyclesWithoutKey s) v (keyHoldCycles s) (key_to_send s)
    (keypad_bits_sent s) (iConsecutiveBeeps s) (bTransmissionEnd s)
    (datapin_mode s).

Definition set_keyHoldCycles (v : Z) (s : PC1550) : PC1550 :=
  mkPC1550 (datapin s) (clockpin s) (pgmpin s) (synchronized s)
    (controller_bits_read s) (controller_data s)
    (available_controller_data s) (bStateChanged s) (keypad_bits_read s)
    (keypad_data s) (available_keypad_data s) (pc16out_data s)
    (available_pc16out_data s) (key_released_data s) (bKeyPressed s)
    (iConsecutiveKeyPressCycles s) (last_read s) (last_clock s)
    (cyclesWithoutKey s) (transmitting s) v (key_to_send s)
    (keypad_bits_sent s) (iConsecutiveBeeps s) (bTransmissionEnd s)
    (datapin_mode s).

Definition set_key_to_send (v : Z) (s : PC1550) : PC1550 :=
  mkPC1550 (datapin s) (clockpin s) (pgmpin s) (synchronized s)
    (controller_bits_read s) (controller_data s)
    (available_controller_data s) (bStateChanged s) (keypad_bits_read s)
    (keypad_data s) (available_keypad_data s) (pc16out_data s)
    (available_pc16out_data s) (key_released_data s) (bKeyPressed s)
    (iConsecutiveKeyPressCycles s) (last_read s) (last_clock s)
    (cyclesWithoutKey s) (transmitting s) (keyHoldCycles s) v
    (keypad_bits_sent s) (iConsecutiveBeeps s) (bTransmissionEnd s)
    (datapin_mode s).

Definition set_keypad_bits_sent (v : Z) (s : PC1550) : PC1550 :=
  mkPC1550 (datapin s) (clockpin s) (pgmpin s) (synchronized s)
    (controller_bits_read s) (controller_data s)
    (available_controller_data s) (bStateChanged s) (keypad_bits_read s)
    (keypad_data s) (available_keypad_data s) (pc16out_data s)
    (available_pc16out_data s) (key_released_data s) (bKeyPressed s)
    (iConsecutiveKeyPressCycles s) (last_read s) (last_clock s)
    (cyclesWithoutKey s) (transmitting s) (keyHoldCycles s) (key_to_send s)
    v (iConsecutiveBeeps s) (bTransmissionEnd s) (datapin_mode s).

Definition set_iConsecutiveBeeps (v : Z) (s : PC1550) : PC1550 :=
  mkPC1550 (datapin s) (clockpin s) (pgmpin s) (synchronized s)
    (controller_bits_read s) (controller_data s)
    (available_controller_data s) (bStateChanged s) (keypad_bits_read s)
    (keypad_data s) (available_keypad_data s) (pc16out_data s)
    (available_pc16out_data s) (key_released_data s) (bKeyPressed s)
    (iConsecutiveKeyPressCycles s) (last_read s) (last_clock s)
    (cyclesWithoutKey s) (transmitting s) (keyHoldCycles s) (key_to_send s)
    (keypad_bits_sent s) v (bTransmissionEnd s) (datapin_mode s).

Definition set_bTransmissionEnd (v : bool) (s : PC1550) : PC1550 :=
  mkPC1550 (datapin s) (clockpin s) (pgmpin s) (synchronized s)
    (controller_bits_read s) (controller_data s)
    (available_controller_data s) (bStateChanged s) (keypad_bits_read s)
    (keypad_data s) (available_keypad_data s) (pc16out_data s)
    (available_pc16out_data s) (key_released_data s) (bKeyPressed s)
    (iConsecutiveKeyPressCycles s) (last_read s) (last_clock s)
    (cyclesWithoutKey s) (transmitting s) (keyHoldCycles s) (key_to_send s)
    (keypad_bits_sent s) (iConsecutiveBeeps s) v (datapin_mode s).

Definition set_datapin_mode (v : pin_mode) (s : PC1550) : PC1550 :=
  mkPC1550 (datapin s) (clockpin s) (pgmpin s) (synchronized s)
    (controller_bits_read s) (controller_data s)
    (available_controller_data s) (bStateChanged s) (keypad_bits_read s)
    (keypad_data s) (available_keypad_data s) (pc16out_data s)
    (available_pc16out_data s) (key_released_data s) (bKeyPressed s)
    (iConsecutiveKeyPressCycles s) (last_read s) (last_clock s)
    (cyclesWithoutKey s) (transmitting s) (keyHoldCycles s) (key_to_send s)
    (keypad_bits_sent s) (iConsecutiveBeeps s) (bTransmissionEnd s) v.

Notation "s |> f" := (f s) (at level 50, left associativity, only parsing).

(** ** Construction *)

(** [PC1550::PC1550(datapin, clockpin, pgmpin)]; [now] is what [micros()]
    returns inside the constructor. *)
Definition PC1550_new (dp cp pp now : Z) : PC1550 :=
  {| datapin := uint8 dp;
     clockpin := uint8 cp;
     pgmpin := uint8 pp;
     synchronized := false;
     last_read := uint32 now;
     last_clock := true;               (* HIGH *)
     key_to_send := 0;
     keyHoldCycles := 0;
     bKeyPressed := false;
     key_released_data := 0;
     cyclesWithoutKey := 0;
     transmitting := false;
     controller_bits_read := 0;
     controller_data := 0;
     available_controller_data := 0;
     keypad_bits_read := 0;
     keypad_data := 0;
     available_keypad_data := 0;
     keypad_bits_sent := 0;
     iConsecutiveBeeps := 0;
     iConsecutiveKeyPressCycles := 0;
     bStateChanged := false;
     bTransmissionEnd := false;
     pc16out_data := 0;
     available_pc16out_data := 0;
     datapin_mode := INPUT |}.

(** ** State queries *)

Definition keypadStateChanged (s : PC1550) : bool := bStateChanged s.

Definition keyPressed (s : PC1550) : ascii :=
  if negb (bKeyPressed s) then Ascii.zero
  else getKeyChar (available_keypad_data s).

Definition keyReleased (s : PC1550) : ascii :=
  if key_released_data s =? 0 then Ascii.zero
  else getKeyChar (key_released_data s).

(** [(available_controller_data << k >> 15)] converted to [bool]: the left
    shift is done in 16 bits and drops what leaves the word. *)
Definition status_bit (k : Z) (s : PC1550) : bool :=
  negb (Z.shiftr (uint16 (Z.shiftl (available_controller_data s) k)) 15 =? 0).

Definition Zone1Light (s : PC1550) : bool :=
  negb (Z.shiftr (available_controller_data s) 15 =? 0).
Definition Zone2Light : PC1550 -> bool := status_bit 1.
Definition Zone3Light : PC1550 -> bool := status_bit 2.
Definition Zone4Light : PC1550 -> bool := status_bit 3.
Definition Zone5Light : PC1550 -> bool := status_bit 4.
Definition Zone6Light : PC1550 -> bool := status_bit 5.
Definition ReadyLight : PC1550 -> bool := status_bit 8.
Definition ArmedLight : PC1550 -> bool := status_bit 9.
Definition MemoryLight : PC1550 -> bool := status_bit 10.
Definition BypassLight : PC1550 -> bool := status_bit 11.
Definition TroubleLight : PC1550 -> bool := status_bit 12.
Definition Beep : PC1550 -> bool := status_bit 15.

Definition consecutiveBeeps (s : PC1550) : Z := uint16 (iConsecutiveBeeps s).
Definition atTransmissionEnd (s : PC1550) : bool := bTransmissionEnd s.
Definition consecutiveKeyPresses (s : PC1550) : Z :=
  iConsecutiveKeyPressCycles s.

(** ** Requesting a key *)

Definition readyForKeyPress (s : PC1550) : bool :=
  if (0 <? keyHoldCycles s) || (cyclesWithoutKey s <? 1) then false
  else true.

(** [bool PC1550::sendKey(char c, uint8_t holdCycles)]: the result and the
    object afterwards.  The argument arrives converted to [uint8_t]. *)
Definition sendKey (s : PC1550) (c : ascii) (holdCycles : Z) : bool * PC1550 :=
  if negb (readyForKeyPress s) then (false, s)
  else
    let keyval := getKeyValue c in
    if keyval =? 0 then (false, s)
    else (true, s |> set_key_to_send keyval
                  |> set_keyHoldCycles (uint8 holdCycles)).

(** ** The per-poll tick *)

(** What the hardware does during one call, in program order. *)
Inductive event : Type :=
| DigitalRead (pin : Z) (level : bool)
| Micros (t : Z)
| DelayMicroseconds (us : Z)
| PinMode (pin : Z) (m : pin_mode).

(** What the hardware answers during one call of [processClockCycle]: the
    three line levels and the time sampled at entry, the two reads of the
    data line made in a keypad slot, and the time read on a clock edge.
    A level is [true] when [digitalRead] returns [HIGH]. *)
Record readings : Type := mkReadings {
  clock : bool;
  data : bool;
  pgmData : bool;
  now : Z;
  data_switch : bool;
  data_settled : bool;
  now_edge : Z
}.

Definition time_since_last_read (s : PC1550) (r : readings) : Z :=
  uint32 (now r - last_read s).

(** [!clock && time_since_last_read > 25000 && time_since_last_read < 28000] *)
Definition idle_gap_seen (s : PC1550) (r : readings) : bool :=
  negb (clock r)
  && (25000 <? time_since_last_read s r)
  && (time_since_last_read s r <? 28000).

Definition resynchronize (s : PC1550) : PC1550 :=
  s |> set_synchronized true
    |> set_controller_bits_read 0
    |> set_controller_data 0
    |> set_pc16out_data 0
    |> set_keypad_bits_read 0
    |> set_keypad_data 0
    |> set_keypad_bits_sent 0.

(** [!clock && last_clock != clock] and [clock && last_clock != clock] *)
Definition clock_fell (s : PC1550) (r : readings) : bool :=
  negb (clock r) && negb (Bool.eqb (last_clock s) (clock r)).

Definition clock_rose (s : PC1550) (r : readings) : bool :=
  clock r && negb (Bool.eqb (last_clock s) (clock r)).

(** The body of the first edge branch: one keypad bit, between two of the
    first eight controller bits. *)
Definition read_keypad_bit (s : PC1550) (r : readings)
  : outcome (PC1550 * list event) :=
  if (0 <? controller_bits_read s) && (controller_bits_read s <? 8) then
    let bitValue := Z.b2z (negb (data_settled r)) in
    v <- shl bitValue (6 - keypad_bits_read s) ;;
    Done (s |> set_keypad_data (uint8 (Z.lor (keypad_data s) v))
            |> set_keypad_bits_read (uint8 (keypad_bits_read s + 1)),
          [DigitalRead (datapin s) (data_switch r);
           DelayMicroseconds 100;
           DigitalRead (datapin s) (data_settled r)])
  else Done (s, []).

(** [if (synchronized && controller_bits_read == 1) ...] *)
Definition first_bit (s : PC1550) : PC1550 :=
  if synchronized s && (controller_bits_read s =? 1) then
    if negb (key_to_send s =? 0) then
      s |> set_cyclesWithoutKey 0 |> set_transmitting true
    else
      s |> set_cyclesWithoutKey (uint8 (cyclesWithoutKey s + 1))
  else s.

(** [if (controller_bits_read >= 8) transmitting = false;] *)
Definition sanity_check (s : PC1550) : PC1550 :=
  if 8 <=? controller_bits_read s then s |> set_transmitting false else s.

(** [if (transmitting) ...] *)
Definition transmit_key_bit (s : PC1550) : outcome (PC1550 * list event) :=
  if transmitting s then
    b <- shr (key_to_send s) (7 - controller_bits_read s) ;;
    let driven :=
      if negb (Z.land b 1 =? 0)
      then (s |> set_datapin_mode OUTPUT, [PinMode (datapin s) OUTPUT])
      else (s, []) in
    let s1 := fst driven in
    let s2 :=
      if controller_bits_read s1 =? 7 then
        let s' :=
          if 0 <? keyHoldCycles s1
          then s1 |> set_keyHoldCycles (uint8 (keyHoldCycles s1 - 1))
          else s1 in
        if keyHoldCycles s' =? 0 then s' |> set_key_to_send 0 else s'
      else s1 in
    Done (s2, snd driven)
  else Done (s, []).

(** The body of the second edge branch: one controller bit. *)
Definition read_controller_bit (s : PC1550) (r : readings)
  : outcome (PC1550 * list event) :=
  let s := s |> set_last_read (uint32 (now_edge r)) in
  dataValue <- shl (Z.b2z (data r)) (15 - controller_bits_read s) ;;
  let s := s |> set_controller_data
                  (uint16 (Z.lor (controller_data s) (uint16 dataValue))) in
  dataValue <- shl (Z.b2z (pgmData r)) (15 - controller_bits_read s) ;;
  let s := s |> set_pc16out_data
                  (uint16 (Z.lor (pc16out_data s) (uint16 dataValue))) in
  let s := s |> set_controller_bits_read (uint8 (controller_bits_read s + 1)) in
  let s := first_bit s in
  let s := sanity_check s in
  let s := s |> set_datapin_mode INPUT in
  t <- transmit_key_bit s ;;
  Done (fst t, [Micros (now_edge r); PinMode (datapin s) INPUT] ++ snd t).

(** The press / release classification made when a frame is complete. *)
Definition classify_keypad (s : PC1550) : PC1550 :=
  if negb (keypad_data s =? 0) then
    if available_keypad_data s =? keypad_data s then
      s |> set_bKeyPressed false
        |> set_key_released_data 0
        |> set_iConsecutiveKeyPressCycles
             (uint8 (iConsecutiveKeyPressCycles s + 1))
    else if available_keypad_data s =? 0 then
      s |> set_bKeyPressed true
        |> set_key_released_data 0
        |> set_iConsecutiveKeyPressCycles 1
    else if negb (available_keypad_data s =? 0) then
      s |> set_bKeyPressed true
        |> set_iConsecutiveKeyPressCycles 1
        |> set_key_released_data (available_keypad_data s)
    else s
  else
    if negb (available_keypad_data s =? 0) then
      s |> set_bKeyPressed false
        |> set_key_released_data (available_keypad_data s)
    else if available_keypad_data s =? 0 then
      s |> set_key_released_data 0
        |> set_bKeyPressed false
        |> set_iConsecutiveKeyPressCycles 0
    else s.

(** [if (synchronized && controller_bits_read == 16) ...] *)
Definition frame_received (s : PC1550) : bool :=
  synchronized s && (controller_bits_read s =? 16).

Definition end_of_frame (s : PC1550) : PC1550 :=
  if frame_received s then
    let s :=
      if negb (available_controller_data s =? controller_data s)
      then s |> set_bStateChanged true
      else s |> set_bStateChanged false in
    let s := classify_keypad s in
    let s := s |> set_available_keypad_data (keypad_data s) in
    let s := s |> set_available_controller_data (controller_data s) in
    let s := s |> set_available_pc16out_data (pc16out_data s) in
    let s :=
      if negb (Beep s) then s |> set_iConsecutiveBeeps 0
      else s |> set_iConsecutiveBeeps (int16 (iConsecutiveBeeps s + 1)) in
    s |> set_bTransmissionEnd true
      |> set_synchronized false
      |> set_controller_bits_read 0
  else s.

(** The object as the three edge-independent steps leave it, before the
    end-of-frame test. *)
Definition before_frame_test (s : PC1550) (r : readings)
  : outcome (PC1550 * list event) :=
  let s := s |> set_bTransmissionEnd false in
  let entry :=
    [DigitalRead (clockpin s) (clock r);
     DigitalRead (datapin s) (data r);
     DigitalRead (pgmpin s) (pgmData r);
     Micros (now r)] in
  let s := if idle_gap_seen s r then resynchronize s else s in
  k <- (if clock_fell s r then read_keypad_bit s r else Done (s, [])) ;;
  c <- (if clock_rose (fst k) r then read_controller_bit (fst k) r
        else Done (fst k, [])) ;;
  Done (fst c, entry ++ snd k ++ snd c).

(** [void PC1550::processClockCycle()] *)
Definition processClockCycle (s : PC1550) (r : readings)
  : outcome (PC1550 * list event) :=
  m <- before_frame_test s r ;;
  Done (end_of_frame (fst m) |> set_last_clock (clock r), snd m).

(** ** Runs of the caller's loop *)

(** Objects the public interface can produce. *)
Inductive reachable : PC1550 -> Prop :=
| reach_new dp cp pp t : reachable (PC1550_new dp cp pp t)
| reach_poll s r s' tr :
    reachable s -> processClockCycle s r = Done (s', tr) -> reachable s'
| reach_send s c n : reachable s -> reachable (snd (sendKey s c n)).

(** A poll on which the engine counts a frame that starts with no key to
    send: the clock rises, the engine is synchronized, the bit is the first
    of its frame and no key code is pending.  It is the one place where
    [cyclesWithoutKey] is incremented. *)
Definition quiet_frame_start (s : PC1550) (r : readings) : bool :=
  clock_rose s r
  && synchronized s
  && (uint8 (controller_bits_read s + 1) =? 1)
  && (key_to_send s =? 0).

(** Objects produced by runs in which no poll was yet a quiet frame
    start. *)
Inductive before_first_quiet_frame : PC1550 -> Prop :=
| bq_new dp cp pp t : before_first_quiet_frame (PC1550_new dp cp pp t)
| bq_poll s r s' tr :
    before_first_quiet_frame s ->
    quiet_frame_start s r = false ->
    processClockCycle s r = Done (s', tr) ->
    before_first_quiet_frame s'
| bq_send s c n :
    before_first_quiet_frame s ->
    before_first_quiet_frame (snd (sendKey s c n)).

(** ** Status lights *)

Definition is_uint16 (x : Z) : Prop := 0 <= x < 65536.

(** ** One poll, by the level of the clock line *)

Arguments uint8 : simpl never.
Arguments uint16 : simpl never.
Arguments uint32 : simpl never.
Arguments int16 : simpl never.

(** The events of the four reads made at entry. *)
Definition entry_events (s : PC1550) (r : readings) : list event :=
  [DigitalRead (clockpin s) (clock r);
   DigitalRead (datapin s) (data r);
   DigitalRead (pgmpin s) (pgmData r);
   Micros (now r)].

(** ** One controller bit *)

(** The frame position once the bit is counted. *)
Definition slot (s : PC1550) : Z := uint8 (controller_bits_read s + 1).

(** [transmitting] as the first-bit test and the sanity check leave it. *)
Definition sending (s : PC1550) : bool :=
  if 8 <=? slot s then false
  else if synchronized s && (slot s =? 1) && negb (key_to_send s =? 0)
       then true
       else transmitting s.

(** Whether this slot pulls the data line low: bit [7 - slot] of the key
    code, while transmitting. *)
Definition pulls_low (s : PC1550) : bool :=
  sending s && Z.testbit (key_to_send s) (7 - slot s).

Definition hold_after_bit (s : PC1550) : Z :=
  if sending s && (slot s =? 7) && (0 <? keyHoldCycles s)
  then uint8 (keyHoldCycles s - 1)
  else keyHoldCycles s.

(** The object after the second edge branch, member by member. *)
Definition after_bit (s : PC1550) (r : readings) : PC1550 :=
  {| datapin := datapin s;
     clockpin := clockpin s;
     pgmpin := pgmpin s;
     synchronized := synchronized s;
     controller_bits_read := slot s;
     controller_data :=
       uint16 (Z.lor (controller_data s)
                 (uint16 (Z.shiftl (Z.b2z (data r))
                            (15 - controller_bits_read s))));
     available_controller_data := available_controller_data s;
     bStateChanged := bStateChanged s;
     keypad_bits_read := keypad_bits_read s;
     keypad_data := keypad_data s;
     available_keypad_data := available_keypad_data s;
     pc16out_data :=
       uint16 (Z.lor (pc16out_data s)
                 (uint16 (Z.shiftl (Z.b2z (pgmData r))
                            (15 - controller_bits_read s))));
     available_pc16out_data := available_pc16out_data s;
     key_released_data := key_released_data s;
     bKeyPressed := bKeyPressed s;
     iConsecutiveKeyPressCycles := iConsecutiveKeyPressCycles s;
     last_read := uint32 (now_edge r);
     last_clock := last_clock s;
     cyclesWithoutKey :=
       if synchronized s && (slot s =? 1) then
         if negb (key_to_send s =? 0) then 0
         else uint8 (cyclesWithoutKey s + 1)
       else cyclesWithoutKey s;
     transmitting := sending s;
     keyHoldCycles := hold_after_bit s;
     key_to_send :=
       if sending s && (slot s =? 7) && (hold_after_bit s =? 0) then 0
       else key_to_send s;
     keypad_bits_sent := keypad_bits_sent s;
     iConsecutiveBeeps := iConsecutiveBeeps s;
     bTransmissionEnd := bTransmissionEnd s;
     datapin_mode := if pulls_low s then OUTPUT else INPUT |}.

Definition bit_events (s : PC1550) (r : readings) : list event :=
  [Micros (now_edge r); PinMode (datapin s) INPUT]
  ++ (if pulls_low s then [PinMode (datapin s) OUTPUT] else []).

(** ** One keypad bit *)

(** The object after the first edge branch sampled a keypad bit. *)
Definition after_keypad_bit (s : PC1550) (r : readings) : PC1550 :=
  s |> set_keypad_data
         (uint8 (Z.lor (keypad_data s)
                   (Z.shiftl (Z.b2z (negb (data_settled r)))
                      (6 - keypad_bits_read s))))
    |> set_keypad_bits_read (uint8 (keypad_bits_read s + 1)).

Definition keypad_events (s : PC1550) (r : readings) : list event :=
  [DigitalRead (datapin s) (data_switch r);
   DelayMicroseconds 100;
   DigitalRead (datapin s) (data_settled r)].

Definition in_keypad_window (s : PC1550) : bool :=
  (0 <? controller_bits_read s) && (controller_bits_read s <? 8).

(** ** The end of a frame *)

(** The object after the end-of-frame block, member by member. *)
Definition frame_closed (s : PC1550) : PC1550 :=
  {| datapin := datapin s;
     clockpin := clockpin s;
     pgmpin := pgmpin s;
     synchronized := false;
     controller_bits_read := 0;
     controller_data := controller_data s;
     available_controller_data := controller_data s;
     bStateChanged := negb (available_controller_data s =? controller_data s);
     keypad_bits_read := keypad_bits_read s;
     keypad_data := keypad_data s;
     available_keypad_data := keypad_data s;
     pc16out_data := pc16out_data s;
     available_pc16out_data := pc16out_data s;
     key_released_data :=
       if keypad_data s =? 0 then available_keypad_data s
       else if available_keypad_data s =? keypad_data s then 0
       else available_keypad_data s;
     bKeyPressed :=
       negb (keypad_data s =? 0)
       && negb (available_keypad_data s =? keypad_data s);
     iConsecutiveKeyPressCycles :=
       if keypad_data s =? 0 then
         if available_keypad_data s =? 0 then 0
         else iConsecutiveKeyPressCycles s
       else if available_keypad_data s =? keypad_data s
            then uint8 (iConsecutiveKeyPressCycles s + 1)
            else 1;
     last_read := last_read s;
     last_clock := last_clock s;
     cyclesWithoutKey := cyclesWithoutKey s;
     transmitting := transmitting s;
     keyHoldCycles := keyHoldCycles s;
     key_to_send := key_to_send s;
     keypad_bits_sent := keypad_bits_sent s;
     iConsecutiveBeeps :=
       if Z.testbit (controller_data s) 0
       then int16 (iConsecutiveBeeps s + 1)
       else 0;
     bTransmissionEnd := true;
     datapin_mode := datapin_mode s |}.

(** ** One poll in normal form *)

Definition gap_handled (s : PC1550) (r : readings) : PC1550 :=
  if idle_gap_seen s r
  then resynchronize (s |> set_bTransmissionEnd false)
  else s |> set_bTransmissionEnd false.

(** Whether this poll samples a keypad bit. *)
Definition samples_keypad (s : PC1550) (r : readings) : bool :=
  clock_fell s r && in_keypad_window (gap_handled s r).

(** The object when the end-of-frame test is reached. *)
Definition at_frame_test (s : PC1550) (r : readings) : PC1550 :=
  if clock_rose s r then after_bit (s |> set_bTransmissionEnd false) r
  else if samples_keypad s r then after_keypad_bit (gap_handled s r) r
  else gap_handled s r.

Definition poll_events (s : PC1550) (r : readings) : list event :=
  entry_events s r
  ++ (if clock_rose s r then bit_events s r
      else if samples_keypad s r then keypad_events s r
      else []).

(** The two shifts whose count depends on the object are in range. *)
Definition poll_defined (s : PC1550) (r : readings) : Prop :=
  (clock_rose s r = true -> 0 <= controller_bits_read s <= 15)
  /\ (samples_keypad s r = true ->
      0 <= 6 - keypad_bits_read (gap_handled s r) < 16).

(** ** Runs and sample frames *)

(** Consecutive polls. *)
Fixpoint polls (s : PC1550) (rs : list readings) : outcome PC1550 :=
  match rs with
  | [] => Done s
  | r :: rs => m <- processClockCycle s r ;; polls (fst m) rs
  end.

(** A poll that finds the clock line idle, one that finds the clock
    switched with a status bit [d] and a PC16-OUT bit [p] on the lines,
    and one that finds the clock back idle with the level [k] on the data
    line after the settling delay. *)
Definition idle_poll (t : Z) : readings :=
  mkReadings false true false t true true t.

Definition bit_poll (t : Z) (d p : bool) : readings :=
  mkReadings true d p t true true t.

Definition keypad_poll (t : Z) (k : bool) : readings :=
  mkReadings false true false t true k t.

(** Sixteen clock cycles of about 1500 microseconds, one poll per half
    cycle; [keys] are the levels of the data line in the keypad slots
    ([true], the idle level, once the list is used up). *)
Fixpoint clock_cycles (t : Z) (bits : list (bool * bool)) (keys : list bool)
  : list readings :=
  match bits with
  | [] => []
  | (d, p) :: bits =>
      bit_poll t d p
      :: keypad_poll (t + 750) (hd true keys)
      :: clock_cycles (t + 1500) bits (tl keys)
  end.

(** A frame sent by the panel after the bit boundary at time [t]: the
    clock idles for 26.5 ms, then runs its cycles. *)
Definition panel_frame (t : Z) (bits : list (bool * bool)) (keys : list bool)
  : list readings :=
  idle_poll (t + 26500) :: clock_cycles (t + 26600) bits keys.

(** Status word 0xA081 (zones 1 and 3, ready, beep) with the PC16-OUT
    line idle, and the data line levels of the key 5 (code 0x22). *)
Definition sample_bits : list (bool * bool) :=
  map (fun d => (d, false))
    [true; false; true; false; false; false; false; false;
     true; false; false; false; false; false; false; true].

Definition key5_levels : list bool :=
  [true; false; true; true; true; false; true].

(** ** The end of a frame in a poll *)

(** The object of the sample run when fifteen bits of the first frame have
    been read. *)
Definition before_last_bit : PC1550 :=
  Eval vm_compute in
    match polls (PC1550_new 17 18 15 0)
            (firstn 31 (panel_frame 0 sample_bits key5_levels)) with
    | Done s => s
    | Undefined => PC1550_new 17 18 15 0
    end.

(** ** The idle-gap test *)

Definition in_band (s : PC1550) (r : readings) : Prop :=
  clock r = false /\ 25000 < time_since_last_read s r < 28000.

(** ** Keypad slots *)

(** The object of the sample run after the second status bit; the poll
    that follows samples the second keypad bit, with the data line low. *)
Definition after_second_bit : PC1550 :=
  Eval vm_compute in
    match polls (PC1550_new 17 18 15 0)
            (firstn 4 (panel_frame 0 sample_bits key5_levels)) with
    | Done s => s
    | Undefined => PC1550_new 17 18 15 0
    end.

(** ** Transmit slots *)

(** The sample run with a key: a first frame without a key, then the
    request for the key 5 held for 3 frames, then the idle gap and the
    first bit and keypad slot of the next frame. *)
Definition key_requested : PC1550 :=
  Eval vm_compute in
    match polls (PC1550_new 17 18 15 0) (panel_frame 0 sample_bits []) with
    | Done s => snd (sendKey s "5"%char 3)
    | Undefined => PC1550_new 17 18 15 0
    end.

Definition sending_second_bit : PC1550 :=
  Eval vm_compute in
    match polls key_requested
            (firstn 3 (panel_frame 49100 sample_bits [])) with
    | Done s => s
    | Undefined => PC1550_new 17 18 15 0
    end.

(** ** Press and release *)

(** The sample run after a frame with the key 5 and fifteen bits of a
    frame without a key. *)
Definition before_release : PC1550 :=
  Eval vm_compute in
    match polls (PC1550_new 17 18 15 0)
            (panel_frame 0 sample_bits key5_levels
             ++ firstn 31 (panel_frame 49100 sample_bits [])) with
    | Done s => s
    | Undefined => PC1550_new 17 18 15 0
    end.

(** ** The first key *)

(** An object that has seen the idle gap but no bit yet. *)
Definition synchronized_only : PC1550 :=
  Eval vm_compute in
    match polls (PC1550_new 17 18 15 0) [idle_poll 26500] with
    | Done s => s
    | Undefined => PC1550_new 17 18 15 0
    end.

(** ** Synchronized frames *)

(** Whether the data pin is switched to output, pulling the line low. *)
Definition driven (s : PC1550) : bool :=
  match datapin_mode s with
  | OUTPUT => true
  | INPUT => false
  end.

(** What a poll shows of a transmit slot: when it counts a bit, whether
    the pin is driven afterwards. *)
Definition slot_seen (s : PC1550) (r : readings) (s1 : PC1550) : list bool :=
  if clock_rose s r then [driven s1] else [].

(** The polls of a synchronized frame after the idle gap, up to and
    including the first poll that sets bTransmissionEnd; none of them sees
    an idle gap again.  The list holds one entry per bit counted. *)
Inductive frame_body : PC1550 -> list readings -> list bool -> PC1550 -> Prop :=
| fb_end s r s' tr :
    idle_gap_seen s r = false ->
    processClockCycle s r = Done (s', tr) ->
    bTransmissionEnd s' = true ->
    frame_body s [r] (slot_seen s r s') s'
| fb_step s r s1 tr rs ds s' :
    idle_gap_seen s r = false ->
    processClockCycle s r = Done (s1, tr) ->
    bTransmissionEnd s1 = false ->
    frame_body s1 rs ds s' ->
    frame_body s (r :: rs) (slot_seen s r s1 ++ ds) s'.

(** A state that is not at the start of a synchronized frame: a bit
    counted there is not the first bit of one. *)
Definition past_frame_start (s : PC1550) : Prop :=
  synchronized s = false \/ 1 <= controller_bits_read s.

(** A completed synchronized frame as the caller's loop sees it.  Before
    the body come any number of polls: polls that see no idle gap and count
    no first bit of a synchronized frame (the clock idle, or bits of a
    frame already under way or not synchronized), and polls that see the
    idle gap, as many as fall inside its band.  The body starts at
    position 0 of a synchronized frame and sees no idle gap again. *)
Inductive frame : PC1550 -> list readings -> list bool -> PC1550 -> Prop :=
| fr_wait s r s1 tr rs ds s' :
    idle_gap_seen s r = false ->
    (clock_rose s r = true -> past_frame_start s) ->
    processClockCycle s r = Done (s1, tr) ->
    frame s1 rs ds s' ->
    frame s (r :: rs) ds s'
| fr_gap s r s1 tr rs ds s' :
    idle_gap_seen s r = true ->
    processClockCycle s r = Done (s1, tr) ->
    frame s1 rs ds s' ->
    frame s (r :: rs) ds s'
| fr_body s rs ds s' :
    synchronized s = true ->
    controller_bits_read s = 0 ->
    frame_body s rs ds s' ->
    frame s rs ds s'.

(** Consecutive completed frames, with what each showed of its slots. *)
Inductive frames : PC1550 -> list (list bool) -> PC1550 -> Prop :=
| frames_nil s : frames s [] s
| frames_cons s rs ds s1 dss s' :
    frame s rs ds s1 ->
    frames s1 dss s' ->
    frames s (ds :: dss) s'.

(** The sixteen slots of a frame that sends the key code [k]: bits 6..0
    of the code in slots 1..7, nothing in slots 8..16. *)
Definition key_pattern (k : Z) : list bool :=
  [Z.testbit k 6; Z.testbit k 5; Z.testbit k 4; Z.testbit k 3;
   Z.testbit k 2; Z.testbit k 1; Z.testbit k 0]
  ++ repeat false 9.

Definition silent : list bool := repeat false 16.

(** Whether slot [j] of a frame that sends [k] pulls the line low. *)
Definition pulled_in_slot (k j : Z) : bool :=
  (1 <=? j) && (j <=? 7) && Z.testbit k (7 - j).

(** The slots after frame position [p], [p] in 0..16. *)
Definition slots_after (p : Z) : list Z :=
  map (fun i => p + 1 + Z.of_nat i) (seq 0 (Z.to_nat (16 - p))).

Definition expected (k p : Z) : list bool :=
  map (pulled_in_slot k) (slots_after p).

(** The key request while a frame is at position [p]: code [k] held for
    [h] more frames when the frame started. *)
Definition key_state (k h p : Z) (s : PC1550) : Prop :=
  (p <= 6 -> key_to_send s = k /\ keyHoldCycles s = h)
  /\ (1 <= p <= 6 -> transmitting s = true)
  /\ (7 <= p ->
      keyHoldCycles s = h - 1
      /\ key_to_send s = (if h - 1 =? 0 then 0 else k)).

(** The key request between frames: [h] frames to go. *)
Definition pending (k h : Z) (s : PC1550) : Prop :=
  keyHoldCycles s = h /\ key_to_send s = (if h =? 0 then 0 else k).

(** ** Checking the frames of a concrete run *)

Definition past_frame_start_b (s : PC1550) : bool :=
  negb (synchronized s) || (1 <=? controller_bits_read s).

(** [frame_body], computed. *)
Fixpoint body_run (s : PC1550) (rs : list readings)
  : option (list bool * PC1550) :=
  match rs with
  | [] => None
  | r :: rs' =>
      if idle_gap_seen s r then None
      else
        match processClockCycle s r with
        | Undefined => None
        | Done (s1, _) =>
            if bTransmissionEnd s1 then
              match rs' with
              | [] => Some (slot_seen s r s1, s1)
              | _ :: _ => None
              end
            else
              match body_run s1 rs' with
              | Some (ds, s') => Some (slot_seen s r s1 ++ ds, s')
              | None => None
              end
        end
  end.

(** [frame], computed: the body starts at the first bit counted at
    position 0 of a synchronized frame. *)
Fixpoint frame_run (s : PC1550) (rs : list readings)
  : option (list bool * PC1550) :=
  match rs with
  | [] => None
  | r :: rs' =>
      match processClockCycle s r with
      | Undefined => None
      | Done (s1, _) =>
          if idle_gap_seen s r || negb (clock_rose s r) || past_frame_start_b s
          then frame_run s1 rs'
          else if synchronized s && (controller_bits_read s =? 0)
               then body_run s rs
               else None
      end
  end.

(** [frames], computed, one list of polls per frame. *)
Fixpoint frames_run (s : PC1550) (rss : list (list readings))
  : option (list (list bool) * PC1550) :=
  match rss with
  | [] => Some ([], s)
  | rs :: rss' =>
      match frame_run s rs with
      | None => None
      | Some (ds, s1) =>
          match frames_run s1 rss' with
          | Some (dss, s') => Some (ds :: dss, s')
          | None => None
          end
      end
  end.

(** The sample run before and after the request for the key 5, and four
    further frames in which the keypad slots carry what the engine
    pulls. *)
Definition first_frame_done : PC1550 :=
  Eval vm_compute in
    match polls (PC1550_new 17 18 15 0) (panel_frame 0 sample_bits []) with
    | Done s => s
    | Undefined => PC1550_new 17 18 15 0
    end.




(** A frame as a caller that keeps the polling contract sees it: after
    the bit boundary at time [t] one poll every 750 microseconds while the
    clock idles, the first of them [from] periods after the boundary (two
    of them fall inside the band of the idle gap), then the clock cycles
    up to the sixteenth bit. *)
Definition gap_polls (t : Z) (from : nat) : list readings :=
  map (fun i => idle_poll (t + 750 * Z.of_nat i)) (seq from (36 - from)).

Definition cadence_frame (from : nat) (t : Z) (bits : list (bool * bool))
           (keys : list bool) : list readings :=
  gap_polls t from ++ removelast (clock_cycles (t + 26600) bits keys).

(** Four such frames after the request for the key 5. *)
Definition four_cadence_frames : list (list readings) :=
  [cadence_frame 2 49100 sample_bits key5_levels;
   cadence_frame 1 98200 sample_bits key5_levels;
   cadence_frame 1 147300 sample_bits key5_levels;
   cadence_frame 1 196400 sample_bits []].

(** ** The PC16-OUT accessors *)

(** [(available_pc16out_data & mask) > 0] *)
Definition pc16out_bits (mask : Z) (s : PC1550) : bool :=
  0 <? Z.land (available_pc16out_data s) mask.

Definition PGMOutput : PC1550 -> bool := pc16out_bits 0x0001.
Definition fireButtonTripped : PC1550 -> bool := pc16out_bits 0x0002.
Definition auxButtonTripped : PC1550 -> bool := pc16out_bits 0x0004.
Definition panicButtonTripped : PC1550 -> bool := pc16out_bits 0x0008.
Definition systemArmed : PC1550 -> bool := pc16out_bits 0x0030.
Definition armedWithByPass : PC1550 -> bool := pc16out_bits 0x0040.
Definition systemTrouble : PC1550 -> bool := pc16out_bits 0x0080.
Definition fireAlarmTripped : PC1550 -> bool := pc16out_bits 0x0100.
Definition Zone6Tripped : PC1550 -> bool := pc16out_bits 0x0400.
Definition Zone5Tripped : PC1550 -> bool := pc16out_bits 0x0800.
Definition Zone4Tripped : PC1550 -> bool := pc16out_bits 0x1000.
Definition Zone3Tripped : PC1550 -> bool := pc16out_bits 0x2000.
Definition Zone2Tripped : PC1550 -> bool := pc16out_bits 0x4000.
Definition Zone1Tripped : PC1550 -> bool := pc16out_bits 0x8000.
Definition AlarmTripped : PC1550 -> bool := pc16out_bits 0xFC00.

(** ** Press, hold and change of key *)

(** The object of the sample run after a frame with the key 5 and fifteen
    bits of a second frame with the same key. *)
Definition before_hold : PC1550 :=
  Eval vm_compute in
    match polls (PC1550_new 17 18 15 0)
            (panel_frame 0 sample_bits key5_levels
             ++ firstn 31 (panel_frame 49100 sample_bits key5_levels)) with
    | Done s => s
    | Undefined => PC1550_new 17 18 15 0
    end.

(** ** The blocking wrapper *)

(** [void PC1550::processTransmissionCycle()]:
    [do { processClockCycle(); } while (!atTransmissionEnd());]
    The hardware answers one element of [rs] per poll; the result is the
    object on return with the answers not yet used, or [None] when the
    answers run out while the loop is still running. *)
Fixpoint processTransmissionCycle (s : PC1550) (rs : list readings)
  : outcome (option (PC1550 * list readings)) :=
  match rs with
  | [] => Done None
  | r :: rs' =>
      m <- processClockCycle s r ;;
      if atTransmissionEnd (fst m) then Done (Some (fst m, rs'))
      else processTransmissionCycle (fst m) rs'
  end.

(** ** One quiet frame between keys *)


(** ** Shift counts inside and outside a synchronized frame *)

(** A frame under way after the idle gap: synchronized, at most fifteen
    bits counted, and as many keypad bits read as there were keypad slots
    among the first seven. *)
Definition in_sync_frame (s : PC1550) : Prop :=
  synchronized s = true
  /\ 0 <= controller_bits_read s <= 15
  /\ (last_clock s = true -> 1 <= controller_bits_read s)
  /\ (controller_bits_read s <= 7 ->
      keypad_bits_read s
      = if last_clock s then controller_bits_read s - 1
        else controller_bits_read s).

(** The object of the sample run after a frame, an idle gap that is seen
    only when 28000 microseconds have passed, and the first bit of the
    next frame. *)
Definition after_missed_gap : PC1550 :=
  Eval vm_compute in
    match polls (PC1550_new 17 18 15 0)
            (panel_frame 0 sample_bits key5_levels
             ++ [idle_poll (49100 + 28000); bit_poll 77200 true false]) with
    | Done s => s
    | Undefined => PC1550_new 17 18 15 0
    end.

(** ** What a frame decodes to *)

(** The polls on which the clock has switched to active since the poll
    before, and those on which it has switched back to idle; [lc] is the
    level read last. *)
Fixpoint bit_polls (lc : bool) (rs : list readings) : list readings :=
  match rs with
  | [] => []
  | r :: rs' =>
      (if clock r && negb lc then [r] else []) ++ bit_polls (clock r) rs'
  end.

Fixpoint slot_polls (lc : bool) (rs : list readings) : list readings :=
  match rs with
  | [] => []
  | r :: rs' =>
      (if negb (clock r) && lc then [r] else []) ++ slot_polls (clock r) rs'
  end.

(** Bits packed most significant first, the first of them at bit [n]. *)
Fixpoint msb_first (n : Z) (bs : list bool) : Z :=
  match bs with
  | [] => 0
  | b :: bs' => Z.lor (Z.shiftl (Z.b2z b) n) (msb_first (n - 1) bs')
  end.

(** The bit a keypad slot contributes: on when the line reads low. *)
Definition keypad_bit (r : readings) : bool := negb (data_settled r).

(** A frame under way, with what the decoding needs to know: the number
    of keypad bits read follows the frame position up to seven, and the
    accumulators fit their types. *)
Definition decoding (s : PC1550) : Prop :=
  synchronized s = true
  /\ 0 <= controller_bits_read s <= 15
  /\ (last_clock s = true -> 1 <= controller_bits_read s)
  /\ keypad_bits_read s
     = (if last_clock s then Z.min (controller_bits_read s - 1) 7
        else Z.min (controller_bits_read s) 7)
  /\ uint16 (controller_data s) = controller_data s
  /\ uint16 (pc16out_data s) = pc16out_data s
  /\ uint8 (keypad_data s) = keypad_data s.

(** The sample frame with the key 5, from the idle gap to the sixteenth
    bit. *)
Definition sample_body : list readings :=
  removelast (clock_cycles 26600 sample_bits key5_levels).

Definition sample_frame_end : PC1550 :=
  Eval vm_compute in
    match polls (PC1550_new 17 18 15 0) (idle_poll 26500 :: sample_body) with
    | Done s => s
    | Undefined => PC1550_new 17 18 15 0
    end.

(** ** What every reachable object satisfies *)

(** The members stay within their types, the frame position within 0..16,
    the keypad words within 7 bits; the pending key code is 0 or one of
    the fifteen codes, and is not 0 while a hold count is running;
    keypad_bits_sent is never counted up. *)
Definition members_in_range (s : PC1550) : Prop :=
  0 <= controller_bits_read s <= 16
  /\ is_uint16 (controller_data s)
  /\ is_uint16 (available_controller_data s)
  /\ is_uint16 (pc16out_data s)
  /\ is_uint16 (available_pc16out_data s)
  /\ 0 <= keypad_bits_read s < 256
  /\ 0 <= keypad_data s < 128
  /\ 0 <= available_keypad_data s < 128
  /\ 0 <= key_released_data s < 128
  /\ 0 <= iConsecutiveKeyPressCycles s < 256
  /\ -32768 <= iConsecutiveBeeps s < 32768
  /\ 0 <= last_read s < 4294967296
  /\ 0 <= cyclesWithoutKey s < 256
  /\ 0 <= keyHoldCycles s < 256
  /\ (key_to_send s = 0 \/ In (key_to_send s) key_codes)
  /\ (0 < keyHoldCycles s -> key_to_send s <> 0)
  /\ keypad_bits_sent s = 0.

(** ** Runs off the expected path *)

(** Consecutive frames without a key, polled at the contract's cadence
    from an object made at time 0. *)
Definition quiet_frames (n : nat) : list readings :=
  flat_map (fun i => cadence_frame 1 (49100 * Z.of_nat i) sample_bits [])
    (seq 0 n).

(** How many polls of a run count the first bit of a synchronized frame
    with no key code pending. *)
Fixpoint quiet_starts (s : PC1550) (rs : list readings) : Z :=
  match rs with
  | [] => 0
  | r :: rs' =>
      match processClockCycle s r with
      | Done (s1, _) =>
          (if quiet_frame_start s r then 1 else 0) + quiet_starts s1 rs'
      | Undefined => 0
      end
  end.

Definition after_quiet_frame : PC1550 :=
  Eval vm_compute in
    match polls (PC1550_new 17 18 15 0) (quiet_frames 1) with
    | Done s => s
    | Undefined => PC1550_new 17 18 15 0
    end.

Definition after_255_quiet_frames : PC1550 :=
  Eval vm_compute in
    match polls (PC1550_new 17 18 15 0) (quiet_frames 255) with
    | Done s => s
    | Undefined => PC1550_new 17 18 15 0
    end.

Definition after_256_quiet_frames : PC1550 :=
  Eval vm_compute in
    match polls (PC1550_new 17 18 15 0) (quiet_frames 256) with
    | Done s => s
    | Undefined => PC1550_new 17 18 15 0
    end.

(** The object after a frame whose keypad slots were all sampled and one
    poll that finds the clock idle again; the caller then polls next when
    the second bit of the following frame is on the lines. *)
Definition late_after_frame : PC1550 :=
  Eval vm_compute in
    match polls (PC1550_new 17 18 15 0)
            (quiet_frames 1 ++ [idle_poll 49850]) with
    | Done s => s
    | Undefined => PC1550_new 17 18 15 0
    end.

(** The frame after a request for the key 7 held for one frame, polled up
    to its 7th bit at 84700; then the caller is away for 26 ms, polls again
    from 110700 on, while the clock idles before the next frame, and counts
    the first bit of that frame at 124800. *)
Definition stalled_after_bit_7 : list readings :=
  gap_polls 49100 1
  ++ firstn 13 (clock_cycles 75700 sample_bits [])
  ++ map (fun i => idle_poll (110700 + 750 * Z.of_nat i)) (seq 0 19)
  ++ [bit_poll 124800 true false].

Definition stale_transmitter : PC1550 :=
  Eval vm_compute in
    match polls (snd (sendKey after_quiet_frame "7"%char 1))
            stalled_after_bit_7 with
    | Done s => s
    | Undefined => PC1550_new 17 18 15 0
    end.

(** The polls of that next frame after its first bit, and the two frames
    that follow. *)
Definition rest_of_frame : list readings :=
  tl (removelast (clock_cycles 124800 sample_bits [])).

Definition two_more_frames : list (list readings) :=
  [cadence_frame 1 147300 sample_bits [];
   cadence_frame 1 196400 sample_bits []].

(** * Properties *)

(** ** The key code table *)

Lemma getKeyValue_symbol (c : ascii) :
  In c key_symbols -> getKeyValue c <> 0 /\ getKeyChar (getKeyValue c) = c.
Proof.
  unfold key_symbols. simpl.
  intros H; repeat (destruct H as [H | H]; [subst c; split; [discriminate | reflexivity] | ]).
  contradiction.
Qed.

Lemma getKeyValue_unknown (c : ascii) :
  ~ In c key_symbols -> getKeyValue c = 0.
Proof.
  intros H.
  destruct c as [b0 b1 b2 b3 b4 b5 b6 b7].
  destruct b0, b1, b2, b3, b4, b5, b6, b7; try reflexivity;
    exfalso; apply H; unfold key_symbols; simpl; tauto.
Qed.

Lemma getKeyValue_zero_iff (c : ascii) :
  getKeyValue c = 0 <-> ~ In c key_symbols.
Proof.
  split.
  - intros E H. apply getKeyValue_symbol in H. tauto.
  - apply getKeyValue_unknown.
Qed.

Lemma getKeyValue_range (c : ascii) : 0 <= getKeyValue c < 128.
Proof.
  destruct c as [b0 b1 b2 b3 b4 b5 b6 b7].
  destruct b0, b1, b2, b3, b4, b5, b6, b7; cbv; split; congruence.
Qed.

Lemma getKeyChar_unknown (v : Z) :
  ~ In v key_codes -> getKeyChar v = Ascii.zero.
Proof.
  intros H.
  destruct v as [ | p | p]; try reflexivity.
  do 8 (try (destruct p as [p | p | ]; try reflexivity));
    exfalso; apply H; unfold key_codes; simpl; tauto.
Qed.

(** C8. The two tables are inverse on the fifteen key symbols; every other
    character encodes to the code 0, and every value that is not one of
    the fifteen codes decodes to the character NUL. *)
Theorem key_table_round_trip :
  (forall c, In c key_symbols -> getKeyChar (getKeyValue c) = c) /\
  (forall c, ~ In c key_symbols -> getKeyValue c = 0) /\
  (forall v, 0 <= v < 256 -> ~ In v key_codes -> getKeyChar v = Ascii.zero).
Proof.
  split; [ | split].
  - intros c H. apply getKeyValue_symbol, H.
  - apply getKeyValue_unknown.
  - intros v _. apply getKeyChar_unknown.
Qed.

Lemma key_table_round_trip_witness :
  getKeyChar (getKeyValue "5"%char) = "5"%char
  /\ getKeyValue "x"%char = 0
  /\ getKeyChar 0x43 = Ascii.zero.
Proof.
  destruct key_table_round_trip as (Hsym & Hchr & Hval).
  split; [ | split].
  - apply Hsym. unfold key_symbols. simpl. tauto.
  - apply Hchr. unfold key_symbols. simpl. intuition discriminate.
  - apply Hval; [lia | ]. unfold key_codes. simpl. intuition discriminate.
Defined.

(** ** Status lights *)

(** A 16-bit word shifted left by [k] in 16 bits and right by 15 leaves
    bit [15 - k] alone. *)
Lemma shift_pair_selects (x k : Z) :
  0 <= k <= 15 ->
  Z.shiftr (uint16 (Z.shiftl x k)) 15 = Z.b2z (Z.testbit x (15 - k)).
Proof.
  intros Hk. unfold uint16.
  change 65536 with (2 ^ 16).
  apply Z.bits_inj'. intros n Hn.
  rewrite Z.shiftr_spec by assumption.
  destruct (Z.eq_dec n 0) as [-> | Hpos].
  - rewrite Z.mod_pow2_bits_low by lia.
    rewrite Z.shiftl_spec by lia.
    rewrite Z.b2z_bit0. reflexivity.
  - rewrite Z.mod_pow2_bits_high by lia.
    destruct (Z.testbit x (15 - k)); simpl.
    + symmetry. change 1 with (2 ^ 0). apply Z.pow2_bits_false. lia.
    + symmetry. apply Z.bits_0.
Qed.

Lemma status_bit_testbit (k : Z) (s : PC1550) :
  0 <= k <= 15 ->
  status_bit k s = Z.testbit (available_controller_data s) (15 - k).
Proof.
  intros Hk. unfold status_bit.
  rewrite shift_pair_selects by assumption.
  destruct (Z.testbit (available_controller_data s) (15 - k)); reflexivity.
Qed.

Lemma Zone1Light_status_bit (s : PC1550) :
  is_uint16 (available_controller_data s) -> Zone1Light s = status_bit 0 s.
Proof.
  intros H. unfold Zone1Light, status_bit, uint16.
  rewrite Z.shiftl_0_r, Z.mod_small by exact H. reflexivity.
Qed.

(** C9. Each status-light accessor returns one bit of the 16-bit status
    snapshot: Zone1Light..Zone6Light bits 15..10, ReadyLight, ArmedLight,
    MemoryLight, BypassLight, TroubleLight bits 7..3, Beep bit 0. *)
Theorem status_lights_read_single_bits (s : PC1550) :
  is_uint16 (available_controller_data s) ->
  let w := available_controller_data s in
  Zone1Light s = Z.testbit w 15 /\
  Zone2Light s = Z.testbit w 14 /\
  Zone3Light s = Z.testbit w 13 /\
  Zone4Light s = Z.testbit w 12 /\
  Zone5Light s = Z.testbit w 11 /\
  Zone6Light s = Z.testbit w 10 /\
  ReadyLight s = Z.testbit w 7 /\
  ArmedLight s = Z.testbit w 6 /\
  MemoryLight s = Z.testbit w 5 /\
  BypassLight s = Z.testbit w 4 /\
  TroubleLight s = Z.testbit w 3 /\
  Beep s = Z.testbit w 0.
Proof.
  intros H w. subst w.
  rewrite Zone1Light_status_bit by exact H.
  unfold Zone2Light, Zone3Light, Zone4Light, Zone5Light, Zone6Light,
    ReadyLight, ArmedLight, MemoryLight, BypassLight, TroubleLight, Beep.
  repeat split; rewrite status_bit_testbit by lia; reflexivity.
Qed.

Lemma status_lights_read_single_bits_witness :
  let s := PC1550_new 17 18 15 0 |> set_available_controller_data 0xA081 in
  Zone1Light s = true /\ Zone2Light s = false /\ Zone3Light s = true
  /\ ReadyLight s = true /\ ArmedLight s = false /\ Beep s = true.
Proof.
  intros s.
  assert (R : is_uint16 (available_controller_data s))
    by (unfold is_uint16; simpl; lia).
  destruct (status_lights_read_single_bits s R)
    as (Z1 & Z2 & Z3 & _ & _ & _ & Rd & Ar & _ & _ & _ & Bp).
  rewrite Z1, Z2, Z3, Rd, Ar, Bp. repeat split; reflexivity.
Defined.

(** Reduction of member reads through assignments, and nothing else. *)
Ltac members :=
  cbn [
    datapin clockpin pgmpin synchronized controller_bits_read
    controller_data available_controller_data bStateChanged
    keypad_bits_read keypad_data available_keypad_data pc16out_data
    available_pc16out_data key_released_data bKeyPressed
    iConsecutiveKeyPressCycles last_read last_clock cyclesWithoutKey
    transmitting keyHoldCycles key_to_send keypad_bits_sent
    iConsecutiveBeeps bTransmissionEnd datapin_mode set_synchronized
    set_controller_bits_read set_controller_data
    set_available_controller_data set_bStateChanged set_keypad_bits_read
    set_keypad_data set_available_keypad_data set_pc16out_data
    set_available_pc16out_data set_key_released_data set_bKeyPressed
    set_iConsecutiveKeyPressCycles set_last_read set_last_clock
    set_cyclesWithoutKey set_transmitting set_keyHoldCycles
    set_key_to_send set_keypad_bits_sent set_iConsecutiveBeeps
    set_bTransmissionEnd set_datapin_mode clock data pgmData now
    data_switch data_settled now_edge bind fst snd app negb andb orb ].

Tactic Notation "members" "in" hyp(H) :=
  cbn [
    datapin clockpin pgmpin synchronized controller_bits_read
    controller_data available_controller_data bStateChanged
    keypad_bits_read keypad_data available_keypad_data pc16out_data
    available_pc16out_data key_released_data bKeyPressed
    iConsecutiveKeyPressCycles last_read last_clock cyclesWithoutKey
    transmitting keyHoldCycles key_to_send keypad_bits_sent
    iConsecutiveBeeps bTransmissionEnd datapin_mode set_synchronized
    set_controller_bits_read set_controller_data
    set_available_controller_data set_bStateChanged set_keypad_bits_read
    set_keypad_data set_available_keypad_data set_pc16out_data
    set_available_pc16out_data set_key_released_data set_bKeyPressed
    set_iConsecutiveKeyPressCycles set_last_read set_last_clock
    set_cyclesWithoutKey set_transmitting set_keyHoldCycles
    set_key_to_send set_keypad_bits_sent set_iConsecutiveBeeps
    set_bTransmissionEnd set_datapin_mode clock data pgmData now
    data_switch data_settled now_edge bind fst snd app negb andb orb ] in H.

(** ** One poll, by the level of the clock line *)

Lemma uint8_range (x : Z) : 0 <= uint8 x < 256.
Proof. unfold uint8. apply Z.mod_pos_bound. lia. Qed.

Lemma uint16_range (x : Z) : 0 <= uint16 x < 65536.
Proof. unfold uint16. apply Z.mod_pos_bound. lia. Qed.

Lemma uint8_small (x : Z) : 0 <= x < 256 -> uint8 x = x.
Proof. unfold uint8. apply Z.mod_small. Qed.

Lemma uint16_small (x : Z) : 0 <= x < 65536 -> uint16 x = x.
Proof. unfold uint16. apply Z.mod_small. Qed.

Lemma land_1_testbit (x : Z) : negb (Z.land x 1 =? 0) = Z.testbit x 0.
Proof.
  change 1 with (Z.ones 1) at 1.
  rewrite Z.land_ones by lia. rewrite Z.bit0_eqb.
  change (2 ^ 1) with 2.
  pose proof (Z.mod_pos_bound x 2 ltac:(lia)).
  destruct (Z.eqb_spec (x mod 2) 0); destruct (Z.eqb_spec (x mod 2) 1);
    simpl; try reflexivity; lia.
Qed.

(** Clock read [true], last read [false]: the second edge branch runs, the
    idle-gap test and the first edge branch do not. *)
Lemma poll_clock_rose (s : PC1550) (r : readings) :
  clock_rose s r = true ->
  processClockCycle s r =
    (c <- read_controller_bit (s |> set_bTransmissionEnd false) r ;;
     Done (end_of_frame (fst c) |> set_last_clock true,
           entry_events s r ++ snd c)).
Proof.
  unfold clock_rose. intros H.
  apply andb_true_iff in H. destruct H as [Hc Hl].
  destruct (last_clock s) eqn:L; [rewrite Hc in Hl; discriminate | ].
  unfold processClockCycle, before_frame_test, idle_gap_seen, clock_fell,
    clock_rose, entry_events.
  rewrite Hc. simpl. rewrite L. simpl.
  destruct (read_controller_bit (set_bTransmissionEnd false s) r)
    as [[c ev] | ]; reflexivity.
Qed.

(** Clock read [false]: the idle-gap test may fire and, when the last read
    was [true], the first edge branch runs. *)
Lemma poll_clock_low (s : PC1550) (r : readings) :
  clock r = false ->
  processClockCycle s r =
    (let s0 := s |> set_bTransmissionEnd false in
     let s1 := if idle_gap_seen s r then resynchronize s0 else s0 in
     k <- (if last_clock s then read_keypad_bit s1 r else Done (s1, [])) ;;
     Done (end_of_frame (fst k) |> set_last_clock false,
           entry_events s r ++ snd k)).
Proof.
  intros Hc.
  unfold processClockCycle, before_frame_test, clock_fell, clock_rose,
    entry_events.
  rewrite Hc. cbn [negb andb].
  change (idle_gap_seen (set_bTransmissionEnd false s) r)
    with (idle_gap_seen s r).
  assert (LC : forall b : bool,
             last_clock (if b then resynchronize (set_bTransmissionEnd false s)
                         else set_bTransmissionEnd false s)
             = last_clock s) by (intros []; reflexivity).
  rewrite LC. clear LC.
  destruct (idle_gap_seen s r); members; destruct (last_clock s);
    cbn [Bool.eqb negb];
    match goal with
    | |- context [read_keypad_bit ?a ?b] =>
        destruct (read_keypad_bit a b) as [[k ev] | ]
    | _ => idtac
    end;
    members; rewrite ?app_nil_r; reflexivity.
Qed.

(** Clock read [true] as it was before: no edge branch runs. *)
Lemma poll_clock_high (s : PC1550) (r : readings) :
  clock r = true -> last_clock s = true ->
  processClockCycle s r =
    Done (end_of_frame (s |> set_bTransmissionEnd false) |> set_last_clock true,
          entry_events s r).
Proof.
  intros Hc Hl.
  unfold processClockCycle, before_frame_test, idle_gap_seen, clock_fell,
    clock_rose, entry_events.
  rewrite Hc. simpl. rewrite Hl. reflexivity.
Qed.

(** ** One controller bit *)

Lemma slot_range (s : PC1550) : 0 <= slot s < 256.
Proof. apply uint8_range. Qed.

Lemma shl_valid (v n : Z) : 0 <= n < 16 -> shl v n = Done (Z.shiftl v n).
Proof.
  intros H. unfold shl, valid_count.
  destruct (Z.leb_spec 0 n); destruct (Z.ltb_spec n 16); simpl;
    try reflexivity; lia.
Qed.

Lemma shl_invalid (v n : Z) : ~ 0 <= n < 16 -> shl v n = Undefined.
Proof.
  intros H. unfold shl, valid_count.
  destruct (Z.leb_spec 0 n); destruct (Z.ltb_spec n 16); simpl;
    try reflexivity; lia.
Qed.

Lemma shr_valid (v n : Z) : 0 <= n < 16 -> shr v n = Done (Z.shiftr v n).
Proof.
  intros H. unfold shr, valid_count.
  destruct (Z.leb_spec 0 n); destruct (Z.ltb_spec n 16); simpl;
    try reflexivity; lia.
Qed.

Lemma shiftr_land_1 (v n : Z) :
  0 <= n -> negb (Z.land (Z.shiftr v n) 1 =? 0) = Z.testbit v n.
Proof.
  intros H. rewrite land_1_testbit, Z.shiftr_spec by lia. reflexivity.
Qed.

(** The second edge branch is defined exactly when the frame position is
    at most 15, and then it yields [after_bit]. *)
Lemma read_controller_bit_done (s : PC1550) (r : readings) :
  0 <= controller_bits_read s <= 15 ->
  read_controller_bit s r = Done (after_bit s r, bit_events s r).
Proof.
  intros Hp.
  unfold read_controller_bit. members.
  rewrite shl_valid by lia. members.
  rewrite shl_valid by lia. members.
  unfold after_bit, bit_events, pulls_low, hold_after_bit, sending,
    transmit_key_bit, sanity_check, first_bit.
  pose proof (slot_range s) as Hs. unfold slot in *.
  destruct s as [dp cp pp sy cbr cd acd bsc kbr kd akd pd apd krd bkp ick
                   lr lc cwk tx khc kts kbs icb bte dpm].
  members. members in Hs. members in Hp.
  set (p := uint8 (cbr + 1)) in *.
  destruct sy; members;
    destruct (Z.eqb_spec p 1) as [H1 | H1]; members;
    destruct (Z.eqb_spec kts 0) as [K0 | K0]; members;
    destruct (Z.leb_spec 8 p) as [H8 | H8]; members;
    try (exfalso; lia); try reflexivity;
    try (destruct tx; members; try reflexivity);
    rewrite ?shr_valid by lia; members;
    rewrite ?shiftr_land_1 by lia;
    destruct (Z.testbit kts (7 - p)); members;
    destruct (Z.eqb_spec p 7); members; try reflexivity;
    destruct (Z.ltb_spec 0 khc); members;
    repeat match goal with
      | |- context [?a =? 0] => destruct (Z.eqb_spec a 0); members
      end;
    try reflexivity; try (exfalso; lia).
Qed.

Lemma read_controller_bit_undefined (s : PC1550) (r : readings) :
  ~ 0 <= controller_bits_read s <= 15 ->
  read_controller_bit s r = Undefined.
Proof.
  intros Hp. unfold read_controller_bit. members.
  rewrite shl_invalid by lia. reflexivity.
Qed.

(** ** One keypad bit *)

Lemma read_keypad_bit_in_window (s : PC1550) (r : readings) :
  in_keypad_window s = true ->
  0 <= 6 - keypad_bits_read s < 16 ->
  read_keypad_bit s r = Done (after_keypad_bit s r, keypad_events s r).
Proof.
  unfold in_keypad_window, read_keypad_bit. intros W V. rewrite W.
  rewrite shl_valid by exact V. reflexivity.
Qed.

Lemma read_keypad_bit_bad_count (s : PC1550) (r : readings) :
  in_keypad_window s = true ->
  ~ 0 <= 6 - keypad_bits_read s < 16 ->
  read_keypad_bit s r = Undefined.
Proof.
  unfold in_keypad_window, read_keypad_bit. intros W V. rewrite W.
  rewrite shl_invalid by exact V. reflexivity.
Qed.

Lemma read_keypad_bit_outside (s : PC1550) (r : readings) :
  in_keypad_window s = false -> read_keypad_bit s r = Done (s, []).
Proof.
  unfold in_keypad_window, read_keypad_bit. intros W. rewrite W. reflexivity.
Qed.

(** ** The end of a frame *)

Lemma end_of_frame_received (s : PC1550) :
  frame_received s = true -> end_of_frame s = frame_closed s.
Proof.
  intros F. unfold end_of_frame. rewrite F.
  unfold frame_closed, classify_keypad, Beep.
  destruct s as [dp cp pp sy cbr cd acd bsc kbr kd akd pd apd krd bkp ick
                   lr lc cwk tx khc kts kbs icb bte dpm].
  members.
  destruct (Z.eqb_spec acd cd); members;
    destruct (Z.eqb_spec kd 0); members;
    destruct (Z.eqb_spec akd kd); members;
    destruct (Z.eqb_spec akd 0); members;
    try (exfalso; congruence);
    rewrite status_bit_testbit by lia; members;
    change (15 - 15) with 0;
    destruct (Z.testbit cd 0); members; subst; reflexivity.
Qed.

Lemma end_of_frame_not_received (s : PC1550) :
  frame_received s = false -> end_of_frame s = s.
Proof. intros F. unfold end_of_frame. rewrite F. reflexivity. Qed.

Lemma frame_received_iff (s : PC1550) :
  frame_received s = true <->
  synchronized s = true /\ controller_bits_read s = 16.
Proof.
  unfold frame_received. rewrite andb_true_iff, Z.eqb_eq. reflexivity.
Qed.

(** No poll leaves a received frame unprocessed. *)
Lemma end_of_frame_clears (s : PC1550) :
  frame_received (end_of_frame s) = false.
Proof.
  destruct (frame_received s) eqn:F.
  - rewrite end_of_frame_received by exact F. reflexivity.
  - rewrite end_of_frame_not_received by exact F. exact F.
Qed.

Lemma poll_shape (s : PC1550) (r : readings) (s' : PC1550) (tr : list event) :
  processClockCycle s r = Done (s', tr) ->
  exists m, before_frame_test s r = Done (m, tr)
            /\ s' = end_of_frame m |> set_last_clock (clock r).
Proof.
  unfold processClockCycle.
  destruct (before_frame_test s r) as [[m ev] | ]; simpl; [ | discriminate].
  intros E. injection E as <- <-. exists m. split; reflexivity.
Qed.

Lemma sendKey_keeps_position (s : PC1550) (c : ascii) (n : Z) :
  synchronized (snd (sendKey s c n)) = synchronized s
  /\ controller_bits_read (snd (sendKey s c n)) = controller_bits_read s
  /\ datapin_mode (snd (sendKey s c n)) = datapin_mode s.
Proof.
  unfold sendKey.
  destruct (negb (readyForKeyPress s)); [repeat split | ].
  destruct (getKeyValue c =? 0); repeat split.
Qed.

(** Between polls a frame is never both synchronized and at position 16:
    the poll that brings the position to 16 also processes the frame. *)
Lemma reachable_not_received (s : PC1550) :
  reachable s -> frame_received s = false.
Proof.
  induction 1 as [dp cp pp t | s r s' tr _ _ P | s c n _ IH].
  - reflexivity.
  - apply poll_shape in P. destruct P as (m & _ & ->).
    pose proof (end_of_frame_clears m) as C.
    unfold frame_received in *. exact C.
  - destruct (sendKey_keeps_position s c n) as (E1 & E2 & _).
    unfold frame_received in *. rewrite E1, E2. exact IH.
Qed.

(** ** One poll in normal form *)

Lemma idle_gap_needs_low (s : PC1550) (r : readings) :
  clock r = true -> idle_gap_seen s r = false.
Proof. unfold idle_gap_seen. intros ->. reflexivity. Qed.

Lemma edge_cases (s : PC1550) (r : readings) :
  (clock r = true /\ last_clock s = false
   /\ clock_rose s r = true /\ clock_fell s r = false)
  \/ (clock r = true /\ last_clock s = true
      /\ clock_rose s r = false /\ clock_fell s r = false)
  \/ (clock r = false /\ last_clock s = true
      /\ clock_rose s r = false /\ clock_fell s r = true)
  \/ (clock r = false /\ last_clock s = false
      /\ clock_rose s r = false /\ clock_fell s r = false).
Proof.
  unfold clock_rose, clock_fell.
  destruct (clock r), (last_clock s); simpl; tauto.
Qed.

Lemma keypad_events_gap (s : PC1550) (r : readings) :
  keypad_events (gap_handled s r) r = keypad_events s r.
Proof.
  unfold keypad_events, gap_handled.
  destruct (idle_gap_seen s r); reflexivity.
Qed.

Lemma poll_normal_form (s : PC1550) (r : readings) :
  poll_defined s r ->
  processClockCycle s r =
    Done (end_of_frame (at_frame_test s r) |> set_last_clock (clock r),
          poll_events s r).
Proof.
  intros [Drose Dfell].
  unfold at_frame_test, poll_events, samples_keypad in *.
  destruct (edge_cases s r) as
    [(C & L & R & F) | [(C & L & R & F) | [(C & L & R & F) | (C & L & R & F)]]];
    rewrite R, F in *; cbn [andb] in *.
  - rewrite poll_clock_rose by exact R.
    rewrite read_controller_bit_done by (apply Drose; reflexivity).
    rewrite C. reflexivity.
  - rewrite poll_clock_high by assumption.
    unfold gap_handled. rewrite idle_gap_needs_low by exact C.
    rewrite app_nil_r, C. reflexivity.
  - rewrite poll_clock_low by exact C. rewrite L, C.
    cbv zeta. fold (gap_handled s r).
    destruct (in_keypad_window (gap_handled s r)) eqn:W.
    + rewrite read_keypad_bit_in_window by (auto; apply Dfell; reflexivity).
      rewrite keypad_events_gap. reflexivity.
    + rewrite read_keypad_bit_outside by exact W.
      members. rewrite app_nil_r. reflexivity.
  - rewrite poll_clock_low by exact C. rewrite L, C.
    cbv zeta. fold (gap_handled s r). members.
    rewrite app_nil_r. reflexivity.
Qed.

Lemma poll_undefined (s : PC1550) (r : readings) :
  ~ poll_defined s r -> processClockCycle s r = Undefined.
Proof.
  intros N. unfold poll_defined, samples_keypad in N.
  destruct (edge_cases s r) as
    [(C & L & R & F) | [(C & L & R & F) | [(C & L & R & F) | (C & L & R & F)]]];
    rewrite R, F in N; cbn [andb] in N.
  - rewrite poll_clock_rose by exact R.
    rewrite read_controller_bit_undefined; [reflexivity | ].
    members. intros H. apply N. split; [intros _; exact H | discriminate].
  - exfalso. apply N. split; discriminate.
  - rewrite poll_clock_low by exact C. rewrite L.
    cbv zeta. fold (gap_handled s r).
    destruct (in_keypad_window (gap_handled s r)) eqn:W.
    + rewrite read_keypad_bit_bad_count; [reflexivity | exact W | ].
      intros H. apply N. split; [discriminate | intros _; exact H].
    + exfalso. apply N. split; discriminate.
  - exfalso. apply N. split; discriminate.
Qed.

(** A poll either has no defined behaviour or yields its normal form. *)
Lemma poll_done_inv (s : PC1550) (r : readings) (s' : PC1550) (tr : list event) :
  processClockCycle s r = Done (s', tr) ->
  poll_defined s r
  /\ s' = end_of_frame (at_frame_test s r) |> set_last_clock (clock r)
  /\ tr = poll_events s r.
Proof.
  intros P.
  assert (D : poll_defined s r).
  { unfold poll_defined.
    split; intros H.
    - destruct (Z_le_dec 0 (controller_bits_read s));
        destruct (Z_le_dec (controller_bits_read s) 15); try lia;
        exfalso;
        (rewrite poll_undefined in P; [discriminate | ]);
        intros [D _]; specialize (D H); lia.
    - destruct (Z_le_dec 0 (6 - keypad_bits_read (gap_handled s r)));
        destruct (Z_lt_dec (6 - keypad_bits_read (gap_handled s r)) 16);
        try lia; exfalso;
        (rewrite poll_undefined in P; [discriminate | ]);
        intros [_ D]; specialize (D H); lia. }
  split; [exact D | ].
  rewrite poll_normal_form in P by exact D.
  injection P as <- <-. split; reflexivity.
Qed.

(** ** The end of a frame in a poll *)

Lemma uint16_b2z (b : bool) : uint16 (Z.b2z b) = Z.b2z b.
Proof. destruct b; reflexivity. Qed.

Lemma frame_test_after_gap (s : PC1550) (r : readings) :
  frame_received (gap_handled s r) = true -> frame_received s = true.
Proof.
  unfold gap_handled, frame_received.
  destruct (idle_gap_seen s r); members; [discriminate | auto].
Qed.

Lemma frame_test_after_keypad_bit (s : PC1550) (r : readings) :
  frame_received (after_keypad_bit s r) = frame_received s.
Proof. reflexivity. Qed.

(** C1. When a poll brings the frame position to 16 while synchronized,
    the three accumulators are copied into their snapshots, the beep
    counter is updated, bTransmissionEnd is set, synchronization is
    dropped and the frame position is reset; and after a poll of a
    reachable object bTransmissionEnd is set exactly when that poll was
    such a poll, whatever the flag was before. *)
Theorem frame_completion_snapshots :
  (forall s r,
      synchronized s = true ->
      controller_bits_read s = 15 ->
      clock_rose s r = true ->
      exists s' tr,
        processClockCycle s r = Done (s', tr)
        /\ controller_data s'
           = uint16 (Z.lor (controller_data s) (Z.b2z (data r)))
        /\ pc16out_data s'
           = uint16 (Z.lor (pc16out_data s) (Z.b2z (pgmData r)))
        /\ keypad_data s' = keypad_data s
        /\ available_controller_data s' = controller_data s'
        /\ available_pc16out_data s' = pc16out_data s'
        /\ available_keypad_data s' = keypad_data s'
        /\ iConsecutiveBeeps s'
           = (if Beep s' then int16 (iConsecutiveBeeps s + 1) else 0)
        /\ bTransmissionEnd s' = true
        /\ synchronized s' = false
        /\ controller_bits_read s' = 0)
  /\
  (forall s r s' tr,
      reachable s ->
      processClockCycle s r = Done (s', tr) ->
      (bTransmissionEnd s' = true <->
       synchronized s = true /\ controller_bits_read s = 15
       /\ clock_rose s r = true)).
Proof.
  split.
  - intros s r Hs Hp Hr.
    assert (D : poll_defined s r).
    { split; [intros _; lia | ].
      unfold samples_keypad, clock_fell, clock_rose in *.
      destruct (clock r); [discriminate | discriminate]. }
    eexists. eexists. split; [apply poll_normal_form, D | ].
    unfold at_frame_test. rewrite Hr.
    assert (F : frame_received (after_bit (set_bTransmissionEnd false s) r)
                = true).
    { unfold frame_received, after_bit, slot. members.
      rewrite Hs, Hp. reflexivity. }
    rewrite end_of_frame_received by exact F.
    unfold Beep. rewrite status_bit_testbit by lia.
    unfold frame_closed, after_bit. members.
    rewrite Hp. change (15 - 15) with 0.
    rewrite !Z.shiftl_0_r, !uint16_b2z.
    repeat split; reflexivity.
  - intros s r s' tr Rs P.
    apply poll_done_inv in P. destruct P as ((Drose & _) & -> & _).
    pose proof (reachable_not_received s Rs) as NR.
    unfold at_frame_test.
    destruct (clock_rose s r) eqn:Hr.
    + specialize (Drose eq_refl).
      destruct (frame_received (after_bit (set_bTransmissionEnd false s) r))
        eqn:F.
      * rewrite end_of_frame_received by exact F. members.
        apply frame_received_iff in F. unfold after_bit, slot in F.
        members in F. destruct F as [Fs Fp].
        rewrite uint8_small in Fp by lia.
        split; [intros _ | reflexivity]. repeat split; [exact Fs | lia].
      * rewrite end_of_frame_not_received by exact F. members.
        split; [discriminate | ].
        intros (Hs & Hp & _). exfalso.
        unfold frame_received, after_bit, slot in F. members in F.
        rewrite Hs, Hp in F. discriminate.
    + assert (E : bTransmissionEnd
                    (set_last_clock (clock r)
                       (end_of_frame
                          (if samples_keypad s r
                           then after_keypad_bit (gap_handled s r) r
                           else gap_handled s r))) = false).
      { assert (G : frame_received (gap_handled s r) = false).
        { destruct (frame_received (gap_handled s r)) eqn:G; [ | reflexivity].
          apply frame_test_after_gap in G. congruence. }
        destruct (samples_keypad s r).
        - rewrite end_of_frame_not_received
            by (rewrite frame_test_after_keypad_bit; exact G).
          unfold gap_handled. destruct (idle_gap_seen s r); reflexivity.
        - rewrite end_of_frame_not_received by exact G.
          unfold gap_handled. destruct (idle_gap_seen s r); reflexivity. }
      rewrite E. split; [discriminate | ].
      intros (_ & _ & H). discriminate.
Qed.

Lemma before_last_bit_run :
  polls (PC1550_new 17 18 15 0)
    (firstn 31 (panel_frame 0 sample_bits key5_levels))
  = Done before_last_bit.
Proof. vm_compute. reflexivity. Qed.

Lemma frame_completion_snapshots_witness :
  (exists s' tr,
      processClockCycle before_last_bit (bit_poll 49100 true false)
      = Done (s', tr)
      /\ available_controller_data s' = 0xA081
      /\ available_keypad_data s' = 0x22
      /\ bTransmissionEnd s' = true
      /\ synchronized s' = false
      /\ controller_bits_read s' = 0)
  /\ (exists s' tr,
         processClockCycle (PC1550_new 17 18 15 0) (idle_poll 10)
         = Done (s', tr)
         /\ bTransmissionEnd s' = false).
Proof.
  destruct frame_completion_snapshots as [Hend Hflag]. split.
  - destruct (Hend before_last_bit (bit_poll 49100 true false)
                eq_refl eq_refl eq_refl)
      as (s' & tr & P & Ecd & _ & Ekd & Eacd & _ & Eakd & _ & Ef & Es & Ep).
    exists s', tr. split; [exact P | ].
    rewrite Eacd, Ecd, Eakd, Ekd.
    repeat split; try assumption; reflexivity.
  - eexists. eexists. split; [vm_compute; reflexivity | ].
    reflexivity.
Defined.

(** ** The idle-gap test *)

Lemma idle_gap_seen_iff (s : PC1550) (r : readings) :
  idle_gap_seen s r = true <-> in_band s r.
Proof.
  unfold idle_gap_seen, in_band.
  rewrite !andb_true_iff, negb_true_iff, !Z.ltb_lt. tauto.
Qed.

Lemma idle_gap_seen_false (s : PC1550) (r : readings) :
  ~ in_band s r -> idle_gap_seen s r = false.
Proof.
  intros N. destruct (idle_gap_seen s r) eqn:G; [ | reflexivity].
  apply idle_gap_seen_iff in G. contradiction.
Qed.

(** C2, amended. A poll declares synchronization and zeroes the frame
    position and the three accumulators when the clock line reads idle and
    the time since the last bit is strictly between 25000 and 28000
    microseconds.  Outside that open band no poll sets the synchronized
    flag; a poll that finds the clock idle leaves the flag, the frame
    position and the two 16-bit accumulators as they were and only ORs a
    keypad bit into the keypad accumulator when it samples one; and a poll
    that finds the clock idle as before changes nothing but
    bTransmissionEnd. *)
Theorem resynchronization_band (s : PC1550) (r : readings) :
  (in_band s r ->
   exists s' tr,
     processClockCycle s r = Done (s', tr)
     /\ synchronized s' = true
     /\ controller_bits_read s' = 0
     /\ controller_data s' = 0
     /\ pc16out_data s' = 0
     /\ keypad_data s' = 0
     /\ keypad_bits_read s' = 0
     /\ keypad_bits_sent s' = 0)
  /\
  (~ in_band s r ->
   (forall s' tr,
       processClockCycle s r = Done (s', tr) ->
       synchronized s' = true -> synchronized s = true)
   /\
   (clock r = false -> frame_received s = false ->
    forall s' tr,
      processClockCycle s r = Done (s', tr) ->
      synchronized s' = synchronized s
      /\ controller_bits_read s' = controller_bits_read s
      /\ controller_data s' = controller_data s
      /\ pc16out_data s' = pc16out_data s
      /\ keypad_bits_sent s' = keypad_bits_sent s
      /\ keypad_data s'
         = (if samples_keypad s r
            then uint8 (Z.lor (keypad_data s)
                          (Z.shiftl (Z.b2z (negb (data_settled r)))
                             (6 - keypad_bits_read s)))
            else keypad_data s))
   /\
   (clock r = false -> last_clock s = false -> frame_received s = false ->
    processClockCycle s r
    = Done (s |> set_bTransmissionEnd false |> set_last_clock false,
            entry_events s r))).
Proof.
  split.
  - intros B. pose proof B as [C _]. apply idle_gap_seen_iff in B.
    assert (G : gap_handled s r
                = resynchronize (s |> set_bTransmissionEnd false)).
    { unfold gap_handled. rewrite B. reflexivity. }
    assert (K : samples_keypad s r = false).
    { unfold samples_keypad. rewrite G. apply andb_false_r. }
    assert (R : clock_rose s r = false).
    { unfold clock_rose. rewrite C. reflexivity. }
    assert (D : poll_defined s r).
    { split; [rewrite R | rewrite K]; discriminate. }
    eexists. eexists. split; [apply poll_normal_form, D | ].
    unfold at_frame_test. rewrite R, K, G.
    rewrite end_of_frame_not_received by reflexivity.
    repeat split; reflexivity.
  - intros N. apply idle_gap_seen_false in N.
    assert (G : gap_handled s r = s |> set_bTransmissionEnd false).
    { unfold gap_handled. rewrite N. reflexivity. }
    split; [ | split].
    + intros s' tr P. apply poll_done_inv in P.
      destruct P as ((Drose & _) & -> & _).
      unfold at_frame_test. rewrite G.
      destruct (clock_rose s r).
      * match goal with
        | |- context [end_of_frame ?m] =>
            destruct (frame_received m) eqn:F;
            [rewrite end_of_frame_received by exact F; discriminate
            | rewrite end_of_frame_not_received by exact F; auto]
        end.
      * destruct (samples_keypad s r);
          match goal with
          | |- context [end_of_frame ?m] =>
              destruct (frame_received m) eqn:F;
              [rewrite end_of_frame_received by exact F; discriminate
              | rewrite end_of_frame_not_received by exact F; auto]
          end.
    + intros C NR s' tr P. apply poll_done_inv in P.
      destruct P as (_ & -> & _).
      assert (R : clock_rose s r = false).
      { unfold clock_rose. rewrite C. reflexivity. }
      unfold at_frame_test. rewrite R, G.
      destruct (samples_keypad s r);
        rewrite end_of_frame_not_received by exact NR;
        repeat split; reflexivity.
    + intros C L NR.
      assert (R : clock_rose s r = false).
      { unfold clock_rose. rewrite C. reflexivity. }
      assert (K : samples_keypad s r = false).
      { unfold samples_keypad, clock_fell. rewrite C, L. reflexivity. }
      assert (D : poll_defined s r).
      { split; [rewrite R | rewrite K]; discriminate. }
      rewrite poll_normal_form by exact D.
      unfold at_frame_test, poll_events. rewrite R, K, G, C.
      rewrite end_of_frame_not_received by exact NR.
      rewrite app_nil_r. reflexivity.
Qed.

Lemma resynchronization_band_witness :
  (exists s' tr,
      processClockCycle (PC1550_new 17 18 15 0) (idle_poll 26500)
      = Done (s', tr)
      /\ synchronized s' = true /\ controller_bits_read s' = 0)
  /\ processClockCycle (PC1550_new 17 18 15 0 |> set_last_clock false)
       (idle_poll 29000)
     = Done (PC1550_new 17 18 15 0 |> set_last_clock false,
             entry_events (PC1550_new 17 18 15 0) (idle_poll 29000)).
Proof.
  split.
  - destruct (proj1 (resynchronization_band (PC1550_new 17 18 15 0)
                       (idle_poll 26500)))
      as (s' & tr & P & Es & Ep & _).
    + split; [reflexivity | ]. vm_compute. split; reflexivity.
    + exists s', tr. repeat split; assumption.
  - apply (proj2 (resynchronization_band
                    (PC1550_new 17 18 15 0 |> set_last_clock false)
                    (idle_poll 29000))).
    + intros [_ B]. vm_compute in B. destruct B as [_ B]. discriminate.
    + reflexivity.
    + reflexivity.
    + reflexivity.
Defined.

(** The claim with its closed band fails at both ends: an idle clock
    25000 or 28000 microseconds after the last bit does not
    synchronize. *)
Lemma closed_band_counterexample :
  let s := PC1550_new 17 18 15 0 in
  (clock (idle_poll 25000) = false
   /\ 25000 <= time_since_last_read s (idle_poll 25000) <= 28000
   /\ exists s' tr,
        processClockCycle s (idle_poll 25000) = Done (s', tr)
        /\ synchronized s' = false)
  /\
  (clock (idle_poll 28000) = false
   /\ 25000 <= time_since_last_read s (idle_poll 28000) <= 28000
   /\ exists s' tr,
        processClockCycle s (idle_poll 28000) = Done (s', tr)
        /\ synchronized s' = false).
Proof.
  intros s. split; (split; [reflexivity | split; [vm_compute; split; discriminate | ]]);
    eexists; eexists; (split; [vm_compute; reflexivity | reflexivity]).
Qed.

(** ** Keypad slots *)

(** X14. On a poll that finds the clock back idle, with the frame position
    in 1..7 and at most six keypad bits read, the data line is read, the
    engine waits 100 microseconds, reads the line again and ORs the
    inverse of that second level into keypad_data at bit
    [6 - keypad_bits_read], and counts the bit.  At any other frame
    position the poll reads nothing more and keeps keypad_data and
    keypad_bits_read; that includes position 0 just after the idle-gap test
    has zeroed both in the same poll. *)
Theorem keypad_bit_sampling (s : PC1550) (r : readings) :
  clock_fell s r = true ->
  (idle_gap_seen s r = false ->
   1 <= controller_bits_read s < 8 ->
   0 <= keypad_bits_read s <= 6 ->
   exists s',
     processClockCycle s r
     = Done (s', entry_events s r
                 ++ [DigitalRead (datapin s) (data_switch r);
                     DelayMicroseconds 100;
                     DigitalRead (datapin s) (data_settled r)])
     /\ keypad_data s'
        = uint8 (Z.lor (keypad_data s)
                   (Z.shiftl (Z.b2z (negb (data_settled r)))
                      (6 - keypad_bits_read s)))
     /\ keypad_bits_read s' = keypad_bits_read s + 1)
  /\
  (idle_gap_seen s r = false ->
   ~ 1 <= controller_bits_read s < 8 ->
   exists s',
     processClockCycle s r = Done (s', entry_events s r)
     /\ keypad_data s' = keypad_data s
     /\ keypad_bits_read s' = keypad_bits_read s)
  /\
  (idle_gap_seen s r = true ->
   exists s',
     processClockCycle s r = Done (s', entry_events s r)
     /\ keypad_data s' = 0
     /\ keypad_bits_read s' = 0).
Proof.
  intros F.
  assert (R : clock_rose s r = false).
  { unfold clock_fell, clock_rose in *. destruct (clock r); [discriminate | reflexivity]. }
  split; [ | split].
  - intros N W V.
    assert (G : gap_handled s r = s |> set_bTransmissionEnd false).
    { unfold gap_handled. rewrite N. reflexivity. }
    assert (K : samples_keypad s r = true).
    { unfold samples_keypad, in_keypad_window. rewrite F, G. members.
      destruct (Z.ltb_spec 0 (controller_bits_read s));
        destruct (Z.ltb_spec (controller_bits_read s) 8); try reflexivity; lia. }
    assert (D : poll_defined s r).
    { split; [rewrite R; discriminate | ]. intros _. rewrite G. members. lia. }
    eexists. split; [ | split].
    + rewrite poll_normal_form by exact D.
      unfold poll_events. rewrite R, K. reflexivity.
    + unfold at_frame_test. rewrite R, K, G.
      match goal with
      | |- context [end_of_frame ?m] =>
          destruct (frame_received m) eqn:E;
          [rewrite end_of_frame_received by exact E
          | rewrite end_of_frame_not_received by exact E]
      end; reflexivity.
    + unfold at_frame_test. rewrite R, K, G.
      assert (U : uint8 (keypad_bits_read s + 1) = keypad_bits_read s + 1)
        by (apply uint8_small; lia).
      match goal with
      | |- context [end_of_frame ?m] =>
          destruct (frame_received m) eqn:E;
          [rewrite end_of_frame_received by exact E
          | rewrite end_of_frame_not_received by exact E]
      end; members; exact U.
  - intros N W.
    assert (G : gap_handled s r = s |> set_bTransmissionEnd false).
    { unfold gap_handled. rewrite N. reflexivity. }
    assert (K : samples_keypad s r = false).
    { unfold samples_keypad, in_keypad_window. rewrite F, G. members.
      destruct (Z.ltb_spec 0 (controller_bits_read s));
        destruct (Z.ltb_spec (controller_bits_read s) 8); try reflexivity; lia. }
    assert (D : poll_defined s r).
    { split; [rewrite R | rewrite K]; discriminate. }
    eexists. split; [ | split].
    + rewrite poll_normal_form by exact D.
      unfold poll_events. rewrite R, K, app_nil_r. reflexivity.
    + unfold at_frame_test. rewrite R, K, G.
      match goal with
      | |- context [end_of_frame ?m] =>
          destruct (frame_received m) eqn:E;
          [rewrite end_of_frame_received by exact E
          | rewrite end_of_frame_not_received by exact E]
      end; reflexivity.
    + unfold at_frame_test. rewrite R, K, G.
      match goal with
      | |- context [end_of_frame ?m] =>
          destruct (frame_received m) eqn:E;
          [rewrite end_of_frame_received by exact E
          | rewrite end_of_frame_not_received by exact E]
      end; reflexivity.
  - intros Y.
    assert (G : gap_handled s r
                = resynchronize (s |> set_bTransmissionEnd false)).
    { unfold gap_handled. rewrite Y. reflexivity. }
    assert (K : samples_keypad s r = false).
    { unfold samples_keypad. rewrite G. apply andb_false_r. }
    assert (D : poll_defined s r).
    { split; [rewrite R | rewrite K]; discriminate. }
    eexists. split; [ | split].
    + rewrite poll_normal_form by exact D.
      unfold poll_events. rewrite R, K, app_nil_r. reflexivity.
    + unfold at_frame_test. rewrite R, K, G.
      rewrite end_of_frame_not_received by reflexivity. reflexivity.
    + unfold at_frame_test. rewrite R, K, G.
      rewrite end_of_frame_not_received by reflexivity. reflexivity.
Qed.

Lemma after_second_bit_run :
  polls (PC1550_new 17 18 15 0)
    (firstn 4 (panel_frame 0 sample_bits key5_levels))
  = Done after_second_bit.
Proof. vm_compute. reflexivity. Qed.

Lemma keypad_bit_sampling_witness :
  keypad_data after_second_bit = 0
  /\ keypad_bits_read after_second_bit = 1
  /\ exists s',
       processClockCycle after_second_bit (keypad_poll 28850 false)
       = Done (s', entry_events after_second_bit (keypad_poll 28850 false)
                   ++ [DigitalRead 17 true; DelayMicroseconds 100;
                       DigitalRead 17 false])
       /\ keypad_data s' = 0x20
       /\ keypad_bits_read s' = 2.
Proof.
  split; [reflexivity | split; [reflexivity | ]].
  destruct (proj1 (keypad_bit_sampling after_second_bit
                     (keypad_poll 28850 false) eq_refl))
    as (s' & P & Ed & Er).
  - reflexivity.
  - unfold after_second_bit. members. lia.
  - unfold after_second_bit. members. lia.
  - exists s'. split; [exact P | ]. rewrite Ed, Er. split; reflexivity.
Defined.

(** ** What the end-of-frame block and the idle-gap test leave alone *)

Lemma end_of_frame_keeps (m : PC1550) :
  transmitting (end_of_frame m) = transmitting m
  /\ datapin_mode (end_of_frame m) = datapin_mode m
  /\ key_to_send (end_of_frame m) = key_to_send m
  /\ keyHoldCycles (end_of_frame m) = keyHoldCycles m
  /\ cyclesWithoutKey (end_of_frame m) = cyclesWithoutKey m
  /\ keypad_bits_read (end_of_frame m) = keypad_bits_read m
  /\ controller_bits_read (end_of_frame m)
     = (if frame_received m then 0 else controller_bits_read m)
  /\ synchronized (end_of_frame m)
     = (if frame_received m then false else synchronized m).
Proof.
  destruct (frame_received m) eqn:F.
  - rewrite end_of_frame_received by exact F. repeat split; reflexivity.
  - rewrite end_of_frame_not_received by exact F. repeat split; reflexivity.
Qed.

Lemma gap_handled_keeps (s : PC1550) (r : readings) :
  transmitting (gap_handled s r) = transmitting s
  /\ datapin_mode (gap_handled s r) = datapin_mode s
  /\ key_to_send (gap_handled s r) = key_to_send s
  /\ keyHoldCycles (gap_handled s r) = keyHoldCycles s
  /\ cyclesWithoutKey (gap_handled s r) = cyclesWithoutKey s
  /\ controller_bits_read (gap_handled s r)
     = (if idle_gap_seen s r then 0 else controller_bits_read s).
Proof.
  unfold gap_handled. destruct (idle_gap_seen s r); repeat split; reflexivity.
Qed.

(** What a poll without the second edge branch leaves alone. *)
Lemma quiet_poll_keeps (s : PC1550) (r : readings) :
  clock_rose s r = false ->
  let m := at_frame_test s r in
  transmitting m = transmitting s
  /\ datapin_mode m = datapin_mode s
  /\ key_to_send m = key_to_send s
  /\ keyHoldCycles m = keyHoldCycles s
  /\ cyclesWithoutKey m = cyclesWithoutKey s
  /\ controller_bits_read m
     = (if idle_gap_seen s r then 0 else controller_bits_read s).
Proof.
  intros R m. subst m. unfold at_frame_test. rewrite R.
  destruct (gap_handled_keeps s r) as (A & B & C & D & E & F).
  destruct (samples_keypad s r); unfold after_keypad_bit; members;
    repeat split; assumption.
Qed.

(** ** Transmit slots *)

Lemma sending_bTransmissionEnd (s : PC1550) (b : bool) :
  sending (set_bTransmissionEnd b s) = sending s.
Proof. reflexivity. Qed.

Lemma pulls_low_bTransmissionEnd (s : PC1550) (b : bool) :
  pulls_low (set_bTransmissionEnd b s) = pulls_low s.
Proof. reflexivity. Qed.

Lemma sending_needs_slot (s : PC1550) : 8 <= slot s -> sending s = false.
Proof.
  intros H. unfold sending.
  destruct (Z.leb_spec 8 (slot s)); [reflexivity | lia].
Qed.

(** C4. On the poll that counts bit p of a frame, the data pin is first
    released; while transmitting and for p in 1..7 it is then switched to
    output, which pulls the line low, exactly when bit 7 - p of key_to_send
    is set, and stays released otherwise.  From p = 8 on transmitting is
    cleared and the pin stays released; between polls a reachable object
    at frame position 8 or more is not transmitting and its data pin is
    released. *)
Theorem key_bit_transmission :
  (forall s r,
      clock_rose s r = true ->
      0 <= controller_bits_read s <= 15 ->
      let p := controller_bits_read s + 1 in
      exists s' tr,
        processClockCycle s r = Done (s', tr)
        /\ tr = entry_events s r
                ++ [Micros (now_edge r); PinMode (datapin s) INPUT]
                ++ match datapin_mode s' with
                   | OUTPUT => [PinMode (datapin s) OUTPUT]
                   | INPUT => []
                   end
        /\ (1 <= p <= 7 -> transmitting s' = true ->
            (datapin_mode s' = OUTPUT <->
             Z.testbit (key_to_send s) (7 - p) = true))
        /\ (transmitting s' = false -> datapin_mode s' = INPUT)
        /\ (8 <= p -> transmitting s' = false))
  /\
  (forall s,
      reachable s ->
      8 <= controller_bits_read s ->
      transmitting s = false /\ datapin_mode s = INPUT).
Proof.
  split.
  - intros s r R Hp p.
    assert (D : poll_defined s r).
    { split; [intros _; exact Hp | ].
      unfold samples_keypad, clock_fell, clock_rose in *.
      destruct (clock r); discriminate. }
    assert (Sl : slot s = p) by (unfold slot; apply uint8_small; lia).
    eexists. eexists. split; [apply poll_normal_form, D | ].
    unfold at_frame_test, poll_events. rewrite R.
    destruct (end_of_frame_keeps (after_bit (set_bTransmissionEnd false s) r))
      as (Et & Em & _).
    members. rewrite Et, Em. unfold after_bit. members.
    rewrite sending_bTransmissionEnd, pulls_low_bTransmissionEnd.
    unfold bit_events, pulls_low. rewrite Sl.
    split; [ | split; [ | split]].
    + destruct (sending s && Z.testbit (key_to_send s) (7 - p));
        reflexivity.
    + intros _ ->. cbn [andb].
      destruct (Z.testbit (key_to_send s) (7 - p));
        split; intros; congruence.
    + intros ->. reflexivity.
    + intros H. apply sending_needs_slot. lia.
  - induction 1 as [dp cp pp t | s r s' tr _ IH P | s c n _ IH].
    + cbn. lia.
    + apply poll_done_inv in P. destruct P as ((Drose & _) & -> & _).
      members. intros H8.
      destruct (end_of_frame_keeps (at_frame_test s r))
        as (Et & Em & _ & _ & _ & _ & Ep & _).
      rewrite Et, Em. rewrite Ep in H8.
      destruct (frame_received (at_frame_test s r)); [lia | ].
      destruct (clock_rose s r) eqn:R.
      * unfold at_frame_test in *. rewrite R in *.
        unfold after_bit in *. members. members in H8.
        unfold pulls_low.
        rewrite sending_bTransmissionEnd.
        rewrite sending_needs_slot by exact H8.
        split; reflexivity.
      * destruct (quiet_poll_keeps s r R) as (Qt & Qm & _ & _ & _ & Qp).
        rewrite Qt, Qm. apply IH.
        rewrite Qp in H8. destruct (idle_gap_seen s r); [lia | exact H8].
    + destruct (sendKey_keeps_position s c n) as (_ & Ep & Em).
      rewrite Ep, Em. intros H8. split; [ | apply IH, H8].
      unfold sendKey.
      destruct (negb (readyForKeyPress s)); [apply IH, H8 | ].
      destruct (getKeyValue c =? 0); apply IH, H8.
Qed.

Lemma key_requested_run :
  exists s,
    polls (PC1550_new 17 18 15 0) (panel_frame 0 sample_bits []) = Done s
    /\ sendKey s "5"%char 3 = (true, key_requested)
    /\ polls key_requested (firstn 3 (panel_frame 49100 sample_bits []))
       = Done sending_second_bit.
Proof.
  eexists. split; [vm_compute; reflexivity | ].
  split; vm_compute; reflexivity.
Qed.

Lemma key_bit_transmission_witness :
  transmitting sending_second_bit = true
  /\ key_to_send sending_second_bit = 0x22
  /\ controller_bits_read sending_second_bit = 1
  /\ exists s' tr,
       processClockCycle sending_second_bit (bit_poll 77200 false false)
       = Done (s', tr)
       /\ transmitting s' = true
       /\ datapin_mode s' = OUTPUT.
Proof.
  split; [reflexivity | split; [reflexivity | split; [reflexivity | ]]].
  destruct (proj1 key_bit_transmission sending_second_bit
              (bit_poll 77200 false false) eq_refl)
    as (s' & tr & P & _ & Hbit & _).
  - unfold sending_second_bit. members. lia.
  - exists s', tr. split; [exact P | ].
    assert (T : transmitting s' = true).
    { vm_compute in P. injection P as <- _. reflexivity. }
    split; [exact T | ].
    apply Hbit.
    + unfold sending_second_bit. members. lia.
    + exact T.
    + reflexivity.
Defined.

(** ** Press and release *)

(** C6, amended. On the poll that completes a frame with no keypad bit
    set, when the snapshot of the frame before holds a key code:
    keyReleased returns the character of that code, keyPressed returns
    NUL, the snapshot becomes 0 and the count of consecutive presses keeps
    its value.  The count is reset to 0 by the completion of a frame with
    no keypad bit set when the snapshot already is 0. *)
Theorem release_then_reset (s : PC1550) (r : readings) :
  synchronized s = true ->
  controller_bits_read s = 15 ->
  clock_rose s r = true ->
  keypad_data s = 0 ->
  exists s' tr,
    processClockCycle s r = Done (s', tr)
    /\ bTransmissionEnd s' = true
    /\ available_keypad_data s' = 0
    /\ keyPressed s' = Ascii.zero
    /\ (available_keypad_data s <> 0 ->
        keyReleased s' = getKeyChar (available_keypad_data s)
        /\ consecutiveKeyPresses s' = consecutiveKeyPresses s)
    /\ (available_keypad_data s = 0 ->
        keyReleased s' = Ascii.zero
        /\ consecutiveKeyPresses s' = 0).
Proof.
  intros Hs Hp Hr Hk.
  assert (D : poll_defined s r).
  { split; [intros _; lia | ].
    unfold samples_keypad, clock_fell, clock_rose in *.
    destruct (clock r); discriminate. }
  eexists. eexists. split; [apply poll_normal_form, D | ].
  unfold at_frame_test. rewrite Hr.
  assert (F : frame_received (after_bit (set_bTransmissionEnd false s) r)
              = true).
  { unfold frame_received, after_bit, slot. members.
    rewrite Hs, Hp. reflexivity. }
  rewrite end_of_frame_received by exact F.
  unfold keyPressed, keyReleased, consecutiveKeyPresses,
    frame_closed, after_bit.
  members. rewrite Hk. cbn [Z.eqb negb andb].
  split; [reflexivity | split; [reflexivity | split; [reflexivity | ]]].
  split.
  - intros N. destruct (Z.eqb_spec (available_keypad_data s) 0);
      [contradiction | ]. split; reflexivity.
  - intros ->. split; reflexivity.
Qed.

Lemma before_release_run :
  polls (PC1550_new 17 18 15 0)
    (panel_frame 0 sample_bits key5_levels
     ++ firstn 31 (panel_frame 49100 sample_bits []))
  = Done before_release.
Proof. vm_compute. reflexivity. Qed.

Lemma release_then_reset_witness :
  available_keypad_data before_release = 0x22
  /\ consecutiveKeyPresses before_release = 1
  /\ exists s' tr,
       processClockCycle before_release (bit_poll 98200 true false)
       = Done (s', tr)
       /\ keyReleased s' = "5"%char
       /\ keyPressed s' = Ascii.zero
       /\ consecutiveKeyPresses s' = 1.
Proof.
  split; [reflexivity | split; [reflexivity | ]].
  destruct (release_then_reset before_release (bit_poll 98200 true false)
              eq_refl eq_refl eq_refl eq_refl)
    as (s' & tr & P & _ & _ & Hp & Hrel & _).
  exists s', tr. split; [exact P | ].
  destruct Hrel as [Hr Hc]; [discriminate | ].
  rewrite Hr, Hc, Hp. repeat split; reflexivity.
Defined.

(** The claim fails on the sample run: the poll that completes the frame
    after the key 5 reports the release of 5 and leaves the count of
    consecutive presses at 1. *)
Lemma release_counter_counterexample :
  synchronized before_release = true
  /\ controller_bits_read before_release = 15
  /\ available_keypad_data before_release <> 0
  /\ keypad_data before_release = 0
  /\ exists s' tr,
       processClockCycle before_release (bit_poll 98200 true false)
       = Done (s', tr)
       /\ bTransmissionEnd s' = true
       /\ keyReleased s' = "5"%char
       /\ consecutiveKeyPresses s' <> 0.
Proof.
  split; [reflexivity | split; [reflexivity | split; [discriminate | ]]].
  split; [reflexivity | ].
  eexists. eexists. split; [vm_compute; reflexivity | ].
  split; [reflexivity | split; [reflexivity | discriminate]].
Qed.

(** ** The first key *)

Lemma before_first_quiet_frame_idle (s : PC1550) :
  before_first_quiet_frame s ->
  cyclesWithoutKey s = 0 /\ key_to_send s = 0.
Proof.
  induction 1 as [dp cp pp t | s r s' tr _ [Ic Ik] Q P | s c n _ [Ic Ik]].
  - split; reflexivity.
  - apply poll_done_inv in P. destruct P as ((Drose & _) & -> & _).
    members.
    destruct (end_of_frame_keeps (at_frame_test s r))
      as (_ & _ & Ek & _ & Ec & _).
    rewrite Ek, Ec.
    destruct (clock_rose s r) eqn:R.
    + unfold at_frame_test. rewrite R. unfold after_bit. members.
      unfold quiet_frame_start in Q. rewrite R, Ik in Q.
      fold (slot s) in Q. cbn [andb Z.eqb] in Q.
      rewrite andb_true_r in Q.
      replace (slot (set_bTransmissionEnd false s)) with (slot s)
        by reflexivity.
      rewrite Q, Ik. split; [exact Ic | ].
      destruct (_ && _ && _); reflexivity.
    + destruct (quiet_poll_keeps s r R) as (_ & _ & Qk & _ & Qc & _).
      rewrite Qk, Qc. split; assumption.
  - unfold sendKey, readyForKeyPress. rewrite Ic.
    rewrite orb_true_r. cbn. split; assumption.
Qed.

(** C10. Right after construction readyForKeyPress returns false, and as
    long as no poll has counted the first bit of a synchronized frame
    with no key code pending, readyForKeyPress returns false and every
    sendKey fails and changes nothing. *)
Theorem no_key_before_first_quiet_frame :
  (forall dp cp pp t, readyForKeyPress (PC1550_new dp cp pp t) = false)
  /\
  (forall s,
      before_first_quiet_frame s ->
      readyForKeyPress s = false
      /\ forall c n, sendKey s c n = (false, s)).
Proof.
  split.
  - reflexivity.
  - intros s B. apply before_first_quiet_frame_idle in B.
    destruct B as [Ic _].
    assert (R : readyForKeyPress s = false).
    { unfold readyForKeyPress. rewrite Ic, orb_true_r. reflexivity. }
    split; [exact R | ].
    intros c n. unfold sendKey. rewrite R. reflexivity.
Qed.

Lemma no_key_before_first_quiet_frame_witness :
  synchronized synchronized_only = true
  /\ sendKey synchronized_only "5"%char 3 = (false, synchronized_only).
Proof.
  split; [reflexivity | ].
  apply (proj2 no_key_before_first_quiet_frame).
  apply (bq_poll (PC1550_new 17 18 15 0) (idle_poll 26500) _
           (poll_events (PC1550_new 17 18 15 0) (idle_poll 26500))).
  - apply bq_new.
  - reflexivity.
  - vm_compute. reflexivity.
Defined.

(** Once the first bit of a synchronized frame has been counted with no
    key pending, a request is accepted. *)
Example first_key_accepted :
  exists s,
    polls synchronized_only [bit_poll 26600 true false] = Done s
    /\ quiet_frame_start synchronized_only (bit_poll 26600 true false) = true
    /\ fst (sendKey s "5"%char 3) = true.
Proof.
  eexists. split; [vm_compute; reflexivity | ].
  split; reflexivity.
Qed.

(** ** Synchronized frames *)

Lemma slots_after_step (p : Z) :
  0 <= p <= 15 -> slots_after p = (p + 1) :: slots_after (p + 1).
Proof.
  intros H. unfold slots_after.
  replace (Z.to_nat (16 - p)) with (S (Z.to_nat (16 - (p + 1)))) by lia.
  cbn [seq map]. f_equal; [lia | ].
  rewrite <- seq_shift, map_map.
  apply map_ext. intros i. lia.
Qed.

Lemma expected_step (k p : Z) :
  0 <= p <= 15 ->
  expected k p = pulled_in_slot k (p + 1) :: expected k (p + 1).
Proof.
  intros H. unfold expected. rewrite slots_after_step by exact H. reflexivity.
Qed.

Lemma expected_last (k : Z) : expected k 15 = [false].
Proof. reflexivity. Qed.

Lemma expected_key_pattern (k : Z) : expected k 0 = key_pattern k.
Proof. reflexivity. Qed.

Lemma expected_silent : expected 0 0 = silent.
Proof. reflexivity. Qed.

(** The effect of a poll that counts a bit. *)
Lemma bit_poll_effect (s : PC1550) (r : readings) (s1 : PC1550) (tr : list event) :
  clock_rose s r = true ->
  processClockCycle s r = Done (s1, tr) ->
  let last := synchronized s && (slot s =? 16) in
  slot s = controller_bits_read s + 1
  /\ 0 <= controller_bits_read s <= 15
  /\ bTransmissionEnd s1 = last
  /\ synchronized s1 = (if last then false else synchronized s)
  /\ controller_bits_read s1 = (if last then 0 else slot s)
  /\ transmitting s1 = sending s
  /\ keyHoldCycles s1 = hold_after_bit s
  /\ key_to_send s1
     = (if sending s && (slot s =? 7) && (hold_after_bit s =? 0) then 0
        else key_to_send s)
  /\ driven s1 = pulls_low s.
Proof.
  intros R P last.
  apply poll_done_inv in P. destruct P as ((Drose & _) & -> & _).
  specialize (Drose R).
  split; [unfold slot; apply uint8_small; lia | ].
  split; [exact Drose | ].
  unfold at_frame_test. rewrite R.
  assert (F : frame_received (after_bit (set_bTransmissionEnd false s) r)
              = last) by reflexivity.
  destruct last.
  - rewrite end_of_frame_received by exact F.
    unfold driven, frame_closed, after_bit. members.
    rewrite pulls_low_bTransmissionEnd.
    repeat split; try reflexivity.
    destruct (pulls_low s); reflexivity.
  - rewrite end_of_frame_not_received by exact F.
    unfold driven, after_bit. members.
    rewrite pulls_low_bTransmissionEnd.
    repeat split; try reflexivity.
    destruct (pulls_low s); reflexivity.
Qed.

(** The effect of a poll that counts no bit and sees no idle gap. *)
Lemma quiet_poll_effect (s : PC1550) (r : readings) (s1 : PC1550) (tr : list event) :
  clock_rose s r = false ->
  idle_gap_seen s r = false ->
  processClockCycle s r = Done (s1, tr) ->
  transmitting s1 = transmitting s
  /\ keyHoldCycles s1 = keyHoldCycles s
  /\ key_to_send s1 = key_to_send s
  /\ (frame_received s = false ->
      bTransmissionEnd s1 = false
      /\ synchronized s1 = synchronized s
      /\ controller_bits_read s1 = controller_bits_read s).
Proof.
  intros R G P.
  apply poll_done_inv in P. destruct P as (_ & -> & _).
  destruct (quiet_poll_keeps s r R) as (Qt & _ & Qk & Qh & _ & _).
  destruct (end_of_frame_keeps (at_frame_test s r))
    as (Et & _ & Ek & Eh & _ & _ & _ & _).
  members. rewrite Et, Ek, Eh, Qt, Qk, Qh.
  repeat split; try reflexivity.
  - unfold at_frame_test, gap_handled. rewrite R, G.
    destruct (samples_keypad s r);
      rewrite end_of_frame_not_received by exact H; reflexivity.
  - unfold at_frame_test, gap_handled. rewrite R, G.
    destruct (samples_keypad s r);
      rewrite end_of_frame_not_received by exact H; reflexivity.
  - unfold at_frame_test, gap_handled. rewrite R, G.
    destruct (samples_keypad s r);
      rewrite end_of_frame_not_received by exact H; reflexivity.
Qed.

(** The effect of the poll that sees the idle gap. *)
Lemma sync_poll_effect (s : PC1550) (r : readings) (s1 : PC1550) (tr : list event) :
  idle_gap_seen s r = true ->
  processClockCycle s r = Done (s1, tr) ->
  synchronized s1 = true
  /\ controller_bits_read s1 = 0
  /\ transmitting s1 = transmitting s
  /\ keyHoldCycles s1 = keyHoldCycles s
  /\ key_to_send s1 = key_to_send s.
Proof.
  intros G P.
  assert (C : clock r = false).
  { unfold idle_gap_seen in G. destruct (clock r); [discriminate | reflexivity]. }
  assert (R : clock_rose s r = false).
  { unfold clock_rose. rewrite C. reflexivity. }
  apply poll_done_inv in P. destruct P as (_ & -> & _).
  assert (E : gap_handled s r
              = resynchronize (s |> set_bTransmissionEnd false)).
  { unfold gap_handled. rewrite G. reflexivity. }
  assert (K : samples_keypad s r = false).
  { unfold samples_keypad. rewrite E. apply andb_false_r. }
  unfold at_frame_test. rewrite R, K, E.
  rewrite end_of_frame_not_received by reflexivity.
  repeat split; reflexivity.
Qed.

Lemma not_received_below_16 (s : PC1550) :
  controller_bits_read s <= 15 -> frame_received s = false.
Proof.
  intros H. unfold frame_received.
  destruct (Z.eqb_spec (controller_bits_read s) 16); [lia | ].
  apply andb_false_r.
Qed.

Section OneFrame.

(** A frame that starts with the key code [k] pending and [h] frames to
    hold it. *)
Variables k h : Z.
Hypothesis k_nonzero : k <> 0.
Hypothesis h_range : 0 < h < 256.

Lemma sending_in_frame (s : PC1550) :
  synchronized s = true ->
  0 <= controller_bits_read s <= 15 ->
  key_state k h (controller_bits_read s) s ->
  sending s = (controller_bits_read s <=? 6).
Proof.
  intros Hs Hp (K1 & K2 & K3).
  assert (Sl : slot s = controller_bits_read s + 1)
    by (unfold slot; apply uint8_small; lia).
  destruct (Z.leb_spec (controller_bits_read s) 6) as [L | L].
  - unfold sending. rewrite Sl, Hs.
    destruct (Z.leb_spec 8 (controller_bits_read s + 1)); [lia | ].
    destruct (Z.eq_dec (controller_bits_read s) 0) as [E | E].
    + destruct (K1 L) as [Ek _]. rewrite Ek, E.
      destruct (Z.eqb_spec k 0); [contradiction | reflexivity].
    + rewrite K2 by lia.
      match goal with |- (if ?b then _ else _) = _ => destruct b end;
        reflexivity.
  - apply sending_needs_slot. lia.
Qed.

Lemma transmit_slot (s s1 : PC1550) :
  synchronized s = true ->
  0 <= controller_bits_read s <= 15 ->
  key_state k h (controller_bits_read s) s ->
  transmitting s1 = sending s ->
  keyHoldCycles s1 = hold_after_bit s ->
  key_to_send s1
  = (if sending s && (slot s =? 7) && (hold_after_bit s =? 0) then 0
     else key_to_send s) ->
  pulls_low s = pulled_in_slot k (controller_bits_read s + 1)
  /\ key_state k h (controller_bits_read s + 1) s1
  /\ (7 <= controller_bits_read s ->
      transmitting s1 = false /\ pending k (h - 1) s1).
Proof.
  intros Hs Hp KS Et Eh Ek.
  pose proof (sending_in_frame s Hs Hp KS) as Sd.
  destruct KS as (K1 & K2 & K3).
  assert (Sl : slot s = controller_bits_read s + 1)
    by (unfold slot; apply uint8_small; lia).
  unfold pulls_low, pulled_in_slot, hold_after_bit, key_state, pending in *.
  rewrite Sd, Sl in *.
  set (p := controller_bits_read s) in *.
  destruct (Z.leb_spec p 6) as [L | L]; cbn [andb] in *.
  - destruct (K1 L) as [Kk Kh]. rewrite Kk, Kh in *.
    destruct (Z.leb_spec 1 (p + 1)); [ | lia].
    destruct (Z.leb_spec (p + 1) 7); [ | lia]. cbn [andb].
    split; [reflexivity | ].
    destruct (Z.eqb_spec (p + 1) 7) as [E7 | E7]; cbn [andb] in *.
    + destruct (Z.ltb_spec 0 h); [ | lia].
      rewrite uint8_small in * by lia.
      split; [ | intros; lia].
      split; [intros; lia | ]. split; [intros; lia | ].
      intros _. split; [exact Eh | exact Ek].
    + split; [ | intros; lia].
      split; [intros _; split; assumption | ].
      split; [intros _; exact Et | intros; lia].
  - destruct (K3 ltac:(lia)) as [Kh Kk].
    destruct (Z.leb_spec (p + 1) 7); [lia | ].
    rewrite andb_false_r. cbn [andb].
    split; [reflexivity | ].
    split.
    + split; [intros; lia | ]. split; [intros; lia | ].
      intros _. split; congruence.
    + intros _. split; [exact Et | ]. split; congruence.
Qed.

(** The rest of a frame from position [p] shows the rest of the key
    pattern and leaves the request with one frame less to go. *)
Lemma frame_body_sends (s : PC1550) (rs : list readings) (ds : list bool)
      (s' : PC1550) :
  frame_body s rs ds s' ->
  synchronized s = true ->
  0 <= controller_bits_read s <= 15 ->
  key_state k h (controller_bits_read s) s ->
  ds = expected k (controller_bits_read s)
  /\ pending k (h - 1) s'
  /\ transmitting s' = false
  /\ controller_bits_read s' = 0.
Proof.
  induction 1 as [s r s' tr G P B | s r s1 tr rs ds s' G P B _ IH];
    intros Hs Hp KS.
  - unfold slot_seen. destruct (clock_rose s r) eqn:R.
    + destruct (bit_poll_effect s r s' tr R P)
        as (Sl & _ & Eb & _ & Ec & Et & Eh & Ek & Ed).
      rewrite Hs in Eb, Ec. cbn [andb] in Eb, Ec. rewrite B in Eb.
      rewrite <- Eb in Ec.
      symmetry in Eb. apply Z.eqb_eq in Eb.
      assert (E15 : controller_bits_read s = 15) by lia.
      destruct (transmit_slot s s' Hs Hp KS Et Eh Ek) as (Ep & _ & Ef).
      destruct (Ef ltac:(lia)) as [Ft Fp].
      rewrite Ed, Ep, E15.
      split; [reflexivity | ]. split; [exact Fp | ]. split; assumption.
    + destruct (quiet_poll_effect s r s' tr R G P) as (_ & _ & _ & Q).
      destruct (Q (not_received_below_16 s ltac:(lia))) as (Qb & _).
      congruence.
  - unfold slot_seen. destruct (clock_rose s r) eqn:R.
    + destruct (bit_poll_effect s r s1 tr R P)
        as (Sl & _ & Eb & Es & Ec & Et & Eh & Ek & Ed).
      rewrite Hs in Eb, Es, Ec. cbn [andb] in Eb, Es, Ec. rewrite B in Eb.
      rewrite <- Eb in Es, Ec.
      symmetry in Eb. apply Z.eqb_neq in Eb.
      destruct (transmit_slot s s1 Hs Hp KS Et Eh Ek) as (Ep & KS1 & _).
      rewrite Sl in Ec. rewrite <- Ec in KS1.
      destruct (IH Es ltac:(lia) KS1) as (Ids & Ipend & It & Ic).
      split; [ | split; [exact Ipend | split; assumption]].
      rewrite expected_step by exact Hp.
      rewrite Ed, Ep, Ids, Ec. reflexivity.
    + destruct (quiet_poll_effect s r s1 tr R G P) as (Qt & Qh & Qk & Q).
      destruct (Q (not_received_below_16 s ltac:(lia))) as (_ & Qs & Qc).
      assert (KS1 : key_state k h (controller_bits_read s1) s1).
      { unfold key_state in *. rewrite Qt, Qh, Qk, Qc. exact KS. }
      destruct (IH ltac:(congruence) ltac:(lia) KS1) as (Ids & Ipend & It & Ic).
      rewrite Qc in Ids. cbn [app].
      split; [exact Ids | ]. split; [exact Ipend | ]. split; assumption.
Qed.

End OneFrame.

Lemma pulled_in_no_slot (j : Z) : pulled_in_slot 0 j = false.
Proof.
  unfold pulled_in_slot. rewrite Z.testbit_0_l. apply andb_false_r.
Qed.

(** Without a key code and a hold count, a bit changes neither and pulls
    nothing. *)
Lemma idle_slot (s : PC1550) :
  key_to_send s = 0 ->
  keyHoldCycles s = 0 ->
  pulls_low s = false
  /\ hold_after_bit s = 0
  /\ (if sending s && (slot s =? 7) && (hold_after_bit s =? 0) then 0
      else key_to_send s) = 0.
Proof.
  intros Ek Eh. unfold pulls_low, hold_after_bit.
  rewrite Ek, Eh, Z.testbit_0_l.
  change (0 <? 0) with false. rewrite !andb_false_r.
  repeat split; try reflexivity.
  destruct (_ && _ && _); reflexivity.
Qed.

(** The rest of a frame from position [p] with no request pending. *)
Lemma frame_body_silent (s : PC1550) (rs : list readings) (ds : list bool)
      (s' : PC1550) :
  frame_body s rs ds s' ->
  synchronized s = true ->
  0 <= controller_bits_read s <= 15 ->
  key_to_send s = 0 ->
  keyHoldCycles s = 0 ->
  ds = expected 0 (controller_bits_read s)
  /\ pending 0 0 s'
  /\ transmitting s' = false
  /\ controller_bits_read s' = 0.
Proof.
  induction 1 as [s r s' tr G P B | s r s1 tr rs ds s' G P B _ IH];
    intros Hs Hp Kk Kh.
  - unfold slot_seen. destruct (clock_rose s r) eqn:R.
    + destruct (bit_poll_effect s r s' tr R P)
        as (Sl & _ & Eb & _ & Ec & Et & Eh & Ek & Ed).
      destruct (idle_slot s Kk Kh) as (Ip & Ih & Ik).
      rewrite Hs in Eb, Ec. cbn [andb] in Eb, Ec. rewrite B in Eb.
      rewrite <- Eb in Ec.
      symmetry in Eb. apply Z.eqb_eq in Eb.
      assert (E15 : controller_bits_read s = 15) by lia.
      rewrite Ed, Ip, E15.
      split; [reflexivity | ].
      split; [split; [congruence | rewrite Ek; exact Ik] | ].
      split; [ | exact Ec].
      rewrite Et. apply sending_needs_slot. lia.
    + destruct (quiet_poll_effect s r s' tr R G P) as (_ & _ & _ & Q).
      destruct (Q (not_received_below_16 s ltac:(lia))) as (Qb & _).
      congruence.
  - unfold slot_seen. destruct (clock_rose s r) eqn:R.
    + destruct (bit_poll_effect s r s1 tr R P)
        as (Sl & _ & Eb & Es & Ec & Et & Eh & Ek & Ed).
      destruct (idle_slot s Kk Kh) as (Ip & Ih & Ik).
      rewrite Hs in Eb, Es, Ec. cbn [andb] in Eb, Es, Ec. rewrite B in Eb.
      rewrite <- Eb in Es, Ec.
      symmetry in Eb. apply Z.eqb_neq in Eb.
      rewrite Sl in Ec.
      destruct (IH Es ltac:(lia) ltac:(congruence) ltac:(congruence))
        as (Ids & Ipend & It & Ic).
      split; [ | split; [exact Ipend | split; assumption]].
      rewrite expected_step by exact Hp.
      rewrite Ed, Ip, Ids, Ec, pulled_in_no_slot. reflexivity.
    + destruct (quiet_poll_effect s r s1 tr R G P) as (Qt & Qh & Qk & Q).
      destruct (Q (not_received_below_16 s ltac:(lia))) as (_ & Qs & Qc).
      destruct (IH ltac:(congruence) ltac:(lia) ltac:(congruence)
                  ltac:(congruence)) as (Ids & Ipend & It & Ic).
      rewrite Qc in Ids. cbn [app].
      split; [exact Ids | ]. split; [exact Ipend | ]. split; assumption.
Qed.

Lemma bystander_not_sending (s : PC1550) :
  0 <= controller_bits_read s <= 15 ->
  transmitting s = false ->
  past_frame_start s ->
  sending s = false.
Proof.
  intros Hp Bt Bp.
  assert (Sl : slot s = controller_bits_read s + 1)
    by (unfold slot; apply uint8_small; lia).
  unfold sending. rewrite Sl, Bt.
  destruct (8 <=? controller_bits_read s + 1); [reflexivity | ].
  destruct Bp as [-> | Bp]; [reflexivity | ].
  destruct (Z.eqb_spec (controller_bits_read s + 1) 1); [lia | ].
  rewrite andb_false_r. reflexivity.
Qed.

(** A poll before the body of a frame leaves the request alone, as long
    as the engine is not transmitting. *)
Lemma wait_poll_effect (s : PC1550) (r : readings) (s1 : PC1550) (tr : list event) :
  idle_gap_seen s r = false ->
  (clock_rose s r = true -> past_frame_start s) ->
  transmitting s = false ->
  processClockCycle s r = Done (s1, tr) ->
  keyHoldCycles s1 = keyHoldCycles s
  /\ key_to_send s1 = key_to_send s
  /\ transmitting s1 = false.
Proof.
  intros G By T P. destruct (clock_rose s r) eqn:R.
  - destruct (bit_poll_effect s r s1 tr R P)
      as (_ & Hp & _ & _ & _ & Et & Eh & Ek & _).
    pose proof (bystander_not_sending s Hp T (By eq_refl)) as N.
    rewrite N in Ek, Et. unfold hold_after_bit in Eh. rewrite N in Eh.
    split; [exact Eh | split; [exact Ek | exact Et]].
  - destruct (quiet_poll_effect s r s1 tr R G P) as (Qt & Qh & Qk & _).
    split; [exact Qh | split; [exact Qk | congruence]].
Qed.

(** One completed frame with a request of [k] for [h] more frames shows
    the key pattern and leaves [h - 1] frames to go; with no request it
    shows nothing. *)
Lemma frame_sends (k h : Z) (s : PC1550) (rs : list readings)
      (ds : list bool) (s' : PC1550) :
  k <> 0 ->
  0 <= h < 256 ->
  frame s rs ds s' ->
  pending k h s ->
  transmitting s = false ->
  ds = (if h =? 0 then silent else key_pattern k)
  /\ pending k (Z.max 0 (h - 1)) s'
  /\ transmitting s' = false.
Proof.
  intros Hk Hh F. induction F as
    [s r s1 tr rs ds s' G By P _ IH | s r s1 tr rs ds s' G P _ IH
    | s rs ds s' Es Ec B];
    intros [Ph Pk] T.
  - destruct (wait_poll_effect s r s1 tr G By T P) as (Eh & Ek & Et).
    apply IH; [split; congruence | exact Et].
  - destruct (sync_poll_effect s r s1 tr G P) as (_ & _ & Et & Eh & Ek).
    apply IH; [split; congruence | congruence].
  - destruct (Z.eqb_spec h 0) as [H0 | H0].
    + rewrite H0 in Ph |- *. change (Z.max 0 (0 - 1)) with 0.
      destruct (frame_body_silent s rs ds s' B Es ltac:(lia) Pk Ph)
        as (Eds & [Qh Qk] & Qt & _).
      rewrite Ec in Eds. split; [exact Eds | ].
      split; [split; [exact Qh | exact Qk] | exact Qt].
    + assert (KS : key_state k h (controller_bits_read s) s).
      { rewrite Ec. unfold key_state.
        split; [intros _; split; congruence | ].
        split; intros; lia. }
      destruct (frame_body_sends k h Hk ltac:(lia) s rs ds s' B Es
                  ltac:(lia) KS) as (Eds & Pend & Qt & _).
      rewrite Ec in Eds. rewrite Z.max_r by lia.
      split; [exact Eds | split; [exact Pend | exact Qt]].
Qed.

(** Consecutive completed frames: the first [h] show the key pattern, the
    others nothing. *)
Lemma frames_send (k : Z) (s : PC1550) (dss : list (list bool)) (s' : PC1550) :
  k <> 0 ->
  frames s dss s' ->
  forall h,
    0 <= h < 256 ->
    pending k h s ->
    transmitting s = false ->
    dss = repeat (key_pattern k) (Nat.min (List.length dss) (Z.to_nat h))
          ++ repeat silent (List.length dss - Z.to_nat h)
    /\ pending k (Z.max 0 (h - Z.of_nat (List.length dss))) s'.
Proof.
  intros Hk F. induction F as [s | s rs ds s1 dss s' F1 _ IH];
    intros h Hh Pe T.
  - cbn [List.length Nat.min Nat.sub repeat app].
    rewrite Z.sub_0_r, Z.max_r by lia. split; [reflexivity | exact Pe].
  - destruct (frame_sends k h s rs ds s1 Hk Hh F1 Pe T) as (Eds & P1 & T1).
    destruct (IH (Z.max 0 (h - 1)) ltac:(lia) P1 T1) as [Edss P'].
    split.
    + destruct (Z.eqb_spec h 0) as [H0 | H0].
      * subst h. change (Z.max 0 (0 - 1)) with 0 in Edss.
        change (Z.to_nat 0) with 0%nat in *.
        rewrite Nat.min_0_r, Nat.sub_0_r in *.
        cbn [List.length repeat app] in *. rewrite Eds. f_equal. exact Edss.
      * replace (Z.to_nat h) with (S (Z.to_nat (Z.max 0 (h - 1)))) by lia.
        cbn [List.length Nat.min Nat.sub repeat app].
        rewrite Eds. f_equal. exact Edss.
    + cbn [List.length].
      replace (Z.max 0 (h - Z.of_nat (S (List.length dss))))
        with (Z.max 0 (Z.max 0 (h - 1) - Z.of_nat (List.length dss))) by lia.
      exact P'.
Qed.

Lemma key_pattern_not_silent (c : ascii) :
  getKeyValue c <> 0 -> key_pattern (getKeyValue c) <> silent.
Proof.
  destruct c as [b0 b1 b2 b3 b4 b5 b6 b7].
  destruct b0, b1, b2, b3, b4, b5, b6, b7; cbn;
    intros H; try (exfalso; apply H; reflexivity); discriminate.
Qed.

Lemma sendKey_accepted (s0 : PC1550) (c : ascii) (n : Z) (s : PC1550) :
  sendKey s0 c n = (true, s) ->
  getKeyValue c <> 0
  /\ key_to_send s = getKeyValue c
  /\ keyHoldCycles s = uint8 n.
Proof.
  unfold sendKey.
  destruct (negb (readyForKeyPress s0)); [discriminate | ].
  destruct (Z.eqb_spec (getKeyValue c) 0); [discriminate | ].
  intros E. injection E as <-.
  split; [assumption | split; reflexivity].
Qed.

(** sendKey changes no member but the key code and the hold count. *)
Lemma sendKey_keeps_frame (s0 : PC1550) (c : ascii) (n : Z) :
  let s := snd (sendKey s0 c n) in
  transmitting s = transmitting s0
  /\ synchronized s = synchronized s0
  /\ controller_bits_read s = controller_bits_read s0
  /\ cyclesWithoutKey s = cyclesWithoutKey s0.
Proof.
  unfold sendKey.
  destruct (negb (readyForKeyPress s0)); [repeat split | ].
  destruct (getKeyValue c =? 0); repeat split.
Qed.

(** X15. After sendKey accepts a key with a hold count n > 0 while the
    engine is not transmitting, the completed synchronized frames that
    follow show the bits of the key code in their transmit slots for
    exactly the first n of them and nothing afterwards, however many polls
    see each idle gap; the hold count goes down by one per frame and the
    key code is cleared when it reaches zero.  Within a poll the two
    members change only when the 7th bit is counted while transmitting:
    the count is decremented if positive and the code is cleared exactly
    when the count is then zero. *)
Theorem key_held_for_n_frames :
  (forall s0 c n s dss s',
      sendKey s0 c n = (true, s) ->
      0 < n < 256 ->
      transmitting s0 = false ->
      frames s dss s' ->
      let k := getKeyValue c in
      dss = repeat (key_pattern k) (Nat.min (List.length dss) (Z.to_nat n))
            ++ repeat silent (List.length dss - Z.to_nat n)
      /\ keyHoldCycles s' = Z.max 0 (n - Z.of_nat (List.length dss))
      /\ key_to_send s' = (if Z.of_nat (List.length dss) <? n then k else 0)
      /\ key_pattern k <> silent)
  /\
  (forall s r s1 tr,
      clock_rose s r = true ->
      processClockCycle s r = Done (s1, tr) ->
      0 <= keyHoldCycles s < 256 ->
      (transmitting s1 = true /\ controller_bits_read s = 6 ->
       keyHoldCycles s1 = Z.max 0 (keyHoldCycles s - 1)
       /\ key_to_send s1
          = (if keyHoldCycles s1 =? 0 then 0 else key_to_send s))
      /\
      (~ (transmitting s1 = true /\ controller_bits_read s = 6) ->
       keyHoldCycles s1 = keyHoldCycles s
       /\ key_to_send s1 = key_to_send s)).
Proof.
  split.
  - intros s0 c n s dss s' A Hn T0 F k.
    destruct (sendKey_accepted s0 c n s A) as (Hk & Ek & Eh).
    destruct (sendKey_keeps_frame s0 c n) as (Et & _).
    rewrite A in Et. cbn [snd] in Et.
    rewrite uint8_small in Eh by lia.
    assert (Pe : pending k n s).
    { split; [exact Eh | ].
      destruct (Z.eqb_spec n 0); [lia | exact Ek]. }
    destruct (frames_send k s dss s' Hk F n ltac:(lia) Pe ltac:(congruence))
      as [Edss [Ph Pk]].
    split; [exact Edss | ]. split; [exact Ph | ].
    split; [ | apply key_pattern_not_silent, Hk].
    rewrite Pk.
    destruct (Z.ltb_spec (Z.of_nat (List.length dss)) n);
      destruct (Z.eqb_spec (Z.max 0 (n - Z.of_nat (List.length dss))) 0);
      try reflexivity; lia.
  - intros s r s1 tr R P Hh.
    destruct (bit_poll_effect s r s1 tr R P)
      as (Sl & Hp & _ & _ & _ & Et & Eh & Ek & _).
    rewrite <- Eh in Ek. unfold hold_after_bit in Eh.
    rewrite <- Et, Sl in Eh, Ek.
    split.
    + intros [T E6]. rewrite T, E6 in Eh, Ek.
      change (6 + 1 =? 7) with true in Eh, Ek. cbn [andb] in Eh, Ek.
      split; [ | exact Ek].
      destruct (Z.ltb_spec 0 (keyHoldCycles s)).
      * rewrite uint8_small in Eh by lia. lia.
      * lia.
    + intros N.
      destruct (transmitting s1) eqn:T; cbn [andb] in Eh, Ek;
        [ | split; assumption].
      destruct (Z.eqb_spec (controller_bits_read s + 1) 7) as [E | E];
        cbn [andb] in Eh, Ek; [ | split; assumption].
      exfalso. apply N. split; [reflexivity | lia].
Qed.

(** ** Checking the frames of a concrete run *)

Lemma body_run_sound (rs : list readings) :
  forall s ds s', body_run s rs = Some (ds, s') -> frame_body s rs ds s'.
Proof.
  induction rs as [ | r rs IH]; intros s ds s'; cbn [body_run];
    [discriminate | ].
  destruct (idle_gap_seen s r) eqn:G; [discriminate | ].
  destruct (processClockCycle s r) as [[s1 tr] | ] eqn:P; [ | discriminate].
  destruct (bTransmissionEnd s1) eqn:B.
  - destruct rs; [ | discriminate].
    intros E. injection E as <- <-. eapply fb_end; eassumption.
  - destruct (body_run s1 rs) as [[ds1 s2] | ] eqn:E1; [ | discriminate].
    intros E. injection E as <- <-.
    eapply fb_step; try eassumption. apply IH, E1.
Qed.

Lemma past_frame_start_b_sound (s : PC1550) :
  past_frame_start_b s = true -> past_frame_start s.
Proof.
  unfold past_frame_start_b, past_frame_start.
  rewrite orb_true_iff, negb_true_iff, Z.leb_le. tauto.
Qed.

Lemma frame_run_sound (rs : list readings) :
  forall s ds s', frame_run s rs = Some (ds, s') -> frame s rs ds s'.
Proof.
  induction rs as [ | r rs IH]; intros s ds s'; cbn [frame_run];
    [discriminate | ].
  destruct (processClockCycle s r) as [[s1 tr] | ] eqn:P; [ | discriminate].
  destruct (idle_gap_seen s r) eqn:G; cbn [orb].
  - intros E. eapply fr_gap; try eassumption. apply IH, E.
  - destruct (negb (clock_rose s r) || past_frame_start_b s) eqn:W.
    + intros E. eapply fr_wait; try eassumption; [ | apply IH, E].
      intros R. rewrite R in W. cbn [negb orb] in W.
      apply past_frame_start_b_sound, W.
    + destruct (synchronized s) eqn:Es; cbn [andb]; [ | discriminate].
      destruct (Z.eqb_spec (controller_bits_read s) 0) as [Ec | Ec];
        [ | discriminate].
      intros E. apply fr_body; [exact Es | exact Ec | ].
      apply body_run_sound, E.
Qed.

Lemma frames_run_sound (rss : list (list readings)) :
  forall s dss s', frames_run s rss = Some (dss, s') -> frames s dss s'.
Proof.
  induction rss as [ | rs rss IH]; intros s dss s'; cbn [frames_run].
  - intros E. injection E as <- <-. apply frames_nil.
  - destruct (frame_run s rs) as [[ds s1] | ] eqn:F; [ | discriminate].
    destruct (frames_run s1 rss) as [[dss1 s2] | ] eqn:Fs; [ | discriminate].
    intros E. injection E as <- <-.
    eapply frames_cons; [apply frame_run_sound, F | apply IH, Fs].
Qed.

Lemma key_held_for_n_frames_witness :
  exists s',
    frames key_requested
      [key_pattern 0x22; key_pattern 0x22; key_pattern 0x22; silent] s'
    /\ keyHoldCycles s' = 0
    /\ key_to_send s' = 0.
Proof.
  assert (R : exists s',
             frames_run key_requested four_cadence_frames
             = Some ([key_pattern 0x22; key_pattern 0x22; key_pattern 0x22;
                      silent], s'))
    by (eexists; vm_compute; reflexivity).
  destruct R as (s' & R). apply frames_run_sound in R.
  exists s'. split; [exact R | ].
  destruct (proj1 key_held_for_n_frames first_frame_done "5"%char 3
              key_requested
              [key_pattern 0x22; key_pattern 0x22; key_pattern 0x22; silent]
              s')
    as (_ & Eh & Ek & _).
  - vm_compute. reflexivity.
  - lia.
  - reflexivity.
  - exact R.
  - split; [exact Eh | exact Ek].
Defined.

(** * Further properties of the code *)

(** ** The PC16-OUT accessors *)

Lemma land_pow2 (x i : Z) :
  0 <= i -> Z.land x (2 ^ i) = if Z.testbit x i then 2 ^ i else 0.
Proof.
  intros Hi. apply Z.bits_inj'. intros n Hn.
  rewrite Z.land_spec, Z.pow2_bits_eqb by exact Hi.
  destruct (Z.eqb_spec i n) as [<- | N].
  - destruct (Z.testbit x i) eqn:B; rewrite ?B.
    + rewrite Z.pow2_bits_true by exact Hi. reflexivity.
    + rewrite Z.bits_0. reflexivity.
  - rewrite andb_false_r.
    destruct (Z.testbit x i).
    + rewrite Z.pow2_bits_false by congruence. reflexivity.
    + rewrite Z.bits_0. reflexivity.
Qed.

Lemma pc16out_single_bit (i : Z) (s : PC1550) :
  0 <= i ->
  pc16out_bits (2 ^ i) s = Z.testbit (available_pc16out_data s) i.
Proof.
  intros Hi. unfold pc16out_bits. rewrite land_pow2 by exact Hi.
  destruct (Z.testbit (available_pc16out_data s) i); [ | reflexivity].
  apply Z.ltb_lt. apply Z.pow_pos_nonneg; lia.
Qed.

Lemma pc16out_two_masks (a b : Z) (s : PC1550) :
  0 <= a -> 0 <= b ->
  pc16out_bits (Z.lor a b) s = pc16out_bits a s || pc16out_bits b s.
Proof.
  intros Ha Hb. unfold pc16out_bits.
  rewrite Z.land_lor_distr_r.
  set (u := Z.land (available_pc16out_data s) a).
  set (v := Z.land (available_pc16out_data s) b).
  assert (Hu : 0 <= u) by (apply Z.land_nonneg; right; exact Ha).
  assert (Hv : 0 <= v) by (apply Z.land_nonneg; right; exact Hb).
  assert (Huv : 0 <= Z.lor u v) by (apply Z.lor_nonneg; split; assumption).
  pose proof (Z.lor_eq_0_iff u v) as E.
  destruct (Z.ltb_spec 0 (Z.lor u v)); destruct (Z.ltb_spec 0 u);
    destruct (Z.ltb_spec 0 v); try reflexivity; exfalso.
  - assert (u = 0 /\ v = 0) as Z0 by lia. apply E in Z0. lia.
  - assert (Z.lor u v = 0) as Z0 by lia. apply E in Z0. lia.
  - assert (Z.lor u v = 0) as Z0 by lia. apply E in Z0. lia.
  - assert (Z.lor u v = 0) as Z0 by lia. apply E in Z0. lia.
Qed.

(** X1. Every PC16-OUT accessor with a one-bit mask returns that bit of
    the auxiliary snapshot (PGM output bit 0, fire, aux and panic buttons
    bits 1..3, armed with bypass bit 6, trouble bit 7, fire alarm bit 8,
    zones 6..1 tripped bits 10..15); systemArmed is true when bit 4 or bit
    5 is set; AlarmTripped is true exactly when one of the six zone
    accessors is. *)
Theorem pc16out_accessors (s : PC1550) :
  let w := available_pc16out_data s in
  PGMOutput s = Z.testbit w 0
  /\ fireButtonTripped s = Z.testbit w 1
  /\ auxButtonTripped s = Z.testbit w 2
  /\ panicButtonTripped s = Z.testbit w 3
  /\ systemArmed s = Z.testbit w 4 || Z.testbit w 5
  /\ armedWithByPass s = Z.testbit w 6
  /\ systemTrouble s = Z.testbit w 7
  /\ fireAlarmTripped s = Z.testbit w 8
  /\ Zone6Tripped s = Z.testbit w 10
  /\ Zone5Tripped s = Z.testbit w 11
  /\ Zone4Tripped s = Z.testbit w 12
  /\ Zone3Tripped s = Z.testbit w 13
  /\ Zone2Tripped s = Z.testbit w 14
  /\ Zone1Tripped s = Z.testbit w 15
  /\ AlarmTripped s
     = Zone1Tripped s || Zone2Tripped s || Zone3Tripped s
       || Zone4Tripped s || Zone5Tripped s || Zone6Tripped s.
Proof.
  intros w. subst w.
  repeat match goal with
  | |- _ /\ _ => split
  end.
  - apply (pc16out_single_bit 0); lia.
  - apply (pc16out_single_bit 1); lia.
  - apply (pc16out_single_bit 2); lia.
  - apply (pc16out_single_bit 3); lia.
  - unfold systemArmed. change 0x0030 with (Z.lor (2 ^ 4) (2 ^ 5)).
    rewrite pc16out_two_masks by lia.
    rewrite !pc16out_single_bit by lia. reflexivity.
  - apply (pc16out_single_bit 6); lia.
  - apply (pc16out_single_bit 7); lia.
  - apply (pc16out_single_bit 8); lia.
  - apply (pc16out_single_bit 10); lia.
  - apply (pc16out_single_bit 11); lia.
  - apply (pc16out_single_bit 12); lia.
  - apply (pc16out_single_bit 13); lia.
  - apply (pc16out_single_bit 14); lia.
  - apply (pc16out_single_bit 15); lia.
  - unfold AlarmTripped, Zone1Tripped, Zone2Tripped, Zone3Tripped,
      Zone4Tripped, Zone5Tripped, Zone6Tripped.
    change 0xFC00 with
      (Z.lor (Z.lor (Z.lor (Z.lor (Z.lor 0x8000 0x4000) 0x2000) 0x1000)
                0x0800) 0x0400).
    rewrite !pc16out_two_masks by (cbv; discriminate).
    reflexivity.
Qed.

(** ** Press, hold and change of key *)

(** X2. On the poll that completes a frame whose keypad bits are not all
    zero: when the snapshot of the frame before is 0, the key is reported
    as pressed and the count of consecutive presses is 1; when the snapshot
    is the same code, nothing is reported and the count goes up by one,
    modulo 256; when the snapshot is another code, the new key is reported
    as pressed, the old one as released, and the count is 1. *)
Theorem key_press_events (s : PC1550) (r : readings) :
  synchronized s = true ->
  controller_bits_read s = 15 ->
  clock_rose s r = true ->
  keypad_data s <> 0 ->
  exists s' tr,
    processClockCycle s r = Done (s', tr)
    /\ available_keypad_data s' = keypad_data s
    /\ (available_keypad_data s = 0 ->
        keyPressed s' = getKeyChar (keypad_data s)
        /\ keyReleased s' = Ascii.zero
        /\ consecutiveKeyPresses s' = 1)
    /\ (available_keypad_data s = keypad_data s ->
        keyPressed s' = Ascii.zero
        /\ keyReleased s' = Ascii.zero
        /\ consecutiveKeyPresses s' = uint8 (consecutiveKeyPresses s + 1))
    /\ (available_keypad_data s <> 0 ->
        available_keypad_data s <> keypad_data s ->
        keyPressed s' = getKeyChar (keypad_data s)
        /\ keyReleased s' = getKeyChar (available_keypad_data s)
        /\ consecutiveKeyPresses s' = 1).
Proof.
  intros Hs Hp Hr Hk.
  assert (D : poll_defined s r).
  { split; [intros _; lia | ].
    unfold samples_keypad, clock_fell, clock_rose in *.
    destruct (clock r); discriminate. }
  eexists. eexists. split; [apply poll_normal_form, D | ].
  unfold at_frame_test. rewrite Hr.
  assert (F : frame_received (after_bit (set_bTransmissionEnd false s) r)
              = true).
  { unfold frame_received, after_bit, slot. members.
    rewrite Hs, Hp. reflexivity. }
  rewrite end_of_frame_received by exact F.
  unfold keyPressed, keyReleased, consecutiveKeyPresses,
    frame_closed, after_bit.
  members.
  destruct (Z.eqb_spec (keypad_data s) 0) as [ | _]; [contradiction | ].
  cbn [negb andb].
  split; [reflexivity | ].
  split; [ | split].
  - intros E0. rewrite E0.
    destruct (Z.eqb_spec 0 (keypad_data s)) as [E | _]; [congruence | ].
    repeat split; reflexivity.
  - intros E. rewrite E, Z.eqb_refl. repeat split; reflexivity.
  - intros N0 N.
    destruct (Z.eqb_spec (available_keypad_data s) (keypad_data s));
      [contradiction | ].
    destruct (Z.eqb_spec (available_keypad_data s) 0); [contradiction | ].
    repeat split; reflexivity.
Qed.

Lemma key_press_events_witness :
  (exists s' tr,
      processClockCycle before_last_bit (bit_poll 49100 true false)
      = Done (s', tr)
      /\ keyPressed s' = "5"%char
      /\ consecutiveKeyPresses s' = 1)
  /\ (exists s' tr,
         processClockCycle before_hold (bit_poll 98200 true false)
         = Done (s', tr)
         /\ keyPressed s' = Ascii.zero
         /\ consecutiveKeyPresses s' = 2).
Proof.
  split.
  - destruct (key_press_events before_last_bit (bit_poll 49100 true false)
                eq_refl eq_refl eq_refl)
      as (s' & tr & P & _ & Hpress & _).
    + discriminate.
    + exists s', tr. split; [exact P | ].
      destruct (Hpress eq_refl) as (Ep & _ & Ec).
      rewrite Ep, Ec. split; reflexivity.
  - destruct (key_press_events before_hold (bit_poll 98200 true false)
                eq_refl eq_refl eq_refl)
      as (s' & tr & P & _ & _ & Hhold & _).
    + discriminate.
    + exists s', tr. split; [exact P | ].
      destruct (Hhold eq_refl) as (Ep & _ & Ec).
      rewrite Ep, Ec. split; reflexivity.
Defined.

(** ** The changed-state flag *)

Lemma bStateChanged_before_test (s : PC1550) (r : readings) :
  bStateChanged (at_frame_test s r) = bStateChanged s
  /\ available_controller_data (at_frame_test s r)
     = available_controller_data s.
Proof.
  unfold at_frame_test, gap_handled.
  destruct (clock_rose s r); [split; reflexivity | ].
  destruct (samples_keypad s r); destruct (idle_gap_seen s r);
    split; reflexivity.
Qed.

(** X3. After a poll that completes a frame, keypadStateChanged tells
    whether the new status snapshot differs from the one before; any other
    poll leaves the flag and the status snapshot as they were. *)
Theorem state_changed_flag (s : PC1550) (r : readings) (s' : PC1550)
        (tr : list event) :
  processClockCycle s r = Done (s', tr) ->
  (bTransmissionEnd s' = true ->
   keypadStateChanged s'
   = negb (available_controller_data s =? available_controller_data s'))
  /\
  (bTransmissionEnd s' = false ->
   keypadStateChanged s' = keypadStateChanged s
   /\ available_controller_data s' = available_controller_data s).
Proof.
  intros P. apply poll_done_inv in P. destruct P as (_ & -> & _).
  destruct (bStateChanged_before_test s r) as [Eb Ea].
  unfold keypadStateChanged. members.
  destruct (frame_received (at_frame_test s r)) eqn:F.
  - rewrite end_of_frame_received by exact F.
    unfold frame_closed. members. rewrite Ea.
    split; [reflexivity | discriminate].
  - rewrite end_of_frame_not_received by exact F.
    split; [ | intros _; split; assumption].
    intros B. exfalso.
    unfold at_frame_test, gap_handled in B.
    destruct (clock_rose s r); [discriminate | ].
    destruct (samples_keypad s r); destruct (idle_gap_seen s r);
      discriminate.
Qed.

Lemma state_changed_flag_witness :
  exists s' tr,
    processClockCycle before_last_bit (bit_poll 49100 true false)
    = Done (s', tr)
    /\ keypadStateChanged s' = true.
Proof.
  assert (P : exists s' tr,
             processClockCycle before_last_bit (bit_poll 49100 true false)
             = Done (s', tr))
    by (eexists; eexists; vm_compute; reflexivity).
  destruct P as (s' & tr & P). exists s', tr. split; [exact P | ].
  destruct (state_changed_flag _ _ _ _ P) as [Hend _].
  pose proof P as Q. vm_compute in Q. injection Q as <- _.
  rewrite Hend by reflexivity. reflexivity.
Defined.

(** ** The idle-gap timer across the wrap of micros() *)

(** X4. The idle time is the difference of two 32-bit readings of the
    timer: when [d] microseconds have passed since the last bit, the idle-
    gap test sees [d], also when the timer has wrapped in between. *)
Theorem idle_gap_across_timer_wrap (s : PC1550) (r : readings) (d : Z) :
  0 <= d < 4294967296 ->
  now r = uint32 (last_read s + d) ->
  time_since_last_read s r = d
  /\ (idle_gap_seen s r = true <-> clock r = false /\ 25000 < d < 28000).
Proof.
  intros Hd Hn.
  assert (E : time_since_last_read s r = d).
  { unfold time_since_last_read, uint32. rewrite Hn. unfold uint32.
    rewrite Zminus_mod_idemp_l.
    replace (last_read s + d - last_read s) with d by lia.
    apply Z.mod_small. exact Hd. }
  split; [exact E | ].
  rewrite idle_gap_seen_iff. unfold in_band. rewrite E. reflexivity.
Qed.

Lemma idle_gap_across_timer_wrap_witness :
  let s := PC1550_new 17 18 15 4294960000 in
  now (idle_poll 19204) < last_read s
  /\ idle_gap_seen s (idle_poll 19204) = true.
Proof.
  intros s. split; [reflexivity | ].
  apply (proj2 (idle_gap_across_timer_wrap s (idle_poll 19204) 26500
                  ltac:(lia) eq_refl)).
  split; [reflexivity | lia].
Defined.

(** ** The blocking wrapper *)

Lemma processTransmissionCycle_returns (rs : list readings) :
  forall s s' rest,
    processTransmissionCycle s rs = Done (Some (s', rest)) ->
    exists used,
      used <> []
      /\ rs = used ++ rest
      /\ polls s used = Done s'
      /\ atTransmissionEnd s' = true
      /\ (forall u1 u2,
             used = u1 ++ u2 -> u2 <> [] ->
             exists s1, polls s u1 = Done s1
                        /\ (u1 <> [] -> atTransmissionEnd s1 = false)).
Proof.
  induction rs as [ | r rs IH]; intros s s' rest; cbn [processTransmissionCycle];
    [discriminate | ].
  destruct (processClockCycle s r) as [[s1 tr] | ] eqn:P; cbn [bind fst];
    [ | discriminate].
  destruct (atTransmissionEnd s1) eqn:A.
  - intros E. injection E as <- <-. exists [r].
    split; [discriminate | ]. split; [reflexivity | ].
    split; [cbn [polls]; rewrite P; reflexivity | ].
    split; [exact A | ].
    intros u1 u2 E N. destruct u1 as [ | a u1].
    + exists s. split; [reflexivity | congruence].
    + exfalso. injection E as _ E.
      destruct u1; destruct u2; try discriminate. congruence.
  - intros E. destruct (IH s1 s' rest E) as (used & Hne & Hrs & Hp & Ha & Hfirst).
    exists (r :: used).
    split; [discriminate | ]. split; [rewrite Hrs; reflexivity | ].
    split; [cbn [polls]; rewrite P; exact Hp | ].
    split; [exact Ha | ].
    intros u1 u2 E2 N. destruct u1 as [ | a u1].
    + exists s. split; [reflexivity | congruence].
    + injection E2 as <- E2.
      destruct (Hfirst u1 u2 E2 N) as (s2 & Hp2 & Ha2).
      exists s2. split; [cbn [polls]; rewrite P; exact Hp2 | ].
      intros _. destruct u1 as [ | b u1].
      * cbn [polls] in Hp2. injection Hp2 as <-. exact A.
      * apply Ha2. discriminate.
Qed.

(** The loop goes on for as long as the polls leave the flag down, and
    stops on the first poll that raises it. *)
Lemma processTransmissionCycle_stops (used : list readings) :
  forall s s' rest,
    used <> [] ->
    polls s used = Done s' ->
    atTransmissionEnd s' = true ->
    (forall u1 u2,
        used = u1 ++ u2 -> u2 <> [] ->
        exists s1, polls s u1 = Done s1
                   /\ (u1 <> [] -> atTransmissionEnd s1 = false)) ->
    processTransmissionCycle s (used ++ rest) = Done (Some (s', rest)).
Proof.
  induction used as [ | r used IH]; intros s s' rest Hne Hp Ha Hfirst;
    [congruence | ].
  cbn [app processTransmissionCycle]. cbn [polls] in Hp.
  destruct (processClockCycle s r) as [[s1 tr] | ] eqn:P; cbn [bind fst] in *;
    [ | discriminate].
  destruct used as [ | r2 used].
  - cbn [polls] in Hp. injection Hp as <-. rewrite Ha. reflexivity.
  - destruct (Hfirst [r] (r2 :: used) eq_refl ltac:(discriminate))
      as (s2 & Hp2 & Ha2).
    cbn [polls] in Hp2. rewrite P in Hp2. cbn [bind fst] in Hp2.
    injection Hp2 as <-. rewrite (Ha2 ltac:(discriminate)).
    apply IH; [discriminate | exact Hp | exact Ha | ].
    intros u1 u2 E N.
    destruct (Hfirst (r :: u1) u2 ltac:(rewrite E; reflexivity) N)
      as (s3 & Hp3 & Ha3).
    cbn [polls] in Hp3. rewrite P in Hp3. cbn [bind fst] in Hp3.
    exists s3. split; [exact Hp3 | ].
    intros _. apply Ha3. discriminate.
Qed.

Lemma processTransmissionCycle_body (s : PC1550) (rs : list readings)
      (ds : list bool) (s' : PC1550) (rest : list readings) :
  frame_body s rs ds s' ->
  processTransmissionCycle s (rs ++ rest) = Done (Some (s', rest))
  /\ atTransmissionEnd s' = true.
Proof.
  induction 1 as [s r s' tr G P B | s r s1 tr rs ds s' G P B _ IH];
    cbn [app processTransmissionCycle]; rewrite P; cbn [bind fst];
    unfold atTransmissionEnd in *;
    [rewrite B; split; reflexivity | rewrite B; exact IH].
Qed.

(** The poll that sees the idle gap does not complete a frame. *)
Lemma gap_poll_not_end (s : PC1550) (r : readings) (s1 : PC1550)
      (tr : list event) :
  idle_gap_seen s r = true ->
  processClockCycle s r = Done (s1, tr) ->
  bTransmissionEnd s1 = false.
Proof.
  intros G P.
  apply poll_done_inv in P. destruct P as (_ & -> & _).
  assert (C : clock r = false).
  { unfold idle_gap_seen in G. destruct (clock r); [discriminate | reflexivity]. }
  assert (R : clock_rose s r = false)
    by (unfold clock_rose; rewrite C; reflexivity).
  assert (E : gap_handled s r
              = resynchronize (s |> set_bTransmissionEnd false))
    by (unfold gap_handled; rewrite G; reflexivity).
  assert (K : samples_keypad s r = false)
    by (unfold samples_keypad; rewrite E; apply andb_false_r).
  unfold at_frame_test. rewrite R, K, E.
  rewrite end_of_frame_not_received by reflexivity. reflexivity.
Qed.

(** Called between frames, the loop runs through the polls before the
    frame and through its body. *)
Lemma processTransmissionCycle_frame (s : PC1550) (rs : list readings)
      (ds : list bool) (s' : PC1550) (rest : list readings) :
  frame s rs ds s' ->
  synchronized s = false \/ controller_bits_read s = 0 ->
  processTransmissionCycle s (rs ++ rest) = Done (Some (s', rest))
  /\ atTransmissionEnd s' = true.
Proof.
  induction 1 as
    [s r s1 tr rs ds s' G By P _ IH | s r s1 tr rs ds s' G P _ IH
    | s rs ds s' Es Ec B];
    intros Between.
  - assert (N : frame_received s = false).
    { unfold frame_received.
      destruct Between as [-> | ->]; [reflexivity | apply andb_false_r]. }
    cbn [app processTransmissionCycle]. rewrite P. cbn [bind fst].
    destruct (clock_rose s r) eqn:R.
    + assert (U : synchronized s = false).
      { destruct (By eq_refl) as [U | U]; [exact U | ].
        destruct Between as [U' | U']; [exact U' | lia]. }
      destruct (bit_poll_effect s r s1 tr R P)
        as (_ & _ & Eb & Esy & _).
      rewrite U in Eb, Esy. cbn [andb] in Eb, Esy.
      unfold atTransmissionEnd. rewrite Eb.
      apply IH. left. exact Esy.
    + destruct (quiet_poll_effect s r s1 tr R G P) as (_ & _ & _ & Q).
      destruct (Q N) as (Qb & Qs & Qc).
      unfold atTransmissionEnd. rewrite Qb.
      apply IH. destruct Between as [U | U]; [left | right]; congruence.
  - cbn [app processTransmissionCycle]. rewrite P. cbn [bind fst].
    unfold atTransmissionEnd. rewrite (gap_poll_not_end s r s1 tr G P).
    destruct (sync_poll_effect s r s1 tr G P) as (_ & Ec & _).
    apply IH. right. exact Ec.
  - apply processTransmissionCycle_body with (ds := ds). exact B.
Qed.

(** X5. processTransmissionCycle returns exactly after the first poll that
    sets bTransmissionEnd, with the object those polls leave, and polls at
    least once even when the flag is still up from the frame before.
    Called between frames (not synchronized, or synchronized with no bit
    counted yet) it runs through the polls that wait for the idle gap, the
    polls that see it and the body of the frame, and returns on the poll
    that completes that frame, leaving the later answers unused. *)
Theorem blocking_wrapper_returns_at_frame_end :
  (forall s rs s' rest,
      processTransmissionCycle s rs = Done (Some (s', rest))
      <->
      exists used,
        used <> []
        /\ rs = used ++ rest
        /\ polls s used = Done s'
        /\ atTransmissionEnd s' = true
        /\ (forall u1 u2,
               used = u1 ++ u2 -> u2 <> [] ->
               exists s1, polls s u1 = Done s1
                          /\ (u1 <> [] -> atTransmissionEnd s1 = false)))
  /\
  (forall s rs ds s' rest,
      synchronized s = false \/ controller_bits_read s = 0 ->
      frame s rs ds s' ->
      processTransmissionCycle s (rs ++ rest) = Done (Some (s', rest))
      /\ atTransmissionEnd s' = true).
Proof.
  split.
  - intros s rs s' rest. split.
    + apply processTransmissionCycle_returns.
    + intros (used & Hne & -> & Hp & Ha & Hfirst).
      apply processTransmissionCycle_stops; assumption.
  - intros s rs ds s' rest Between F.
    eapply processTransmissionCycle_frame; eassumption.
Qed.

Lemma blocking_wrapper_returns_at_frame_end_witness :
  atTransmissionEnd after_quiet_frame = true
  /\ idle_gap_seen after_quiet_frame (idle_poll 49850) = false
  /\ exists s',
       processTransmissionCycle after_quiet_frame
         (cadence_frame 1 49100 sample_bits key5_levels
          ++ [keypad_poll 98950 true])
       = Done (Some (s', [keypad_poll 98950 true]))
       /\ atTransmissionEnd s' = true.
Proof.
  split; [reflexivity | split; [reflexivity | ]].
  assert (R : exists ds s',
             frame_run after_quiet_frame
               (cadence_frame 1 49100 sample_bits key5_levels)
             = Some (ds, s'))
    by (eexists; eexists; vm_compute; reflexivity).
  destruct R as (ds & s' & R). apply frame_run_sound in R.
  exists s'.
  apply (proj2 blocking_wrapper_returns_at_frame_end after_quiet_frame
           (cadence_frame 1 49100 sample_bits key5_levels) ds s'
           [keypad_poll 98950 true]).
  - left. reflexivity.
  - exact R.
Defined.

(** ** One quiet frame between keys *)




(** ** Shift counts inside and outside a synchronized frame *)

Lemma reachable_polls (rs : list readings) :
  forall s s', reachable s -> polls s rs = Done s' -> reachable s'.
Proof.
  induction rs as [ | r rs IH]; intros s s' Rs; cbn [polls].
  - intros E. injection E as <-. exact Rs.
  - destruct (processClockCycle s r) as [[s1 tr] | ] eqn:P; cbn [bind fst];
      [ | discriminate].
    apply IH. eapply reach_poll; eassumption.
Qed.

(** X7. From the poll that sees the idle gap on, every poll of the frame
    has defined behaviour: until the poll that sets bTransmissionEnd, the
    frame position is at most 15 when a bit is counted and at most six
    keypad bits have been read when a keypad slot is sampled. *)
Theorem synchronized_frame_defined :
  (forall s r,
      idle_gap_seen s r = true ->
      exists s1 tr,
        processClockCycle s r = Done (s1, tr) /\ in_sync_frame s1)
  /\
  (forall s r,
      in_sync_frame s ->
      exists s1 tr,
        processClockCycle s r = Done (s1, tr)
        /\ (bTransmissionEnd s1 = true \/ in_sync_frame s1)).
Proof.
  assert (Gap : forall s r,
             idle_gap_seen s r = true ->
             exists s1 tr,
               processClockCycle s r = Done (s1, tr) /\ in_sync_frame s1).
  { intros s r G.
    assert (C : clock r = false).
    { unfold idle_gap_seen in G. destruct (clock r); [discriminate | reflexivity]. }
    assert (R : clock_rose s r = false)
      by (unfold clock_rose; rewrite C; reflexivity).
    assert (E : gap_handled s r
                = resynchronize (s |> set_bTransmissionEnd false))
      by (unfold gap_handled; rewrite G; reflexivity).
    assert (K : samples_keypad s r = false)
      by (unfold samples_keypad; rewrite E; apply andb_false_r).
    assert (D : poll_defined s r)
      by (split; [rewrite R | rewrite K]; discriminate).
    eexists. eexists. split; [apply poll_normal_form, D | ].
    unfold at_frame_test. rewrite R, K, E, C.
    rewrite end_of_frame_not_received by reflexivity.
    unfold in_sync_frame, resynchronize. members.
    split; [reflexivity | ]. split; [lia | ].
    split; [discriminate | reflexivity]. }
  split; [exact Gap | ].
  intros s r Inv.
  destruct (idle_gap_seen s r) eqn:G.
  { destruct (Gap s r G) as (s1 & tr & P & I1).
    exists s1, tr. split; [exact P | right; exact I1]. }
  destruct Inv as (Hs & Hp & Hl & Hk).
  assert (E : gap_handled s r = s |> set_bTransmissionEnd false)
    by (unfold gap_handled; rewrite G; reflexivity).
  assert (NR : frame_received (set_bTransmissionEnd false s) = false)
    by (apply (not_received_below_16 (set_bTransmissionEnd false s)); members; lia).
  destruct (edge_cases s r) as
    [(C & L & R & F) | [(C & L & R & F) | [(C & L & R & F) | (C & L & R & F)]]].
  - (* a bit is counted *)
    assert (K : samples_keypad s r = false)
      by (unfold samples_keypad; rewrite F; reflexivity).
    assert (D : poll_defined s r).
    { split; [intros _; exact Hp | rewrite K; discriminate]. }
    eexists. eexists. split; [apply poll_normal_form, D | ].
    unfold at_frame_test. rewrite R, C.
    destruct (frame_received (after_bit (set_bTransmissionEnd false s) r))
      eqn:FR.
    + left. rewrite end_of_frame_received by exact FR. reflexivity.
    + right. rewrite end_of_frame_not_received by exact FR.
      unfold frame_received, after_bit, slot in FR. members in FR.
      rewrite Hs in FR. cbn [andb] in FR.
      rewrite uint8_small in FR by lia. apply Z.eqb_neq in FR.
      unfold in_sync_frame, after_bit, slot. members.
      rewrite uint8_small by lia. rewrite L in Hk.
      split; [exact Hs | ]. split; [lia | ].
      split; [intros _; lia | ].
      intros H7. rewrite Hk by lia. lia.
  - (* the clock is still active *)
    assert (K : samples_keypad s r = false)
      by (unfold samples_keypad; rewrite F; reflexivity).
    assert (D : poll_defined s r)
      by (split; [rewrite R | rewrite K]; discriminate).
    eexists. eexists. split; [apply poll_normal_form, D | ].
    unfold at_frame_test. rewrite R, K, E, C.
    rewrite end_of_frame_not_received by exact NR.
    right. unfold in_sync_frame. members. rewrite L in Hk, Hl.
    split; [exact Hs | ]. split; [exact Hp | ].
    split; [intros _; apply Hl; reflexivity | exact Hk].
  - (* the clock is back idle: a keypad slot *)
    specialize (Hl L). rewrite L in Hk.
    destruct (in_keypad_window (set_bTransmissionEnd false s)) eqn:W.
    + assert (K : samples_keypad s r = true)
        by (unfold samples_keypad; rewrite F, E, W; reflexivity).
      assert (W7 : controller_bits_read s <= 7).
      { unfold in_keypad_window in W. members in W.
        apply andb_true_iff in W. destruct W as [_ W].
        apply Z.ltb_lt in W. lia. }
      assert (D : poll_defined s r).
      { split; [rewrite R; discriminate | ].
        intros _. rewrite E. members. rewrite Hk by exact W7. lia. }
      eexists. eexists. split; [apply poll_normal_form, D | ].
      unfold at_frame_test. rewrite R, K, E, C.
      rewrite end_of_frame_not_received by exact NR.
      right. unfold in_sync_frame, after_keypad_bit. members.
      split; [exact Hs | ]. split; [exact Hp | ].
      split; [discriminate | ].
      intros _. rewrite Hk by exact W7.
      replace (controller_bits_read s - 1 + 1) with (controller_bits_read s)
        by lia.
      apply uint8_small. lia.
    + assert (K : samples_keypad s r = false)
        by (unfold samples_keypad; rewrite F, E, W; reflexivity).
      assert (W8 : 8 <= controller_bits_read s).
      { unfold in_keypad_window in W. members in W.
        apply andb_false_iff in W. destruct W as [W | W].
        - apply Z.ltb_ge in W. lia.
        - apply Z.ltb_ge in W. exact W. }
      assert (D : poll_defined s r)
        by (split; [rewrite R | rewrite K]; discriminate).
      eexists. eexists. split; [apply poll_normal_form, D | ].
      unfold at_frame_test. rewrite R, K, E, C.
      rewrite end_of_frame_not_received by exact NR.
      right. unfold in_sync_frame. members.
      split; [exact Hs | ]. split; [exact Hp | ].
      split; [discriminate | intros; lia].
  - (* the clock is still idle *)
    assert (K : samples_keypad s r = false)
      by (unfold samples_keypad; rewrite F; reflexivity).
    assert (D : poll_defined s r)
      by (split; [rewrite R | rewrite K]; discriminate).
    eexists. eexists. split; [apply poll_normal_form, D | ].
    unfold at_frame_test. rewrite R, K, E, C.
    rewrite end_of_frame_not_received by exact NR.
    right. unfold in_sync_frame. members. rewrite L in Hk.
    split; [exact Hs | ]. split; [exact Hp | ].
    split; [discriminate | exact Hk].
Qed.

Lemma synchronized_frame_defined_witness :
  in_sync_frame after_second_bit
  /\ exists s1 tr,
       processClockCycle after_second_bit (keypad_poll 28850 false)
       = Done (s1, tr)
       /\ in_sync_frame s1.
Proof.
  assert (I : in_sync_frame after_second_bit).
  { unfold in_sync_frame, after_second_bit. members.
    split; [reflexivity | ]. split; [lia | ].
    split; [intros _; lia | intros _; reflexivity]. }
  split; [exact I | ].
  destruct (proj2 synchronized_frame_defined after_second_bit
              (keypad_poll 28850 false) I) as (s1 & tr & P & [B | I1]).
  - exfalso. vm_compute in P. injection P as <- _. discriminate.
  - exists s1, tr. split; assumption.
Defined.

Lemma after_missed_gap_reachable : reachable after_missed_gap.
Proof.
  apply (reachable_polls
           (panel_frame 0 sample_bits key5_levels
            ++ [idle_poll (49100 + 28000); bit_poll 77200 true false])
           (PC1550_new 17 18 15 0)).
  - apply reach_new.
  - vm_compute. reflexivity.
Qed.

(** X8. Outside a synchronized frame the counts can leave the range of the
    shifts: counting a bit at frame position 16 or more, and sampling a
    keypad slot when seven or more keypad bits have been read, have no
    defined behaviour. Neither count is reset unless the idle gap is seen. *)
Theorem undefined_when_counts_run_on :
  (forall s r,
      clock_rose s r = true ->
      16 <= controller_bits_read s ->
      processClockCycle s r = Undefined)
  /\
  (forall s r,
      clock_fell s r = true ->
      idle_gap_seen s r = false ->
      1 <= controller_bits_read s < 8 ->
      7 <= keypad_bits_read s ->
      processClockCycle s r = Undefined).
Proof.
  split.
  - intros s r R H. apply poll_undefined. intros [D _].
    specialize (D R). lia.
  - intros s r F G Hp Hk. apply poll_undefined. intros [_ D].
    assert (E : gap_handled s r = s |> set_bTransmissionEnd false)
      by (unfold gap_handled; rewrite G; reflexivity).
    assert (K : samples_keypad s r = true).
    { unfold samples_keypad, in_keypad_window. rewrite F, E. members.
      destruct (Z.ltb_spec 0 (controller_bits_read s));
        destruct (Z.ltb_spec (controller_bits_read s) 8);
        try reflexivity; lia. }
    specialize (D K). rewrite E in D. members in D. lia.
Qed.

Lemma undefined_when_counts_run_on_witness :
  reachable after_missed_gap
  /\ processClockCycle after_missed_gap (keypad_poll 77950 true) = Undefined.
Proof.
  split; [exact after_missed_gap_reachable | ].
  apply (proj2 undefined_when_counts_run_on).
  - reflexivity.
  - reflexivity.
  - unfold after_missed_gap. members. lia.
  - unfold after_missed_gap. members. lia.
Defined.

(** ** What a frame decodes to *)

Lemma uint16_lor (a b : Z) : uint16 (Z.lor a b) = Z.lor (uint16 a) (uint16 b).
Proof.
  unfold uint16. change 65536 with (2 ^ 16).
  rewrite <- !Z.land_ones by lia. apply Z.land_lor_distr_l.
Qed.

Lemma uint8_lor (a b : Z) : uint8 (Z.lor a b) = Z.lor (uint8 a) (uint8 b).
Proof.
  unfold uint8. change 256 with (2 ^ 8).
  rewrite <- !Z.land_ones by lia. apply Z.land_lor_distr_l.
Qed.

Lemma uint16_idem (x : Z) : uint16 (uint16 x) = uint16 x.
Proof. unfold uint16. apply Z.mod_mod. lia. Qed.

Lemma uint8_idem (x : Z) : uint8 (uint8 x) = uint8 x.
Proof. unfold uint8. apply Z.mod_mod. lia. Qed.

Lemma bit_at_range (b : bool) (n : Z) :
  0 <= n -> 0 <= Z.shiftl (Z.b2z b) n <= 2 ^ n.
Proof.
  intros Hn. rewrite Z.shiftl_mul_pow2 by exact Hn.
  pose proof (Z.pow_pos_nonneg 2 n ltac:(lia) Hn).
  destruct b; cbn [Z.b2z]; lia.
Qed.

Lemma uint16_bit (b : bool) (n : Z) :
  0 <= n <= 15 -> uint16 (Z.shiftl (Z.b2z b) n) = Z.shiftl (Z.b2z b) n.
Proof.
  intros Hn. apply uint16_small.
  pose proof (bit_at_range b n ltac:(lia)).
  assert (2 ^ n < 2 ^ 16) by (apply Z.pow_lt_mono_r; lia).
  change (2 ^ 16) with 65536 in *. lia.
Qed.

Lemma uint8_bit (b : bool) (n : Z) :
  0 <= n <= 7 -> uint8 (Z.shiftl (Z.b2z b) n) = Z.shiftl (Z.b2z b) n.
Proof.
  intros Hn. apply uint8_small.
  pose proof (bit_at_range b n ltac:(lia)).
  assert (2 ^ n < 2 ^ 8) by (apply Z.pow_lt_mono_r; lia).
  change (2 ^ 8) with 256 in *. lia.
Qed.

(** One poll of a frame under way, seen from the accumulators. *)
Lemma decoding_step (s : PC1550) (r : readings) (s1 : PC1550) (tr : list event) :
  decoding s ->
  idle_gap_seen s r = false ->
  processClockCycle s r = Done (s1, tr) ->
  last_clock s1 = clock r
  /\ (clock_rose s r = true ->
      controller_data s1
      = Z.lor (controller_data s)
          (Z.shiftl (Z.b2z (data r)) (15 - controller_bits_read s))
      /\ pc16out_data s1
         = Z.lor (pc16out_data s)
             (Z.shiftl (Z.b2z (pgmData r)) (15 - controller_bits_read s))
      /\ keypad_data s1 = keypad_data s
      /\ keypad_bits_read s1 = keypad_bits_read s
      /\ ((controller_bits_read s = 15
           /\ bTransmissionEnd s1 = true
           /\ available_controller_data s1 = controller_data s1
           /\ available_pc16out_data s1 = pc16out_data s1
           /\ available_keypad_data s1 = keypad_data s1)
          \/ (controller_bits_read s < 15
              /\ bTransmissionEnd s1 = false
              /\ synchronized s1 = true
              /\ controller_bits_read s1 = controller_bits_read s + 1)))
  /\ (clock_rose s r = false ->
      bTransmissionEnd s1 = false
      /\ synchronized s1 = true
      /\ controller_bits_read s1 = controller_bits_read s
      /\ controller_data s1 = controller_data s
      /\ pc16out_data s1 = pc16out_data s
      /\ (clock_fell s r = true /\ controller_bits_read s <= 7 ->
          keypad_data s1
          = Z.lor (keypad_data s)
              (Z.shiftl (Z.b2z (keypad_bit r)) (6 - keypad_bits_read s))
          /\ keypad_bits_read s1 = keypad_bits_read s + 1)
      /\ (~ (clock_fell s r = true /\ controller_bits_read s <= 7) ->
          keypad_data s1 = keypad_data s
          /\ keypad_bits_read s1 = keypad_bits_read s)).
Proof.
  intros (Hs & Hp & Hl & Hk & Rc & Rp & Rk) G P.
  apply poll_done_inv in P. destruct P as (_ & -> & _).
  assert (E : gap_handled s r = s |> set_bTransmissionEnd false)
    by (unfold gap_handled; rewrite G; reflexivity).
  assert (NR : frame_received (set_bTransmissionEnd false s) = false)
    by (apply (not_received_below_16 (set_bTransmissionEnd false s));
        members; lia).
  split; [reflexivity | ].
  unfold at_frame_test.
  split.
  - intros R. rewrite R.
    assert (Ecd : controller_data (after_bit (set_bTransmissionEnd false s) r)
                  = Z.lor (controller_data s)
                      (Z.shiftl (Z.b2z (data r))
                         (15 - controller_bits_read s))).
    { unfold after_bit. members.
      rewrite uint16_lor, uint16_idem, Rc, uint16_bit by lia. reflexivity. }
    assert (Epd : pc16out_data (after_bit (set_bTransmissionEnd false s) r)
                  = Z.lor (pc16out_data s)
                      (Z.shiftl (Z.b2z (pgmData r))
                         (15 - controller_bits_read s))).
    { unfold after_bit. members.
      rewrite uint16_lor, uint16_idem, Rp, uint16_bit by lia. reflexivity. }
    destruct (frame_received (after_bit (set_bTransmissionEnd false s) r))
      eqn:FR.
    + rewrite end_of_frame_received by exact FR.
      apply frame_received_iff in FR. destruct FR as [_ FR].
      unfold after_bit, slot in FR. members in FR.
      rewrite uint8_small in FR by lia.
      unfold frame_closed. members. rewrite Ecd, Epd.
      split; [reflexivity | ]. split; [reflexivity | ].
      split; [reflexivity | ]. split; [reflexivity | ].
      left. split; [lia | ]. repeat split; reflexivity.
    + rewrite end_of_frame_not_received by exact FR.
      unfold frame_received, after_bit, slot in FR. members in FR.
      rewrite Hs in FR. cbn [andb] in FR.
      rewrite uint8_small in FR by lia. apply Z.eqb_neq in FR.
      members. rewrite Ecd, Epd.
      split; [reflexivity | ]. split; [reflexivity | ].
      split; [reflexivity | ]. split; [reflexivity | ].
      right. split; [lia | ]. split; [reflexivity | ].
      split; [exact Hs | ].
      unfold after_bit, slot. members. apply uint8_small. lia.
  - intros R. rewrite R.
    destruct (samples_keypad s r) eqn:K.
    + rewrite E. rewrite end_of_frame_not_received by exact NR.
      unfold samples_keypad in K. rewrite E in K.
      apply andb_true_iff in K. destruct K as [F W].
      unfold in_keypad_window in W. members in W.
      apply andb_true_iff in W. destruct W as [W1 W8].
      apply Z.ltb_lt in W1. apply Z.ltb_lt in W8.
      assert (L : last_clock s = true).
      { unfold clock_fell in F. destruct (clock r), (last_clock s);
          try discriminate; reflexivity. }
      rewrite L in Hk. rewrite Z.min_l in Hk by lia.
      unfold after_keypad_bit. members.
      repeat (split; [reflexivity || exact Hs | ]).
      split.
      * intros _. split.
        -- rewrite uint8_lor, Rk, uint8_bit by lia. reflexivity.
        -- apply uint8_small. lia.
      * intros N. exfalso. apply N. split; [exact F | lia].
    + rewrite E. rewrite end_of_frame_not_received by exact NR.
      members.
      repeat (split; [reflexivity || exact Hs | ]).
      split.
      * intros [F W7]. exfalso.
        unfold samples_keypad in K. rewrite E, F in K. cbn [andb] in K.
        unfold in_keypad_window in K. members in K.
        assert (L : last_clock s = true).
        { unfold clock_fell in F. destruct (clock r), (last_clock s);
            try discriminate; reflexivity. }
        specialize (Hl L).
        destruct (Z.ltb_spec 0 (controller_bits_read s));
          destruct (Z.ltb_spec (controller_bits_read s) 8);
          try discriminate; lia.
      * intros _. split; reflexivity.
Qed.

Lemma clock_rose_alt (s : PC1550) (r : readings) :
  clock_rose s r = clock r && negb (last_clock s).
Proof. unfold clock_rose. destruct (clock r), (last_clock s); reflexivity. Qed.

Lemma clock_fell_alt (s : PC1550) (r : readings) :
  clock_fell s r = negb (clock r) && last_clock s.
Proof. unfold clock_fell. destruct (clock r), (last_clock s); reflexivity. Qed.

(** The rest of a frame from position [p]: the snapshots are the
    accumulators with the remaining bits ORed in, most significant
    first. *)
Lemma frame_body_decodes (s : PC1550) (rs : list readings) (ds : list bool)
      (s' : PC1550) :
  frame_body s rs ds s' ->
  decoding s ->
  let bits := bit_polls (last_clock s) rs in
  let slots :=
    firstn (Z.to_nat (7 - keypad_bits_read s)) (slot_polls (last_clock s) rs) in
  List.length bits = Z.to_nat (16 - controller_bits_read s)
  /\ available_controller_data s'
     = Z.lor (controller_data s)
         (msb_first (15 - controller_bits_read s) (map data bits))
  /\ available_pc16out_data s'
     = Z.lor (pc16out_data s)
         (msb_first (15 - controller_bits_read s) (map pgmData bits))
  /\ available_keypad_data s'
     = Z.lor (keypad_data s)
         (msb_first (6 - keypad_bits_read s) (map keypad_bit slots)).
Proof.
  induction 1 as [s r s' tr G P B | s r s1 tr rs ds s' G P B _ IH];
    intros Dec; pose proof Dec as (Hs & Hp & Hl & Hk & Rc & Rp & Rk);
    destruct (decoding_step s r _ tr Dec G P) as (Elc & Hrose & Hquiet);
    cbn [bit_polls slot_polls];
    rewrite <- clock_rose_alt, <- clock_fell_alt;
    destruct (clock_rose s r) eqn:R.
  - (* the last bit *)
    destruct (Hrose eq_refl) as (Ecd & Epd & Ekd & Ekb & [Last | Mid]);
      [ | destruct Mid as (_ & B' & _); congruence].
    destruct Last as (E15 & _ & A1 & A2 & A3).
    assert (F : clock_fell s r = false).
    { rewrite clock_rose_alt in R. rewrite clock_fell_alt.
      destruct (clock r), (last_clock s); try discriminate; reflexivity. }
    rewrite F. cbn [app map msb_first List.length].
    rewrite firstn_nil. cbn [map msb_first].
    rewrite A1, A2, A3, Ecd, Epd, Ekd, E15, !Z.lor_0_r.
    repeat split; reflexivity.
  - destruct (Hquiet eq_refl) as (B' & _). congruence.
  - (* a bit before the last *)
    destruct (Hrose eq_refl) as (Ecd & Epd & Ekd & Ekb & [Last | Mid]);
      [destruct Last as (_ & B' & _); congruence | ].
    destruct Mid as (Hlt & _ & Hs1 & Hp1).
    assert (L : last_clock s = false /\ clock r = true).
    { rewrite clock_rose_alt in R.
      destruct (clock r), (last_clock s); try discriminate; split; reflexivity. }
    destruct L as [L C].
    assert (F : clock_fell s r = false)
      by (rewrite clock_fell_alt, C; reflexivity).
    rewrite L in Hk.
    assert (Dec1 : decoding s1).
    { unfold decoding. rewrite Elc, C, Hp1, Ekb, Ekd, Ecd, Epd.
      split; [exact Hs1 | ]. split; [lia | ]. split; [intros _; lia | ].
      split; [rewrite Hk; f_equal; lia | ].
      rewrite !uint16_lor. rewrite Rc, Rp. rewrite !uint16_bit by lia.
      split; [reflexivity | ]. split; [reflexivity | exact Rk]. }
    destruct (IH Dec1) as (Ilen & Icd & Ipd & Ikd).
    rewrite Elc in Ilen, Icd, Ipd, Ikd.
    rewrite Hp1 in Ilen, Icd, Ipd. rewrite Ekb, Ekd in Ikd.
    rewrite F. cbn [app map msb_first List.length].
    replace (15 - controller_bits_read s - 1)
      with (15 - (controller_bits_read s + 1)) by lia.
    rewrite Icd, Ipd, Ikd, Ilen, Ecd, Epd, !Z.lor_assoc.
    split; [lia | ]. repeat split; reflexivity.
  - (* a poll that counts no bit *)
    destruct (Hquiet eq_refl) as (_ & Hs1 & Hp1 & Ecd & Epd & Hslot & Hnone).
    cbn [app].
    destruct (clock_fell s r) eqn:F.
    + assert (L : last_clock s = true /\ clock r = false).
      { rewrite clock_fell_alt in F.
        destruct (clock r), (last_clock s); try discriminate; split; reflexivity. }
      destruct L as [L C]. specialize (Hl L). rewrite L in Hk.
      destruct (Z_le_dec (controller_bits_read s) 7) as [W | W].
      * (* a keypad slot *)
        destruct (Hslot (conj eq_refl W)) as [Ekd Ekb].
        rewrite Z.min_l in Hk by lia.
        assert (Dec1 : decoding s1).
        { unfold decoding. rewrite Elc, C, Hp1, Ekb, Ekd, Ecd, Epd.
          split; [exact Hs1 | ]. split; [exact Hp | ].
          split; [discriminate | ].
          split; [rewrite Hk, Z.min_l by lia; lia | ].
          split; [exact Rc | ]. split; [exact Rp | ].
          rewrite uint8_lor, Rk, uint8_bit by lia. reflexivity. }
        destruct (IH Dec1) as (Ilen & Icd & Ipd & Ikd).
        rewrite Elc, C in Ilen, Icd, Ipd, Ikd.
        rewrite Hp1, ?Ecd, ?Epd in Ilen, Icd, Ipd. rewrite Ekb, Ekd in Ikd.
        replace (Z.to_nat (7 - keypad_bits_read s))
          with (S (Z.to_nat (7 - (keypad_bits_read s + 1)))) by lia.
        cbn [app firstn map msb_first].
        replace (6 - keypad_bits_read s - 1)
          with (6 - (keypad_bits_read s + 1)) by lia.
        rewrite C, Icd, Ipd, Ikd, Ilen, !Z.lor_assoc.
        rewrite ?Ecd, ?Epd. repeat split; reflexivity.
      * (* the clock goes idle after the eighth bit or later *)
        destruct Hnone as [Ekd Ekb]; [intros [_ W']; contradiction | ].
        rewrite Z.min_r in Hk by lia.
        assert (Dec1 : decoding s1).
        { unfold decoding. rewrite Elc, C, Hp1, Ekb, Ekd, Ecd, Epd.
          split; [exact Hs1 | ]. split; [exact Hp | ].
          split; [discriminate | ].
          split; [rewrite Hk, Z.min_r by lia; reflexivity | ].
          repeat split; assumption. }
        destruct (IH Dec1) as (Ilen & Icd & Ipd & Ikd).
        rewrite Elc, C in Ilen, Icd, Ipd, Ikd.
        rewrite Hp1, ?Ecd, ?Epd in Ilen, Icd, Ipd. rewrite Ekb, Ekd in Ikd.
        rewrite Hk in Ikd |- *. change (Z.to_nat (7 - 7)) with 0%nat in *.
        cbn [firstn map msb_first] in Ikd |- *.
        rewrite C, Icd, Ipd, Ikd, Ilen.
        rewrite ?Ecd, ?Epd. repeat split; reflexivity.
    + (* no edge *)
      destruct Hnone as [Ekd Ekb]; [intros [F' _]; discriminate | ].
      assert (C : clock r = last_clock s).
      { rewrite clock_rose_alt in R. rewrite clock_fell_alt in F.
        destruct (clock r), (last_clock s); try discriminate; reflexivity. }
      assert (Dec1 : decoding s1).
      { unfold decoding. rewrite Elc, C, Hp1, Ekb, Ekd, Ecd, Epd.
        split; [exact Hs1 | exact (proj2 Dec)]. }
      destruct (IH Dec1) as (Ilen & Icd & Ipd & Ikd).
      rewrite Elc in Ilen, Icd, Ipd, Ikd.
      rewrite Hp1, ?Ecd, ?Epd in Ilen, Icd, Ipd. rewrite Ekb, Ekd in Ikd.
      cbn [app].
      rewrite Icd, Ipd, Ikd, Ilen.
      rewrite ?Ecd, ?Epd, ?C. repeat split; reflexivity.
Qed.

(** The snapshots of a completed frame, from the poll that sees the idle
    gap. *)
Lemma frame_snapshots (s : PC1550) (r : readings) (s1 : PC1550)
        (tr : list event) (rs : list readings) (ds : list bool) (s' : PC1550) :
  idle_gap_seen s r = true ->
  processClockCycle s r = Done (s1, tr) ->
  frame_body s1 rs ds s' ->
  let bits := bit_polls false rs in
  let slots := firstn 7 (slot_polls false rs) in
  List.length bits = 16%nat
  /\ available_controller_data s' = msb_first 15 (map data bits)
  /\ available_pc16out_data s' = msb_first 15 (map pgmData bits)
  /\ available_keypad_data s' = msb_first 6 (map keypad_bit slots).
Proof.
  intros G P B.
  assert (C : clock r = false).
  { unfold idle_gap_seen in G. destruct (clock r); [discriminate | reflexivity]. }
  assert (R : clock_rose s r = false)
    by (unfold clock_rose; rewrite C; reflexivity).
  assert (E : gap_handled s r
              = resynchronize (s |> set_bTransmissionEnd false))
    by (unfold gap_handled; rewrite G; reflexivity).
  assert (K : samples_keypad s r = false)
    by (unfold samples_keypad; rewrite E; apply andb_false_r).
  apply poll_done_inv in P. destruct P as (_ & P & _).
  unfold at_frame_test in P. rewrite R, K, E, C in P.
  rewrite end_of_frame_not_received in P by reflexivity.
  assert (Dec : decoding s1).
  { rewrite P. unfold decoding, resynchronize. members.
    split; [reflexivity | ]. split; [lia | ]. split; [discriminate | ].
    repeat split; reflexivity. }
  pose proof (frame_body_decodes s1 rs ds s' B Dec) as H.
  rewrite P in H. unfold resynchronize in H. members in H.
  cbv zeta in H. destruct H as (Hlen & Hcd & Hpd & Hkd).
  rewrite Z.lor_0_l in Hcd, Hpd, Hkd.
  split; [exact Hlen | ]. split; [exact Hcd | ]. split; [exact Hpd | exact Hkd].
Qed.

(** X9. A completed synchronized frame decodes bit-exactly: it counts
    sixteen bits, the status snapshot is the sixteen levels of the data
    line read on the clock edges, the first at bit 15, the auxiliary
    snapshot the sixteen levels of the PGM line likewise, and the keypad
    snapshot the inverted levels read in the first seven keypad slots, the
    first at bit 6. What the object held before the idle gap does not
    matter. *)
Theorem frame_decodes (s : PC1550) (r : readings) (s1 : PC1550)
        (tr : list event) (rs : list readings) (ds : list bool) (s' : PC1550) :
  idle_gap_seen s r = true ->
  processClockCycle s r = Done (s1, tr) ->
  frame_body s1 rs ds s' ->
  let bits := bit_polls false rs in
  let slots := firstn 7 (slot_polls false rs) in
  List.length bits = 16%nat
  /\ available_controller_data s' = msb_first 15 (map data bits)
  /\ available_pc16out_data s' = msb_first 15 (map pgmData bits)
  /\ available_keypad_data s' = msb_first 6 (map keypad_bit slots).
Proof. exact (frame_snapshots s r s1 tr rs ds s'). Qed.

Lemma frame_decodes_witness :
  available_controller_data sample_frame_end = 0xA081
  /\ available_pc16out_data sample_frame_end = 0
  /\ available_keypad_data sample_frame_end = 0x22.
Proof.
  assert (P : exists s1 tr,
             processClockCycle (PC1550_new 17 18 15 0) (idle_poll 26500)
             = Done (s1, tr)
             /\ exists ds, frame_body s1 sample_body ds sample_frame_end).
  { eexists. eexists. split; [vm_compute; reflexivity | ].
    eexists. apply body_run_sound. vm_compute. reflexivity. }
  destruct P as (s1 & tr & P & ds & B).
  destruct (frame_decodes (PC1550_new 17 18 15 0) (idle_poll 26500) s1 tr
              sample_body ds sample_frame_end eq_refl P B)
    as (_ & Hcd & Hpd & Hkd).
  rewrite Hcd, Hpd, Hkd. repeat split; reflexivity.
Defined.

(** ** What every reachable object satisfies *)

Lemma uint32_range (x : Z) : 0 <= uint32 x < 4294967296.
Proof. unfold uint32. apply Z.mod_pos_bound. lia. Qed.

Lemma int16_range (x : Z) : -32768 <= int16 x < 32768.
Proof.
  unfold int16. pose proof (Z.mod_pos_bound (x + 32768) 65536 ltac:(lia)). lia.
Qed.

Lemma lor_below_128 (a b : Z) :
  0 <= a < 128 -> 0 <= b < 128 -> 0 <= Z.lor a b < 128.
Proof.
  intros Ha Hb.
  assert (E : Z.lor a b mod 2 ^ 7 = Z.lor a b).
  { rewrite <- Z.land_ones by lia. rewrite Z.land_lor_distr_l.
    rewrite !Z.land_ones by lia.
    change (2 ^ 7) with 128. rewrite !Z.mod_small by assumption. reflexivity. }
  rewrite <- E. change (2 ^ 7) with 128. apply Z.mod_pos_bound. lia.
Qed.

Lemma getKeyValue_code (c : ascii) :
  getKeyValue c = 0 \/ In (getKeyValue c) key_codes.
Proof.
  destruct c as [b0 b1 b2 b3 b4 b5 b6 b7].
  destruct b0, b1, b2, b3, b4, b5, b6, b7;
    first [left; reflexivity | right; unfold key_codes; cbn; tauto].
Qed.

Ltac in_range :=
  first
    [ assumption
    | apply uint8_range | apply uint16_range | apply uint32_range
    | apply int16_range
    | reflexivity
    | lia ].

Lemma members_in_range_new (dp cp pp t : Z) :
  members_in_range (PC1550_new dp cp pp t).
Proof.
  unfold members_in_range, is_uint16, PC1550_new. members.
  pose proof (uint32_range t).
  repeat split;
    first [in_range | left; reflexivity | intros; lia].
Qed.

Lemma members_in_range_gap (s : PC1550) (r : readings) :
  members_in_range s -> members_in_range (gap_handled s r).
Proof.
  unfold gap_handled, resynchronize, members_in_range, is_uint16.
  intros (H1 & H2 & H3 & H4 & H5 & H6 & H7 & H8 & H9 & H10 & H11 & H12
          & H13 & H14 & H15 & H16 & H17).
  destruct (idle_gap_seen s r); members;
    repeat split; try in_range.
Qed.

Lemma members_in_range_bit (s : PC1550) (r : readings) :
  0 <= controller_bits_read s <= 15 ->
  members_in_range s -> members_in_range (after_bit s r).
Proof.
  unfold members_in_range, is_uint16, after_bit.
  intros Hp (H1 & H2 & H3 & H4 & H5 & H6 & H7 & H8 & H9 & H10 & H11 & H12
             & H13 & H14 & H15 & H16 & H17).
  assert (Sl : slot s = controller_bits_read s + 1)
    by (unfold slot; apply uint8_small; lia).
  assert (Hh : 0 <= hold_after_bit s < 256
               /\ (0 < hold_after_bit s -> 0 < keyHoldCycles s)).
  { unfold hold_after_bit.
    destruct (sending s && (slot s =? 7) && (0 <? keyHoldCycles s)) eqn:E.
    - rewrite uint8_small by lia.
      apply andb_true_iff in E. destruct E as [_ E]. apply Z.ltb_lt in E. lia.
    - lia. }
  destruct Hh as [Hh1 Hh2].
  members. rewrite Sl.
  repeat match goal with |- _ /\ _ => split end; try in_range.
  - destruct (synchronized s && (controller_bits_read s + 1 =? 1));
      [destruct (negb (key_to_send s =? 0)) | ]; in_range.
  - destruct (synchronized s && (controller_bits_read s + 1 =? 1));
      [destruct (negb (key_to_send s =? 0)) | ];
      [lia | pose proof (uint8_range (cyclesWithoutKey s + 1)); lia | lia].
  - destruct (sending s && (controller_bits_read s + 1 =? 7)
              && (hold_after_bit s =? 0)); [left; reflexivity | exact H15].
  - intros Pos.
    destruct (Z.eqb_spec (hold_after_bit s) 0) as [E0 | _]; [lia | ].
    rewrite andb_false_r. apply H16, Hh2, Pos.
Qed.

Lemma members_in_range_keypad_bit (s : PC1550) (r : readings) :
  0 <= 6 - keypad_bits_read s < 16 ->
  members_in_range s -> members_in_range (after_keypad_bit s r).
Proof.
  unfold members_in_range, is_uint16, after_keypad_bit.
  intros Hv (H1 & H2 & H3 & H4 & H5 & H6 & H7 & H8 & H9 & H10 & H11 & H12
             & H13 & H14 & H15 & H16 & H17).
  assert (B : 0 <= Z.lor (keypad_data s)
                     (Z.shiftl (Z.b2z (negb (data_settled r)))
                        (6 - keypad_bits_read s)) < 128).
  { apply lor_below_128; [exact H7 | ].
    pose proof (bit_at_range (negb (data_settled r))
                  (6 - keypad_bits_read s) ltac:(lia)).
    assert (2 ^ (6 - keypad_bits_read s) <= 2 ^ 6)
      by (apply Z.pow_le_mono_r; lia).
    change (2 ^ 6) with 64 in *. lia. }
  assert (U : uint8 (Z.lor (keypad_data s)
                       (Z.shiftl (Z.b2z (negb (data_settled r)))
                          (6 - keypad_bits_read s)))
              = Z.lor (keypad_data s)
                  (Z.shiftl (Z.b2z (negb (data_settled r)))
                     (6 - keypad_bits_read s)))
    by (apply uint8_small; lia).
  members. rewrite U.
  repeat match goal with |- _ /\ _ => split end; try in_range.
Qed.

Lemma members_in_range_end (s : PC1550) :
  members_in_range s -> members_in_range (end_of_frame s).
Proof.
  intros M. destruct (frame_received s) eqn:F;
    [ | rewrite end_of_frame_not_received by exact F; exact M].
  rewrite end_of_frame_received by exact F.
  revert M. unfold members_in_range, is_uint16, frame_closed.
  intros (H1 & H2 & H3 & H4 & H5 & H6 & H7 & H8 & H9 & H10 & H11 & H12
          & H13 & H14 & H15 & H16 & H17).
  members.
  repeat match goal with |- _ /\ _ => split end; try in_range.
  - destruct (keypad_data s =? 0);
      [ | destruct (available_keypad_data s =? keypad_data s)]; in_range.
  - destruct (keypad_data s =? 0);
      [ | destruct (available_keypad_data s =? keypad_data s)]; in_range.
  - destruct (keypad_data s =? 0);
      [destruct (available_keypad_data s =? 0)
      | destruct (available_keypad_data s =? keypad_data s)];
      first [in_range | pose proof (uint8_range (iConsecutiveKeyPressCycles s + 1)); lia].
  - destruct (keypad_data s =? 0);
      [destruct (available_keypad_data s =? 0)
      | destruct (available_keypad_data s =? keypad_data s)];
      first [in_range | pose proof (uint8_range (iConsecutiveKeyPressCycles s + 1)); lia].
  - destruct (Z.testbit (controller_data s) 0);
      [pose proof (int16_range (iConsecutiveBeeps s + 1)); lia | lia].
  - destruct (Z.testbit (controller_data s) 0);
      [pose proof (int16_range (iConsecutiveBeeps s + 1)); lia | lia].
Qed.

Lemma members_in_range_flags (s : PC1550) (b c : bool) :
  members_in_range s ->
  members_in_range (s |> set_bTransmissionEnd b)
  /\ members_in_range (s |> set_last_clock c).
Proof. intros M. split; exact M. Qed.

Lemma members_in_range_send (s : PC1550) (c : ascii) (n : Z) :
  members_in_range s -> members_in_range (snd (sendKey s c n)).
Proof.
  intros M. unfold sendKey.
  destruct (negb (readyForKeyPress s)); [exact M | ].
  destruct (Z.eqb_spec (getKeyValue c) 0) as [E | E]; [exact M | ].
  revert M. unfold members_in_range, is_uint16.
  intros (H1 & H2 & H3 & H4 & H5 & H6 & H7 & H8 & H9 & H10 & H11 & H12
          & H13 & H14 & H15 & H16 & H17).
  members.
  repeat match goal with |- _ /\ _ => split end; try in_range.
  destruct (getKeyValue_code c) as [Z0 | I]; [contradiction | right; exact I].
Qed.

(** X10. Every object the interface can produce has its members within their
    types, the frame position in 0..16 and the keypad words within seven
    bits; its pending key code is 0 or one of the fifteen codes and is not
    0 while the hold count is positive; keypad_bits_sent is 0. *)
Theorem reachable_members_in_range (s : PC1550) :
  reachable s -> members_in_range s.
Proof.
  induction 1 as [dp cp pp t | s r s' tr _ IH P | s c n _ IH].
  - apply members_in_range_new.
  - apply poll_done_inv in P. destruct P as ((Drose & Dfell) & -> & _).
    refine (proj2 (members_in_range_flags _ false (clock r) _)).
    apply members_in_range_end.
    unfold at_frame_test.
    destruct (clock_rose s r).
    + apply members_in_range_bit; [exact (Drose eq_refl) | ].
      exact (proj1 (members_in_range_flags s false false IH)).
    + destruct (samples_keypad s r).
      * apply members_in_range_keypad_bit; [exact (Dfell eq_refl) | ].
        apply members_in_range_gap, IH.
      * apply members_in_range_gap, IH.
  - apply members_in_range_send, IH.
Qed.

Lemma reachable_members_in_range_witness :
  is_uint16 (available_controller_data after_missed_gap)
  /\ keypad_bits_read after_missed_gap = 7.
Proof.
  pose proof (reachable_members_in_range after_missed_gap
                after_missed_gap_reachable) as (_ & _ & H & _).
  split; [exact H | reflexivity].
Defined.

(** ** The key codes, decoded and encoded again *)

(** X11. Each of the fifteen codes decodes to a character that is not NUL
    and encodes back to the same code; the codes are non-zero and fit the
    seven keypad bits of a frame. *)
Theorem key_codes_round_trip (v : Z) :
  In v key_codes ->
  getKeyValue (getKeyChar v) = v
  /\ getKeyChar v <> Ascii.zero
  /\ 0 < v < 128.
Proof.
  unfold key_codes. cbn [In].
  intros H.
  repeat (destruct H as [<- | H];
          [split; [reflexivity | split; [discriminate | lia]] | ]).
  contradiction.
Qed.

Lemma key_codes_round_trip_witness :
  getKeyValue (getKeyChar 0x48) = 0x48 /\ getKeyChar 0x48 = "*"%char.
Proof.
  destruct (key_codes_round_trip 0x48) as (E & _ & _).
  - unfold key_codes. cbn [In]. tauto.
  - split; [exact E | reflexivity].
Defined.

(** ** A second request *)

(** X12. After an accepted request with a hold count of 1 or more, every
    further request is rejected and changes nothing. After an accepted
    request with a hold count of 0 the object is still ready, and a further
    request for a key symbol is accepted and replaces the pending code. *)
Theorem second_request (s : PC1550) (c : ascii) (n : Z) (s1 : PC1550) :
  sendKey s c n = (true, s1) ->
  0 <= n < 256 ->
  (0 < n -> forall c' n', sendKey s1 c' n' = (false, s1))
  /\
  (n = 0 ->
   readyForKeyPress s1 = true
   /\ forall c' n',
        In c' key_symbols ->
        sendKey s1 c' n'
        = (true, s1 |> set_key_to_send (getKeyValue c')
                    |> set_keyHoldCycles (uint8 n'))).
Proof.
  intros A Hn.
  assert (R : readyForKeyPress s = true).
  { unfold sendKey in A. destruct (readyForKeyPress s); [reflexivity | ].
    discriminate. }
  destruct (sendKey_accepted s c n s1 A) as (_ & _ & Eh).
  rewrite uint8_small in Eh by exact Hn.
  assert (Ec : cyclesWithoutKey s1 = cyclesWithoutKey s).
  { unfold sendKey in A. rewrite R in A. cbn [negb] in A.
    destruct (getKeyValue c =? 0); [discriminate | ].
    injection A as <-. reflexivity. }
  assert (Rc : (cyclesWithoutKey s <? 1) = false).
  { unfold readyForKeyPress in R.
    destruct (0 <? keyHoldCycles s); [discriminate | ].
    destruct (cyclesWithoutKey s <? 1); [discriminate | reflexivity]. }
  split.
  - intros Pos c' n'. unfold sendKey, readyForKeyPress. rewrite Eh.
    destruct (Z.ltb_spec 0 n); [reflexivity | lia].
  - intros ->.
    assert (R1 : readyForKeyPress s1 = true).
    { unfold readyForKeyPress. rewrite Eh, Ec, Rc. reflexivity. }
    split; [exact R1 | ].
    intros c' n' I. unfold sendKey. rewrite R1. cbn [negb].
    destruct (getKeyValue_symbol c' I) as [N _].
    destruct (Z.eqb_spec (getKeyValue c') 0); [contradiction | reflexivity].
Qed.

Lemma second_request_witness :
  sendKey key_requested "7"%char 1 = (false, key_requested)
  /\ fst (sendKey (snd (sendKey first_frame_done "5"%char 0)) "7"%char 1)
     = true.
Proof.
  split.
  - apply (proj1 (second_request first_frame_done "5"%char 3 key_requested
                    eq_refl ltac:(lia))).
    lia.
  - destruct (proj2 (second_request first_frame_done "5"%char 0
                       (snd (sendKey first_frame_done "5"%char 0))
                       eq_refl ltac:(lia)) eq_refl) as [_ H].
    rewrite (H "7"%char 1).
    + reflexivity.
    + unfold key_symbols. cbn [In]. tauto.
Defined.

(** ** The lights after a frame *)

Lemma testbit_bit_at (b : bool) (n j : Z) :
  0 <= n -> 0 <= j ->
  Z.testbit (Z.shiftl (Z.b2z b) n) j = if j =? n then b else false.
Proof.
  intros Hn Hj. rewrite Z.shiftl_spec by exact Hj.
  destruct (Z.eqb_spec j n) as [-> | N].
  - rewrite Z.sub_diag. apply Z.b2z_bit0.
  - destruct (Z_lt_dec j n).
    + apply Z.testbit_neg_r. lia.
    + destruct b; cbn [Z.b2z].
      * change 1 with (2 ^ 0). apply Z.pow2_bits_false. lia.
      * apply Z.bits_0.
Qed.

(** The packed word has no bit above the first one packed. *)
Lemma msb_first_high (bs : list bool) :
  forall n j,
    Z.of_nat (List.length bs) <= n + 1 ->
    n < j ->
    Z.testbit (msb_first n bs) j = false.
Proof.
  induction bs as [ | b bs IH]; intros n j Hn Hj; cbn [msb_first].
  - apply Z.bits_0.
  - cbn [List.length] in Hn.
    rewrite Z.lor_spec, testbit_bit_at by lia.
    destruct (Z.eqb_spec j n); [lia | ]. cbn [orb].
    apply IH; lia.
Qed.

(** Bit [n - i] of the packed word is the [i]-th bit packed. *)
Lemma msb_first_testbit (bs : list bool) :
  forall n i,
    (i < List.length bs)%nat ->
    Z.of_nat (List.length bs) <= n + 1 ->
    Z.testbit (msb_first n bs) (n - Z.of_nat i) = nth i bs false.
Proof.
  induction bs as [ | b bs IH]; intros n i Hi Hn; cbn [List.length] in *;
    [lia | ].
  cbn [msb_first]. rewrite Z.lor_spec.
  rewrite testbit_bit_at by lia.
  destruct i as [ | i]; cbn [nth].
  - rewrite Z.sub_0_r, Z.eqb_refl.
    rewrite msb_first_high by lia. apply orb_false_r.
  - destruct (Z.eqb_spec (n - Z.of_nat (S i)) n); [lia | ]. cbn [orb].
    replace (n - Z.of_nat (S i)) with (n - 1 - Z.of_nat i) by lia.
    apply IH; lia.
Qed.

(** X13. After a completed synchronized frame the lights show the levels
    read on the clock edges: Zone1Light..Zone6Light the first six,
    ReadyLight, ArmedLight, MemoryLight, BypassLight and TroubleLight the
    ninth to the thirteenth, Beep the sixteenth; of the PGM line,
    Zone1Tripped shows the first level and PGMOutput the sixteenth. *)
Theorem lights_show_received_bits (s : PC1550) (r : readings) (s1 : PC1550)
        (tr : list event) (rs : list readings) (ds : list bool) (s' : PC1550) :
  idle_gap_seen s r = true ->
  processClockCycle s r = Done (s1, tr) ->
  frame_body s1 rs ds s' ->
  let level i := nth i (map data (bit_polls false rs)) false in
  let aux i := nth i (map pgmData (bit_polls false rs)) false in
  Zone1Light s' = level 0%nat
  /\ Zone2Light s' = level 1%nat
  /\ Zone3Light s' = level 2%nat
  /\ Zone4Light s' = level 3%nat
  /\ Zone5Light s' = level 4%nat
  /\ Zone6Light s' = level 5%nat
  /\ ReadyLight s' = level 8%nat
  /\ ArmedLight s' = level 9%nat
  /\ MemoryLight s' = level 10%nat
  /\ BypassLight s' = level 11%nat
  /\ TroubleLight s' = level 12%nat
  /\ Beep s' = level 15%nat
  /\ Zone1Tripped s' = aux 0%nat
  /\ PGMOutput s' = aux 15%nat.
Proof.
  intros G P B level aux0.
  destruct (frame_snapshots s r s1 tr rs ds s' G P B) as (Hlen & Hcd & Hpd & _).
  assert (Hbit : forall i,
             (i < 16)%nat ->
             Z.testbit (available_controller_data s') (15 - Z.of_nat i)
             = level i).
  { intros i Hi. rewrite Hcd. apply msb_first_testbit;
      rewrite length_map, Hlen; lia. }
  assert (Haux : forall i,
             (i < 16)%nat ->
             Z.testbit (available_pc16out_data s') (15 - Z.of_nat i)
             = aux0 i).
  { intros i Hi. rewrite Hpd. apply msb_first_testbit;
      rewrite length_map, Hlen; lia. }
  assert (Z1 : Zone1Light s' = status_bit 0 s').
  { apply Zone1Light_status_bit. rewrite Hcd.
    unfold is_uint16.
    set (w := msb_first 15 (map data (bit_polls false rs))).
    assert (Hw : uint16 w = w).
    { unfold uint16. change 65536 with (2 ^ 16).
      apply Z.bits_inj'. intros j Hj.
      destruct (Z_lt_dec j 16).
      - apply Z.mod_pow2_bits_low. lia.
      - rewrite Z.mod_pow2_bits_high by lia.
        symmetry. apply msb_first_high; [ | lia].
        rewrite length_map, Hlen. lia. }
    rewrite <- Hw. apply uint16_range. }
  rewrite Z1.
  unfold Zone2Light, Zone3Light, Zone4Light, Zone5Light, Zone6Light,
    ReadyLight, ArmedLight, MemoryLight, BypassLight, TroubleLight, Beep.
  rewrite !status_bit_testbit by lia.
  change (Zone1Tripped s') with (pc16out_bits (2 ^ 15) s').
  change (PGMOutput s') with (pc16out_bits (2 ^ 0) s').
  rewrite (pc16out_single_bit 15 s') by lia.
  rewrite (pc16out_single_bit 0 s') by lia.
  rewrite <- (Hbit 0%nat), <- (Hbit 1%nat), <- (Hbit 2%nat), <- (Hbit 3%nat),
    <- (Hbit 4%nat), <- (Hbit 5%nat), <- (Hbit 8%nat), <- (Hbit 9%nat),
    <- (Hbit 10%nat), <- (Hbit 11%nat), <- (Hbit 12%nat), <- (Hbit 15%nat),
    <- (Haux 0%nat), <- (Haux 15%nat) by lia.
  repeat split; reflexivity.
Qed.

Lemma lights_show_received_bits_witness :
  Zone1Light sample_frame_end = true
  /\ Zone2Light sample_frame_end = false
  /\ Beep sample_frame_end = true.
Proof.
  assert (P : exists s1 tr,
             processClockCycle (PC1550_new 17 18 15 0) (idle_poll 26500)
             = Done (s1, tr)
             /\ exists ds, frame_body s1 sample_body ds sample_frame_end).
  { eexists. eexists. split; [vm_compute; reflexivity | ].
    eexists. apply body_run_sound. vm_compute. reflexivity. }
  destruct P as (s1 & tr & P & ds & B).
  destruct (lights_show_received_bits (PC1550_new 17 18 15 0)
              (idle_poll 26500) s1 tr sample_body ds sample_frame_end
              eq_refl P B)
    as (Z1 & Z2 & _ & _ & _ & _ & _ & _ & _ & _ & _ & Bp & _).
  rewrite Z1, Z2, Bp. repeat split; reflexivity.
Defined.

(** * Runs on which the code goes wrong *)

(** ** A keypad slot after a missed idle gap *)

(** Counting a bit leaves keypad_bits_read alone. *)
Lemma bit_keeps_keypad_count (s : PC1550) (r : readings) (s1 : PC1550)
      (tr : list event) :
  clock_rose s r = true ->
  processClockCycle s r = Done (s1, tr) ->
  keypad_bits_read s1 = keypad_bits_read s.
Proof.
  intros R P.
  apply poll_done_inv in P. destruct P as (_ & -> & _). members.
  destruct (end_of_frame_keeps (at_frame_test s r))
    as (_ & _ & _ & _ & _ & Ek & _).
  rewrite Ek. unfold at_frame_test. rewrite R. reflexivity.
Qed.

(** A keypad slot with seven or more keypad bits read. *)
Lemma keypad_shift_out_of_range (s : PC1550) (r : readings) :
  clock_fell s r = true ->
  idle_gap_seen s r = false ->
  1 <= controller_bits_read s < 8 ->
  7 <= keypad_bits_read s ->
  processClockCycle s r = Undefined.
Proof.
  intros F G Hp Hk. apply poll_undefined. intros [_ D].
  assert (E : gap_handled s r = s |> set_bTransmissionEnd false)
    by (unfold gap_handled; rewrite G; reflexivity).
  assert (K : samples_keypad s r = true).
  { unfold samples_keypad, in_keypad_window. rewrite F, E. members.
    destruct (Z.ltb_spec 0 (controller_bits_read s));
      destruct (Z.ltb_spec (controller_bits_read s) 8);
      try reflexivity; lia. }
  specialize (D K). rewrite E in D. members in D. lia.
Qed.

(** C3. The keypad sample is not always ORed in at bit
    [6 - keypad_bits_read].  Counting a bit never changes
    keypad_bits_read, and the poll that completes a frame resets the frame
    position and the synchronized flag but not keypad_bits_read, which
    only the idle-gap test zeroes.  So after a frame whose seven keypad
    slots were sampled, when the next bit is counted before an idle gap
    was seen, the frame position is 1 again with seven keypad bits read,
    and the keypad slot that follows shifts by 6 - 7: the poll has no
    defined behaviour. *)
Theorem keypad_slot_after_missed_gap :
  (forall s r s1 tr,
      clock_rose s r = true ->
      processClockCycle s r = Done (s1, tr) ->
      keypad_bits_read s1 = keypad_bits_read s
      /\ (bTransmissionEnd s1 = true ->
          synchronized s1 = false /\ controller_bits_read s1 = 0))
  /\
  (forall s r1 s1 tr1 r2,
      synchronized s = false ->
      controller_bits_read s = 0 ->
      keypad_bits_read s = 7 ->
      clock_rose s r1 = true ->
      processClockCycle s r1 = Done (s1, tr1) ->
      clock_fell s1 r2 = true ->
      idle_gap_seen s1 r2 = false ->
      controller_bits_read s1 = 1
      /\ keypad_bits_read s1 = 7
      /\ processClockCycle s1 r2 = Undefined).
Proof.
  split.
  - intros s r s1 tr R P.
    split; [exact (bit_keeps_keypad_count s r s1 tr R P) | ].
    intros B.
    destruct (bit_poll_effect s r s1 tr R P) as (_ & _ & Eb & Es & Ec & _).
    rewrite B in Eb. rewrite <- Eb in Es, Ec. split; assumption.
  - intros s r1 s1 tr1 r2 Hs Hc Hk R P F G.
    pose proof (bit_keeps_keypad_count s r1 s1 tr1 R P) as Ek.
    destruct (bit_poll_effect s r1 s1 tr1 R P) as (Sl & _ & _ & _ & Ec & _).
    rewrite Hs in Ec. cbn [andb] in Ec. rewrite Sl, Hc in Ec.
    split; [exact Ec | ]. split; [congruence | ].
    apply keypad_shift_out_of_range; [exact F | exact G | lia | lia].
Qed.

Lemma keypad_slot_after_missed_gap_witness :
  reachable late_after_frame
  /\ keypad_bits_read late_after_frame = 7
  /\ time_since_last_read late_after_frame (bit_poll 77250 true false) = 28150
  /\ exists s1 tr1,
       processClockCycle late_after_frame (bit_poll 77250 true false)
       = Done (s1, tr1)
       /\ controller_bits_read s1 = 1
       /\ keypad_bits_read s1 = 7
       /\ processClockCycle s1 (keypad_poll 77950 true) = Undefined.
Proof.
  split.
  { apply (reachable_polls (quiet_frames 1 ++ [idle_poll 49850])
             (PC1550_new 17 18 15 0)).
    - apply reach_new.
    - vm_compute. reflexivity. }
  split; [reflexivity | split; [reflexivity | ]].
  assert (P : exists s1 tr1,
             processClockCycle late_after_frame (bit_poll 77250 true false)
             = Done (s1, tr1))
    by (eexists; eexists; vm_compute; reflexivity).
  destruct P as (s1 & tr1 & P). exists s1, tr1.
  split; [exact P | ].
  apply (proj2 keypad_slot_after_missed_gap late_after_frame
           (bit_poll 77250 true false) s1 tr1 (keypad_poll 77950 true)).
  - reflexivity.
  - reflexivity.
  - reflexivity.
  - reflexivity.
  - exact P.
  - pose proof P as Q. vm_compute in Q. injection Q as <- _. reflexivity.
  - pose proof P as Q. vm_compute in Q. injection Q as <- _. reflexivity.
Defined.

(** ** A request accepted while the transmit flag is still up *)

(** C5. A request does not always show the key's bit pattern in n frames.
    The poll that sees the idle gap leaves [transmitting] as it is, so a
    frame given up between its 7th and 8th bit leaves the flag up.  A
    request accepted while the flag is up, at position p in 1..6 of a
    synchronized frame, is sent from the next slot on: that frame shows the
    bits of the code for the slots after p only, and its 7th bit already
    counts as one of the n frames, so the whole pattern appears in n - 1
    frames. *)
Theorem request_accepted_while_transmitting :
  (forall s r s1 tr,
      idle_gap_seen s r = true ->
      processClockCycle s r = Done (s1, tr) ->
      transmitting s1 = transmitting s)
  /\
  (forall s0 c n s rs ds s',
      sendKey s0 c n = (true, s) ->
      0 < n < 256 ->
      synchronized s0 = true ->
      transmitting s0 = true ->
      1 <= controller_bits_read s0 <= 6 ->
      frame_body s rs ds s' ->
      let k := getKeyValue c in
      ds = expected k (controller_bits_read s0)
      /\ keyHoldCycles s' = n - 1
      /\ key_to_send s' = (if n - 1 =? 0 then 0 else k)).
Proof.
  split.
  - intros s r s1 tr G P.
    destruct (sync_poll_effect s r s1 tr G P) as (_ & _ & Et & _).
    exact Et.
  - intros s0 c n s rs ds s' A Hn Hs Ht Hp B k.
    destruct (sendKey_accepted s0 c n s A) as (Hk & Ek & Eh).
    destruct (sendKey_keeps_frame s0 c n) as (Et & Es & Ec & _).
    rewrite A in Et, Es, Ec. cbn [snd] in Et, Es, Ec.
    rewrite uint8_small in Eh by lia.
    assert (KS : key_state k n (controller_bits_read s) s).
    { unfold key_state. rewrite Ec.
      split; [intros _; split; [exact Ek | exact Eh] | ].
      split; [intros _; congruence | intros; lia]. }
    destruct (frame_body_sends k n Hk Hn s rs ds s' B ltac:(congruence)
                ltac:(lia) KS) as (Eds & [Ph Pk] & _).
    rewrite Ec in Eds.
    split; [exact Eds | split; [exact Ph | exact Pk]].
Qed.

Lemma stale_transmitter_reachable : reachable stale_transmitter.
Proof.
  apply (reachable_polls stalled_after_bit_7
           (snd (sendKey after_quiet_frame "7"%char 1))).
  - apply reach_send.
    apply (reachable_polls (quiet_frames 1) (PC1550_new 17 18 15 0)).
    + apply reach_new.
    + vm_compute. reflexivity.
  - vm_compute. reflexivity.
Qed.

Lemma request_accepted_while_transmitting_witness :
  reachable stale_transmitter
  /\ key_to_send stale_transmitter = 0
  /\ keyHoldCycles stale_transmitter = 0
  /\ key_pattern 0x44 = true :: expected 0x44 1
  /\ exists s s' s'',
       sendKey stale_transmitter "7"%char 2 = (true, s)
       /\ frame_body s rest_of_frame (expected 0x44 1) s'
       /\ keyHoldCycles s' = 1
       /\ frames s' [key_pattern 0x44; silent] s''
       /\ keyHoldCycles s'' = 0
       /\ key_to_send s'' = 0.
Proof.
  split; [exact stale_transmitter_reachable | ].
  split; [reflexivity | split; [reflexivity | split; [reflexivity | ]]].
  assert (A : exists s, sendKey stale_transmitter "7"%char 2 = (true, s))
    by (eexists; vm_compute; reflexivity).
  destruct A as (s & A).
  assert (B : exists ds s',
             body_run s rest_of_frame = Some (ds, s')
             /\ exists s'',
                  frames_run s' two_more_frames
                  = Some ([key_pattern 0x44; silent], s'')
                  /\ keyHoldCycles s'' = 0
                  /\ key_to_send s'' = 0).
  { pose proof A as Q. vm_compute in Q. injection Q as <-.
    eexists; eexists. split; [vm_compute; reflexivity | ].
    eexists. split; [vm_compute; reflexivity | split; reflexivity]. }
  destruct B as (ds & s' & B & s'' & F & Fh & Fk).
  apply body_run_sound in B. apply frames_run_sound in F.
  destruct (proj2 request_accepted_while_transmitting stale_transmitter
              "7"%char 2 s rest_of_frame ds s' A)
    as (Eds & Eh & Ek); [lia | reflexivity | reflexivity | | exact B | ].
  { unfold stale_transmitter. members. lia. }
  change (controller_bits_read stale_transmitter) with 1 in Eds.
  change (getKeyValue "7"%char) with 0x44 in Eds.
  rewrite Eds in B.
  exists s, s', s''.
  split; [exact A | ]. split; [exact B | ]. split; [exact Eh | ].
  split; [exact F | split; [exact Fh | exact Fk]].
Defined.

(** ** The count of frames without a key *)

(** One poll of an object with no request: no request appears, and
    cyclesWithoutKey goes up by one, within its eight bits, exactly on a
    quiet frame start. *)
Lemma quiet_poll_counts (s : PC1550) (r : readings) (s1 : PC1550)
      (tr : list event) :
  processClockCycle s r = Done (s1, tr) ->
  key_to_send s = 0 ->
  keyHoldCycles s = 0 ->
  key_to_send s1 = 0
  /\ keyHoldCycles s1 = 0
  /\ cyclesWithoutKey s1
     = (if quiet_frame_start s r then uint8 (cyclesWithoutKey s + 1)
        else cyclesWithoutKey s).
Proof.
  intros P Ek Eh.
  destruct (clock_rose s r) eqn:R.
  - destruct (bit_poll_effect s r s1 tr R P)
      as (_ & _ & _ & _ & _ & _ & Bh & Bk & _).
    destruct (idle_slot s Ek Eh) as (_ & Ih & Ik).
    split; [congruence | ]. split; [congruence | ].
    apply poll_done_inv in P. destruct P as (_ & -> & _). members.
    destruct (end_of_frame_keeps (at_frame_test s r))
      as (_ & _ & _ & _ & Ec & _).
    rewrite Ec. unfold at_frame_test. rewrite R. unfold after_bit. members.
    unfold quiet_frame_start. rewrite R. cbn [andb].
    fold (slot s).
    replace (slot (set_bTransmissionEnd false s)) with (slot s) by reflexivity.
    rewrite Ek. change (0 =? 0) with true. cbn [negb].
    rewrite andb_true_r. reflexivity.
  - apply poll_done_inv in P. destruct P as (_ & -> & _). members.
    destruct (end_of_frame_keeps (at_frame_test s r))
      as (_ & _ & Kk & Kh & Kc & _).
    destruct (quiet_poll_keeps s r R) as (_ & _ & Qk & Qh & Qc & _).
    rewrite Kk, Kh, Kc, Qk, Qh, Qc.
    unfold quiet_frame_start. rewrite R. cbn [andb].
    split; [exact Ek | split; [exact Eh | reflexivity]].
Qed.

Lemma quiet_starts_counted (rs : list readings) :
  forall s s',
    polls s rs = Done s' ->
    key_to_send s = 0 ->
    keyHoldCycles s = 0 ->
    0 <= cyclesWithoutKey s < 256 ->
    key_to_send s' = 0
    /\ keyHoldCycles s' = 0
    /\ cyclesWithoutKey s' = uint8 (cyclesWithoutKey s + quiet_starts s rs).
Proof.
  induction rs as [ | r rs IH]; intros s s' P Ek Eh Hc;
    cbn [polls quiet_starts] in *.
  - injection P as <-. rewrite Z.add_0_r, uint8_small by exact Hc.
    split; [exact Ek | split; [exact Eh | reflexivity]].
  - destruct (processClockCycle s r) as [[s1 tr] | ] eqn:P1;
      cbn [bind fst] in P; [ | discriminate].
    destruct (quiet_poll_counts s r s1 tr P1 Ek Eh) as (Ek1 & Eh1 & Ec1).
    assert (Hc1 : 0 <= cyclesWithoutKey s1 < 256).
    { rewrite Ec1. destruct (quiet_frame_start s r);
        [apply uint8_range | exact Hc]. }
    destruct (IH s1 s' P Ek1 Eh1 Hc1) as (Ek' & Eh' & Ec').
    split; [exact Ek' | split; [exact Eh' | ]].
    rewrite Ec', Ec1. destruct (quiet_frame_start s r).
    + unfold uint8. rewrite Zplus_mod_idemp_l. f_equal. lia.
    + f_equal.
Qed.

(** C7. sendKey does not accept every key symbol once a frame has started
    without a key and no request is pending.  cyclesWithoutKey is a
    uint8_t that is incremented on every quiet frame start, and the test
    is [cyclesWithoutKey < 1]: on an object that was only polled since its
    construction, with q quiet frame starts counted, cyclesWithoutKey is
    q mod 256, and when q is a positive multiple of 256 readyForKeyPress
    is false and sendKey refuses every key and leaves the object as it is,
    though no key code is pending and the hold count is 0. *)
Theorem quiet_frame_count_wraps :
  forall dp cp pp t rs s',
    polls (PC1550_new dp cp pp t) rs = Done s' ->
    let q := quiet_starts (PC1550_new dp cp pp t) rs in
    key_to_send s' = 0
    /\ keyHoldCycles s' = 0
    /\ cyclesWithoutKey s' = q mod 256
    /\ readyForKeyPress s' = negb (q mod 256 =? 0)
    /\ (0 < q -> q mod 256 = 0 -> forall c n, sendKey s' c n = (false, s')).
Proof.
  intros dp cp pp t rs s' P q.
  destruct (quiet_starts_counted rs (PC1550_new dp cp pp t) s' P eq_refl
              eq_refl ltac:(cbn; lia)) as (Ek & Eh & Ec).
  change (cyclesWithoutKey (PC1550_new dp cp pp t)) with 0 in Ec.
  rewrite Z.add_0_l in Ec. fold q in Ec. unfold uint8 in Ec.
  assert (R : readyForKeyPress s' = negb (q mod 256 =? 0)).
  { unfold readyForKeyPress. rewrite Eh, Ec.
    change (0 <? 0) with false. cbn [orb].
    pose proof (Z.mod_pos_bound q 256 ltac:(lia)) as B.
    destruct (Z.ltb_spec (q mod 256) 1);
      destruct (Z.eqb_spec (q mod 256) 0); try reflexivity; lia. }
  split; [exact Ek | ]. split; [exact Eh | ]. split; [exact Ec | ].
  split; [exact R | ].
  intros _ Z0 c n. unfold sendKey. rewrite R, Z0. reflexivity.
Qed.

Lemma quiet_frame_count_wraps_witness :
  polls (PC1550_new 17 18 15 0) (quiet_frames 256)
  = Done after_256_quiet_frames
  /\ quiet_starts (PC1550_new 17 18 15 0) (quiet_frames 256) = 256
  /\ getKeyValue "5"%char = 0x22
  /\ key_to_send after_256_quiet_frames = 0
  /\ keyHoldCycles after_256_quiet_frames = 0
  /\ sendKey after_256_quiet_frames "5"%char 1
     = (false, after_256_quiet_frames)
  /\ fst (sendKey after_255_quiet_frames "5"%char 1) = true.
Proof.
  assert (P : polls (PC1550_new 17 18 15 0) (quiet_frames 256)
              = Done after_256_quiet_frames) by (vm_compute; reflexivity).
  assert (Q : quiet_starts (PC1550_new 17 18 15 0) (quiet_frames 256) = 256)
    by (vm_compute; reflexivity).
  split; [exact P | ]. split; [exact Q | ]. split; [reflexivity | ].
  destruct (quiet_frame_count_wraps 17 18 15 0 (quiet_frames 256)
              after_256_quiet_frames P) as (Ek & Eh & _ & _ & W).
  split; [exact Ek | ]. split; [exact Eh | ].
  split; [ | reflexivity].
  apply W; rewrite Q; [lia | reflexivity].
Defined.
